(** * whatsapp-bridge: local history store, chat naming, event handling
      and the log-message forwarders

    A shallow embedding of [whatsapp-bridge/main.go], of its SQS
    revision (queue producer and consumer) and of the [log-function]
    package.  Go values are modelled as follows:

    - [string] is a Rocq [string]; a [*string] is an [option string];
    - an [error] is an [option string] ([None] is Go's [nil], [Some msg]
      carries [err.Error()]);
    - [time.Time] is the instant it denotes, counted in milliseconds
      from the Unix epoch, a [Z]; the wrap-around of Go's 64-bit
      seconds is written out where the code converts;
    - the SQLite tables are lists of rows, with the schema's PRIMARY KEY
      and FOREIGN KEY constraints written out; a TIMESTAMP column is
      read through the text that the database driver keeps for a time;
    - a Go [map[string]time.Time] is a [gmap string Z];
    - calls that leave the process (HTTP, files, environment, the
      WhatsApp client) are fields of an oracle record;
    - [log.Fatal] and run-time panics end the run with an outcome of
      their own;
    - what is printed or logged is left out, and so are failures of the
      storage engine other than the schema's constraints. *)

From Stdlib Require Import ZArith String List Lia DecimalString.
From Stdlib Require Import Ascii.
From stdpp Require Import base option strings list gmap sorting.
Import ListNotations.

Local Open Scope string_scope.
Local Open Scope Z_scope.

(* ===================================================================== *)
(** ** Go base types *)
(* ===================================================================== *)

(** [error]: [None] is [nil]. *)
Definition error := option string.

(** [time.Time]: the instant, in milliseconds from the Unix epoch.
    Every time the bridge handles carries the location [time.Local]. *)
Definition Time := Z.

(** [[]byte]. *)
Definition bytes := list Byte.byte.

(** Arithmetic on [int64] wraps around. *)
Definition wrap_int64 (z : Z) : Z := (z + 2 ^ 63) mod 2 ^ 64 - 2 ^ 63.

(** The seconds from 1 January of year 1 to the Unix epoch: a
    [time.Time] keeps its seconds counted from year 1, in an [int64]. *)
Definition unixToInternal : Z := 62135596800.

(** [time.Unix(sec, 0)]: the sum [sec + unixToInternal] is the [int64]
    the value keeps, so it wraps for seconds near the top of the
    range. *)
Definition time_Unix (sec : Z) : Time :=
  (wrap_int64 (sec + unixToInternal) - unixToInternal) * 1000.

(** The zero [time.Time{}]: 1 January of year 1, 00:00:00 UTC. *)
Definition zero_Time : Time := - unixToInternal * 1000.

(** [t.UnixMilli()], an [int64]. *)
Definition UnixMilli (t : Time) : Z := wrap_int64 t.

(** The conversion [int64(ts)] of a [uint64]: two's complement wrap. *)
Definition int64_of_uint64 (ts : Z) : Z :=
  if ts <? 2 ^ 63 then ts else ts - 2 ^ 64.

(** [strconv.FormatInt(n, 10)] and the verb [%d]. *)
Definition FormatInt (n : Z) : string :=
  DecimalString.NilZero.string_of_int (Z.to_int n).

(* ===================================================================== *)
(** ** whatsmeow types used by the bridge *)
(* ===================================================================== *)

Module types.
(** [types.JID], restricted to the two fields the bridge reads. *)
Record JID := mkJID { User : string; Server : string }.
End types.

(** [waE2E.ExtendedTextMessage]: [Text *string], [ContextInfo *ContextInfo]. *)
Record ExtendedTextMessage := {
  ext_Text : option string;
  ext_HasContextInfo : bool
}.

(** [waE2E.ImageMessage] and [waE2E.DocumentMessage]: [Caption *string]
    and an opaque media descriptor handed to [client.Download]. *)
Record ImageMessage := { img_Caption : option string; img_Media : string }.
Record DocumentMessage := { doc_Caption : option string; doc_Media : string }.

(** [waE2E.Message] (alias [waProto.Message]). *)
Record WAMessage := {
  msg_Conversation : option string;
  msg_ExtendedTextMessage : option ExtendedTextMessage;
  msg_ImageMessage : option ImageMessage;
  msg_DocumentMessage : option DocumentMessage
}.

(** The generated getters accept a nil receiver. *)
Definition GetConversation (m : option WAMessage) : string :=
  match m with
  | Some x => match msg_Conversation x with Some s => s | None => "" end
  | None => ""
  end.

Definition GetExtendedTextMessage (m : option WAMessage)
  : option ExtendedTextMessage :=
  match m with
  | Some x => msg_ExtendedTextMessage x
  | None => None
  end.

Definition GetText (e : option ExtendedTextMessage) : string :=
  match e with
  | Some x => match ext_Text x with Some s => s | None => "" end
  | None => ""
  end.

(** [types.MessageInfo] and [events.Message]. *)
Record MessageInfo := {
  Chat : types.JID;
  Sender : types.JID;
  IsFromMe : bool;
  ID : string;
  Timestamp : Time
}.

Record EventMessage := {
  Info : MessageInfo;
  Message : option WAMessage
}.

(* ===================================================================== *)
(** ** The message store (main.go, lines 45-164) *)
(* ===================================================================== *)

(** A row of [chats (jid TEXT PRIMARY KEY, name TEXT,
    last_message_time TIMESTAMP)]. *)
Record ChatRow := {
  jid : string;
  name : string;
  last_message_time : Time
}.

(** A row of [messages (id, chat_jid, sender, content, timestamp,
    is_from_me, PRIMARY KEY (id, chat_jid),
    FOREIGN KEY (chat_jid) REFERENCES chats(jid))]. *)
Record MessageRow := {
  id : string;
  chat_jid : string;
  sender : string;
  content : string;
  timestamp : Time;
  is_from_me : bool
}.

(** [MessageStore]: the database [store/messages.db], opened with
    [_foreign_keys=on]. *)
Record MessageStore := {
  chats : list ChatRow;
  messages : list MessageRow
}.

(** The database right after [NewMessageStore] created the tables. *)
Definition NewMessageStore : MessageStore :=
  {| chats := []; messages := [] |}.

Definition same_chat_key (k : string) (r : ChatRow) : bool :=
  String.eqb (jid r) k.

Definition same_message_key (i c : string) (r : MessageRow) : bool :=
  String.eqb (id r) i && String.eqb (chat_jid r) c.

(** [INSERT OR REPLACE INTO chats]: the row that conflicts on the
    primary key is deleted, the new row is inserted.  The foreign key of
    [messages] has no action attached and is checked when the statement
    ends, where a row with that [jid] exists again. *)
Definition StoreChat (store : MessageStore) (j n : string)
    (lastMessageTime : Time) : MessageStore * error :=
  ({| chats :=
        List.filter (fun r => negb (same_chat_key j r)) (chats store)
        ++ [ {| jid := j; name := n; last_message_time := lastMessageTime |} ];
      messages := messages store |}, None).

Definition chat_exists (store : MessageStore) (j : string) : bool :=
  existsb (same_chat_key j) (chats store).

(** [StoreMessage] (lines 105-116): nothing is written for an empty
    content; otherwise [INSERT OR REPLACE INTO messages], which the
    engine rejects when [chat_jid] names no row of [chats]. *)
Definition StoreMessage (store : MessageStore)
    (i chatJID sndr cont : string) (ts : Time) (isFromMe : bool)
  : MessageStore * error :=
  if String.eqb cont "" then (store, None)
  else if chat_exists store chatJID then
    ({| chats := chats store;
        messages :=
          List.filter (fun r => negb (same_message_key i chatJID r))
                      (messages store)
          ++ [ {| id := i; chat_jid := chatJID; sender := sndr;
                  content := cont; timestamp := ts;
                  is_from_me := isFromMe |} ] |}, None)
  else (store, Some "FOREIGN KEY constraint failed").

(** The rows of a table that carry a given key. *)
Definition message_rows (store : MessageStore) (i c : string)
  : list MessageRow :=
  List.filter (same_message_key i c) (messages store).

(** The writes of the bridge: [StoreChat] and [StoreMessage] hold its
    only statements that change a table (there is no DELETE and no
    UPDATE), so what happens to the database between two calls is a
    list of them. *)
Inductive Write :=
| WriteChat (j n : string) (lastMessageTime : Time)
| WriteMessage (i chatJID sndr cont : string) (ts : Time) (isFromMe : bool).

Definition apply_write (store : MessageStore) (op : Write) : MessageStore :=
  match op with
  | WriteChat j n t => fst (StoreChat store j n t)
  | WriteMessage i c s cont ts b => fst (StoreMessage store i c s cont ts b)
  end.

Definition apply_writes (store : MessageStore) (ops : list Write)
  : MessageStore :=
  fold_left apply_write ops store.

(** The TIMESTAMP columns.  The go-sqlite3 driver binds a [time.Time]
    as a text, [t.Format("2006-01-02 15:04:05.999999999-07:00")], taken
    in the location the value carries, which is [time.Local] for every
    time the bridge stores.  SQLite keeps that text as it is (the
    NUMERIC affinity of a TIMESTAMP column converts well-formed numbers
    only) and compares two of them byte by byte.  On [Scan] the driver
    parses the text with its timestamp layouts and hands back the time
    it read, or the zero [time.Time] with a [nil] error when no layout
    fits.  The rows of the model keep the instant that was bound; a
    [Driver] gives its text and what the parser makes of a text. *)
Record Driver := {
  timestamp_text : Time -> string;
  timestamp_parse : string -> option Time
}.

(** What [Scan] puts into a [*time.Time] for a time that was stored. *)
Definition scan_time (d : Driver) (t : Time) : Time :=
  match timestamp_parse d (timestamp_text d t) with
  | Some t' => t'
  | None => zero_Time
  end.

(** The order of two texts under SQLite's collation BINARY. *)
Definition text_le (a b : string) : Prop := String.leb a b = true.

(** [ORDER BY last_message_time DESC]; rows whose texts are equal come
    in an order that SQLite does not fix. *)
Definition newer_first (d : Driver) (a b : ChatRow) : Prop :=
  text_le (timestamp_text d (last_message_time b))
          (timestamp_text d (last_message_time a)).

#[global] Instance newer_first_dec (d : Driver) : RelDecision (newer_first d).
Proof. intros a b. unfold newer_first, text_le. apply _. Defined.

Definition query_chats_by_time_desc (d : Driver) (store : MessageStore)
  : list ChatRow :=
  merge_sort (newer_first d) (chats store).

(** The loop [for rows.Next() { rows.Scan(&jid, &lastMessageTime);
    chats[jid] = lastMessageTime }]. *)
Definition collect_chats (d : Driver) (rows : list ChatRow)
  : gmap string Time :=
  foldl (fun m r => <[ jid r := scan_time d (last_message_time r) ]> m)
        ∅ rows.

(** [GetChats] (lines 145-164): the ordered query result is poured into
    a Go map. *)
Definition GetChats (d : Driver) (store : MessageStore)
  : gmap string Time * error :=
  (collect_chats d (query_chats_by_time_desc d store), None).

(** [SELECT name FROM chats WHERE jid = ?] followed by [Scan]: the name
    of the row, or [sql.ErrNoRows]. *)
Definition query_chat_name (store : MessageStore) (chatJID : string)
  : string + string :=
  match List.find (same_chat_key chatJID) (chats store) with
  | Some r => inl (name r)
  | None => inr "sql: no rows in result set"
  end.

(* ===================================================================== *)
(** ** The driver's text for a time *)
(* ===================================================================== *)

(** The civil date of a day counted from 1 January 1970, in the
    proleptic Gregorian calendar. *)
Definition civil_from_days (days : Z) : Z * Z * Z :=
  let z := days + 719468 in
  let era := z / 146097 in
  let doe := z mod 146097 in
  let yoe := (doe - doe / 1460 + doe / 36524 - doe / 146096) / 365 in
  let doy := doe - (365 * yoe + yoe / 4 - yoe / 100) in
  let mp := (5 * doy + 2) / 153 in
  let d := doy - (153 * mp + 2) / 5 + 1 in
  let m := if mp <? 10 then mp + 3 else mp - 9 in
  let y := yoe + era * 400 + (if m <=? 2 then 1 else 0) in
  (y, m, d).

(** The day, counted from 1 January 1970, of a civil date. *)
Definition days_from_civil (y m d : Z) : Z :=
  let y' := if m <=? 2 then y - 1 else y in
  let era := y' / 400 in
  let yoe := y' mod 400 in
  let doy := (153 * (if 2 <? m then m - 3 else m + 9) + 2) / 5 + d - 1 in
  let doe := yoe * 365 + yoe / 4 - yoe / 100 + doy in
  era * 146097 + doe - 719468.

(** [isLeap] and [daysIn] of package time. *)
Definition isLeap (y : Z) : bool :=
  (y mod 4 =? 0) && (negb (y mod 100 =? 0) || (y mod 400 =? 0)).

Definition daysIn (m y : Z) : Z :=
  if m =? 2 then (if isLeap y then 29 else 28)
  else if (m =? 4) || (m =? 6) || (m =? 9) || (m =? 11) then 30 else 31.

(** The padding of [appendInt]. *)
Fixpoint zeros (n : nat) : string :=
  match n with O => "" | S n' => String "0" (zeros n') end.

(** [appendInt(b, x, width)] of package time. *)
Definition appendInt (x : Z) (width : nat) : string :=
  let u := FormatInt (Z.abs x) in
  (if x <? 0 then "-" else "")
  +:+ zeros (width - String.length u) +:+ u.

(** The verb [.999999999] on a time that holds whole milliseconds. *)
Definition formatFraction (ms : Z) : string :=
  if ms =? 0 then ""
  else if ms mod 100 =? 0 then "." +:+ appendInt (ms / 100) 1
  else if ms mod 10 =? 0 then "." +:+ appendInt (ms / 10) 2
  else "." +:+ appendInt ms 3.

(** The verb [-07:00]. *)
Definition formatZone (offset : Z) : string :=
  let zone := Z.quot offset 60 in
  (if zone <? 0 then "-" else "+")
  +:+ appendInt (Z.abs zone / 60) 2 +:+ ":" +:+ appendInt (Z.abs zone mod 60) 2.

(** A [*time.Location]: the offset from UTC, in seconds east, that is
    in force at a Unix second. *)
Definition Location := Z -> Z.

(** The seconds from 1 January of the year -292277022399 to the Unix
    epoch: package time computes a date from [t.abs()], the seconds
    counted from that year in a [uint64]. *)
Definition unixToAbsolute : Z := 9223372028715321600.

(** [t.Format("2006-01-02 15:04:05.999999999-07:00")] of a time that
    carries the location [loc]. *)
Definition Format (loc : Location) (t : Time) : string :=
  let unixSec := wrap_int64 (t / 1000) in
  let offset := loc unixSec in
  let abs := (unixSec + offset + unixToAbsolute) mod 2 ^ 64 in
  let sec := abs - unixToAbsolute in
  let '(y, m, d) := civil_from_days (sec / 86400) in
  let tod := sec mod 86400 in
  appendInt y 4 +:+ "-" +:+ appendInt m 2 +:+ "-" +:+ appendInt d 2
  +:+ " " +:+ appendInt (tod / 3600) 2 +:+ ":" +:+ appendInt (tod mod 3600 / 60) 2
  +:+ ":" +:+ appendInt (tod mod 60) 2
  +:+ formatFraction (t mod 1000) +:+ formatZone offset.


(** The value of a decimal digit. *)
Definition digit_value (c : ascii) : option Z :=
  let n := Z.of_N (N_of_ascii c) in
  if (48 <=? n) && (n <=? 57) then Some (n - 48) else None.

(** [getnum(s, true)]: two digits. *)
Definition two_digits (s : string) : option (Z * string) :=
  match s with
  | String a (String b rest) =>
      match digit_value a, digit_value b with
      | Some x, Some y => Some (10 * x + y, rest)
      | _, _ => None
      end
  | _ => None
  end.

(** [getnum(s, false)]: one digit, or two when a second one follows. *)
Definition one_or_two_digits (s : string) : option (Z * string) :=
  match s with
  | String a rest =>
      match digit_value a with
      | Some x =>
          match rest with
          | String b rest' =>
              match digit_value b with
              | Some y => Some (10 * x + y, rest')
              | None => Some (x, rest)
              end
          | EmptyString => Some (x, rest)
          end
      | None => None
      end
  | EmptyString => None
  end.

(** The year of the layout element [2006]: four digits. *)
Definition four_digits (s : string) : option (Z * string) :=
  match two_digits s with
  | Some (hi, rest) =>
      match two_digits rest with
      | Some (lo, rest') => Some (100 * hi + lo, rest')
      | None => None
      end
  | None => None
  end.

(** A literal character of the layout. *)
Definition expect (c : ascii) (s : string) : option string :=
  match s with
  | String a rest => if Ascii.eqb a c then Some rest else None
  | EmptyString => None
  end.

(** Up to [n] digits of a fraction: their value scaled to [n] digits,
    and the rest of the text. *)
Fixpoint fraction_digits (n : nat) (acc : Z) (s : string) : Z * string :=
  match n with
  | O => (acc, s)
  | S n' =>
      match s with
      | String a rest =>
          match digit_value a with
          | Some x => fraction_digits n' (10 * acc + x) rest
          | None => (acc * 10 ^ Z.of_nat n, s)
          end
      | EmptyString => (acc * 10 ^ Z.of_nat n, s)
      end
  end.

(** The element [.999999999]: a fraction is read when a period or a
    comma is followed by a digit; the result is in nanoseconds. *)
Definition parseFraction (s : string) : Z * string :=
  match s with
  | String p (String a rest) =>
      if (Ascii.eqb p "." || Ascii.eqb p ",")%bool then
        match digit_value a with
        | Some _ => fraction_digits 9 0 (String a rest)
        | None => (0, s)
        end
      else (0, s)
  | _ => (0, s)
  end.

(** The element [-07:00]: the offset in seconds, and the rest. *)
Definition parseZone (s : string) : option (Z * string) :=
  match s with
  | String sign rest =>
      match two_digits rest with
      | Some (hr, rest1) =>
          match expect ":" rest1 with
          | Some rest2 =>
              match two_digits rest2 with
              | Some (mm, rest3) =>
                  if (24 <? hr) || (60 <? mm) then None
                  else if Ascii.eqb sign "+" then Some ((hr * 60 + mm) * 60, rest3)
                  else if Ascii.eqb sign "-" then Some (- ((hr * 60 + mm) * 60), rest3)
                  else None
              | None => None
              end
          | None => None
          end
      | None => None
      end
  | EmptyString => None
  end.

(** [time.ParseInLocation("2006-01-02 15:04:05.999999999-07:00", s,
    time.UTC)], the first of the driver's layouts: the elements of the
    layout in turn, nothing left over, and the fields in their
    ranges. *)
Definition Parse (s : string) : option Time :=
  '(year, s) ← four_digits s;
  s ← expect "-" s;
  '(month, s) ← two_digits s;
  s ← expect "-" s;
  '(day, s) ← two_digits s;
  s ← expect " " s;
  '(hour, s) ← one_or_two_digits s;
  s ← expect ":" s;
  '(min, s) ← two_digits s;
  s ← expect ":" s;
  '(sec, s) ← two_digits s;
  let '(nsec, s) := parseFraction s in
  '(offset, s) ← parseZone s;
  if negb (String.eqb s "") then None
  else if (month <? 1) || (12 <? month) || (day <? 1)
          || (daysIn month year <? day)
          || (23 <? hour) || (59 <? min) || (59 <? sec) then None
  else Some ((days_from_civil year month day * 86400
              + hour * 3600 + min * 60 + sec - offset) * 1000
             + nsec / 1000000).

(** The go-sqlite3 driver in a process whose [time.Local] is [loc].
    The texts that [Format] writes are in the first of the driver's
    layouts, the only one that fits them. *)
Definition go_sqlite3 (loc : Location) : Driver :=
  {| timestamp_text := Format loc; timestamp_parse := Parse |}.

(** A process that runs in UTC. *)
Definition UTC : Location := fun _ => 0.

(* ===================================================================== *)
(** ** Text extraction (main.go, lines 166-181) *)
(* ===================================================================== *)

Definition extractTextContent (msg : option WAMessage) : string :=
  match msg with
  | None => ""
  | Some _ =>
      let text := GetConversation msg in
      if negb (String.eqb text "") then text
      else match GetExtendedTextMessage msg with
           | Some extendedText => GetText (Some extendedText)
           | None => ""
           end
  end.

(* ===================================================================== *)
(** ** The process: outcomes, state, and the outside world *)
(* ===================================================================== *)

(** What [client.Do] or [http.Get] gives back: a transport error, or a
    response with its status code, status line and body. *)
Inductive http_result :=
| TransportError (e : string)
| Response (StatusCode : Z) (Status : string) (Body : bytes).

Definition StatusOK : Z := 200.

(** A multipart POST to the logging backend: the form fields in the
    order they are written, the optional file part ["files"] with its
    file name, and the [Authorization] header. *)
Record Request := {
  req_url : string;
  req_authorization : string;
  req_fields : list (string * string);
  req_file : option (string * bytes)
}.

(** Everything outside the process.  Each field answers one library
    call of the source. *)
Record World := {
  godotenv_Load : error;
  os_Getenv : string -> string;
  os_Open : string -> bytes + string;
  os_WriteFile : string -> bytes -> error;
  filepath_Base : string -> string;
  CreateFormFile : string -> error;
  io_Copy : bytes -> error;
  writer_Close : error;
  http_NewRequest : string -> string -> error;
  http_Get : string -> http_result;
  http_Do : Request -> http_result;
  time_Now_UnixNano : Z
}.

(** How a call ends: it returns, the process exits through [log.Fatal],
    or it panics. *)
Inductive outcome (A : Type) :=
| Done (a : A)
| Fatal (msg : string)
| Panic (msg : string).
Arguments Done {A} a.
Arguments Fatal {A} msg.
Arguments Panic {A} msg.

(** The state a call can change: the message database, the log of
    requests that reached [client.Do], the bodies accepted by the queue
    and the receipt handles of the queue entries deleted so far. *)
Record Proc := {
  db : MessageStore;
  posts : list Request;
  enqueued : list string;
  deleted : list string
}.

Definition M (A : Type) : Type := Proc -> outcome A * Proc.

Definition ret {A} (a : A) : M A := fun s => (Done a, s).

Definition bind {A B} (m : M A) (k : A -> M B) : M B :=
  fun s =>
    match m s with
    | (Done a, s') => k a s'
    | (Fatal msg, s') => (Fatal msg, s')
    | (Panic msg, s') => (Panic msg, s')
    end.

Notation "'do' x <- m ; k" := (bind m (fun x => k))
  (at level 10, x name, m at level 100, k at level 200).

Definition log_Fatal {A} (msg : string) : M A := fun s => (Fatal msg, s).
Definition panic {A} (msg : string) : M A := fun s => (Panic msg, s).

Definition nil_dereference : string :=
  "runtime error: invalid memory address or nil pointer dereference".

(** [client.Do(req)]: the request is recorded, the world answers. *)
Definition client_Do (w : World) (req : Request) : M http_result :=
  fun s => (Done (http_Do w req),
            {| db := db s; posts := posts s ++ [req];
               enqueued := enqueued s; deleted := deleted s |}).

(** Running a database operation on the process's store. *)
Definition on_store {A} (op : MessageStore -> MessageStore * A) : M A :=
  fun s => let '(st, a) := op (db s) in
           (Done a, {| db := st; posts := posts s;
                       enqueued := enqueued s; deleted := deleted s |}).

Definition get_store : M MessageStore := fun s => (Done (db s), s).

(** The five form fields every forwarder writes. *)
Definition log_fields (senderPhone recipientPhone text : string)
    (messageTime : Time) : list (string * string) :=
  [ ("entity_phone_number_from", senderPhone);
    ("entity_phone_number_to", recipientPhone);
    ("message_text", text);
    ("message_status", "READ");
    ("message_time", FormatInt (UnixMilli messageTime)) ].

(** The three identity fields of the later forwarders. *)
Definition identity_fields (adminPhone msgId parMsgId : string)
  : list (string * string) :=
  [ ("admin_phone", adminPhone);
    ("wa_message_id", msgId);
    ("wa_parent_message_id", parMsgId) ].

Definition is_empty (s : string) : bool := String.eqb s "".

(* ===================================================================== *)
(** ** Forwarders of main.go (lines 583-747) *)
(* ===================================================================== *)

Definition LogAPIEndpoint : string :=
  "https://backend.railse.com/whatsapp/log-message".

(** [logMessage] (lines 585-626). *)
Definition logMessage (w : World) (senderPhone text recipientPhone : string)
    (messageTime : Time) : M error :=
  match godotenv_Load w with
  | Some _ => log_Fatal "Error loading .env file"
  | None =>
    let bearerToken := os_Getenv w "BEARER_TOKEN" in
    if is_empty bearerToken then log_Fatal "BEARER_TOKEN not set in .env file"
    else
      match http_NewRequest w "POST" LogAPIEndpoint with
      | Some err => ret (Some err)
      | None =>
        do resp <- client_Do w
          {| req_url := LogAPIEndpoint;
             req_authorization := "Bearer " +:+ bearerToken;
             req_fields :=
               log_fields senderPhone recipientPhone text messageTime;
             req_file := None |};
        match resp with
        | TransportError err => ret (Some err)
        | Response _ _ _ => ret None
        end
      end
  end.

(** [logImageMessage] (lines 628-687) and [logDocumentMessage]
    (lines 689-747) have one body. *)
Definition logFileMessage (w : World)
    (senderPhone text recipientPhone filePath : string)
    (messageTime : Time) : M error :=
  match godotenv_Load w with
  | Some _ => log_Fatal "Error loading .env file"
  | None =>
    let bearerToken := os_Getenv w "BEARER_TOKEN" in
    if is_empty bearerToken then log_Fatal "BEARER_TOKEN not set in .env file"
    else
      match os_Open w filePath with
      | inr err => ret (Some err)
      | inl file =>
        match CreateFormFile w (filepath_Base w filePath) with
        | Some err => ret (Some err)
        | None =>
          match io_Copy w file with
          | Some err => ret (Some err)
          | None =>
            match http_NewRequest w "POST" LogAPIEndpoint with
            | Some err => ret (Some err)
            | None =>
              do resp <- client_Do w
                {| req_url := LogAPIEndpoint;
                   req_authorization := "Bearer " +:+ bearerToken;
                   req_fields :=
                     log_fields senderPhone recipientPhone text messageTime;
                   req_file := Some (filepath_Base w filePath, file) |};
              match resp with
              | TransportError err => ret (Some err)
              | Response _ _ _ => ret None
              end
            end
          end
        end
      end
  end.

Definition logImageMessage := logFileMessage.
Definition logDocumentMessage := logFileMessage.

(* ===================================================================== *)
(** ** Package log-function *)
(* ===================================================================== *)

(** The forwarders of the package as the queue consumer calls them:
    [logMessage.go] (first revision), [LogDocumentMessage.go] and the
    files holding [LogImageMessage], [LogImageMessageSQS] and the
    five-argument [LogDocumentMessageSQS]. *)
Module logfunction.

Definition LogAPIEndpoint : string :=
  "https://backend.railse.com/whatsapp/log-message".

(** [LogMessage], four arguments. *)
Definition LogMessage (w : World) (senderPhone text recipientPhone : string)
    (messageTime : Time) : M error :=
  match godotenv_Load w with
  | Some _ => log_Fatal "Error loading .env file"
  | None =>
    let bearerToken := os_Getenv w "BEARER_TOKEN" in
    if is_empty bearerToken
    then log_Fatal "BEARER_TOKEN not set in .env file"
    else
      match http_NewRequest w "POST" LogAPIEndpoint with
      | Some err => ret (Some err)
      | None =>
        do resp <- client_Do w
          {| req_url := LogAPIEndpoint;
             req_authorization := "Bearer " +:+ bearerToken;
             req_fields :=
               log_fields senderPhone recipientPhone text messageTime;
             req_file := None |};
        match resp with
        | TransportError err => ret (Some err)
        | Response _ _ _ => ret None
        end
      end
  end.

(** [LogImageMessage]: the image is a local file. *)
Definition LogImageMessage (w : World)
    (senderPhone text recipientPhone filePath : string)
    (messageTime : Time) : M error :=
  match godotenv_Load w with
  | Some _ => log_Fatal "Error loading .env file"
  | None =>
    let bearerToken := os_Getenv w "BEARER_TOKEN" in
    if is_empty bearerToken
    then log_Fatal "BEARER_TOKEN not set in .env file"
    else
      match os_Open w filePath with
      | inr err => ret (Some err)
      | inl file =>
        match CreateFormFile w (filepath_Base w filePath) with
        | Some err => ret (Some err)
        | None =>
          match io_Copy w file with
          | Some err => ret (Some err)
          | None =>
            match http_NewRequest w "POST" LogAPIEndpoint with
            | Some err => ret (Some err)
            | None =>
              do apiResp <- client_Do w
                {| req_url := LogAPIEndpoint;
                   req_authorization := "Bearer " +:+ bearerToken;
                   req_fields :=
                     log_fields senderPhone recipientPhone text messageTime;
                   req_file := Some (filepath_Base w filePath, file) |};
              match apiResp with
              | TransportError err => ret (Some err)
              | Response _ _ _ => ret None
              end
            end
          end
        end
      end
  end.

(** [LogDocumentMessage]: a local file; a missing token and a status
    other than 200 are returned as errors. *)
Definition LogDocumentMessage (w : World)
    (senderPhone text recipientPhone filePath : string)
    (messageTime : Time) : M error :=
  match godotenv_Load w with
  | Some err => ret (Some err)
  | None =>
    let bearerToken := os_Getenv w "BEARER_TOKEN" in
    if is_empty bearerToken
    then ret (Some "BEARER_TOKEN not set in .env file")
    else
      match os_Open w filePath with
      | inr err => ret (Some err)
      | inl file =>
        match CreateFormFile w (filepath_Base w filePath) with
        | Some err => ret (Some err)
        | None =>
          match io_Copy w file with
          | Some err => ret (Some err)
          | None =>
            match http_NewRequest w "POST" LogAPIEndpoint with
            | Some err => ret (Some ("error creating request: " +:+ err))
            | None =>
              do apiResp <- client_Do w
                {| req_url := LogAPIEndpoint;
                   req_authorization := "Bearer " +:+ bearerToken;
                   req_fields :=
                     log_fields senderPhone recipientPhone text messageTime;
                   req_file := Some (filepath_Base w filePath, file) |};
              match apiResp with
              | TransportError err => ret (Some err)
              | Response code status _ =>
                  if negb (code =? StatusOK)
                  then ret (Some ("error response from log API: "
                                  +:+ status))
                  else ret None
              end
            end
          end
        end
      end
  end.

(** [LogImageMessageSQS]: the image is fetched with [http.Get]; the
    status of the fetch is not looked at, the status of the POST is. *)
Definition LogImageMessageSQS (w : World)
    (senderPhone text recipientPhone filePath : string)
    (messageTime : Time) : M error :=
  match godotenv_Load w with
  | Some err => ret (Some err)
  | None =>
    let bearerToken := os_Getenv w "BEARER_TOKEN" in
    if is_empty bearerToken
    then ret (Some "BEARER_TOKEN not set in .env file")
    else
      match http_Get w filePath with
      | TransportError err => ret (Some err)
      | Response _ _ body =>
        match CreateFormFile w (filepath_Base w filePath) with
        | Some err => ret (Some err)
        | None =>
          match io_Copy w body with
          | Some err => ret (Some err)
          | None =>
            match http_NewRequest w "POST" LogAPIEndpoint with
            | Some err => ret (Some ("error creating request: " +:+ err))
            | None =>
              do apiResp <- client_Do w
                {| req_url := LogAPIEndpoint;
                   req_authorization := "Bearer " +:+ bearerToken;
                   req_fields :=
                     log_fields senderPhone recipientPhone text messageTime;
                   req_file := Some (filepath_Base w filePath, body) |};
              match apiResp with
              | TransportError err => ret (Some err)
              | Response code status _ =>
                  if negb (code =? StatusOK)
                  then ret (Some ("error response from log API: "
                                  +:+ status))
                  else ret None
              end
            end
          end
        end
      end
  end.

(** [LogDocumentMessageSQS], five arguments: fetched with [http.Get],
    neither status is looked at. *)
Definition LogDocumentMessageSQS (w : World)
    (senderPhone text recipientPhone filePath : string)
    (messageTime : Time) : M error :=
  match godotenv_Load w with
  | Some _ => log_Fatal "Error loading .env file"
  | None =>
    let bearerToken := os_Getenv w "BEARER_TOKEN" in
    if is_empty bearerToken
    then log_Fatal "BEARER_TOKEN not set in .env file"
    else
      match http_Get w filePath with
      | TransportError err => ret (Some err)
      | Response _ _ body =>
        match CreateFormFile w (filepath_Base w filePath) with
        | Some err => ret (Some err)
        | None =>
          match io_Copy w body with
          | Some err => ret (Some err)
          | None =>
            match http_NewRequest w "POST" LogAPIEndpoint with
            | Some err => ret (Some err)
            | None =>
              do apiResp <- client_Do w
                {| req_url := LogAPIEndpoint;
                   req_authorization := "Bearer " +:+ bearerToken;
                   req_fields :=
                     log_fields senderPhone recipientPhone text messageTime;
                   req_file := Some (filepath_Base w filePath, body) |};
              match apiResp with
              | TransportError err => ret (Some err)
              | Response _ _ _ => ret None
              end
            end
          end
        end
      end
  end.

End logfunction.

(** The revision of [LogMessage] that carries the identity fields and
    checks the response status (seven arguments, public endpoint). *)
Module logfunction_v2.

Definition LogAPIEndpoint : string :=
  "https://backend.railse.com/whatsapp/log-message".

Definition LogMessage (w : World) (senderPhone text recipientPhone : string)
    (messageTime : Time) (adminPhone msgId parMsgId : string) : M error :=
  match godotenv_Load w with
  | Some err => ret (Some err)
  | None =>
    let bearerToken := os_Getenv w "BEARER_TOKEN" in
    if is_empty bearerToken
    then ret (Some "BEARER_TOKEN not set in .env file")
    else
      match http_NewRequest w "POST" LogAPIEndpoint with
      | Some err => ret (Some ("error creating request: " +:+ err))
      | None =>
        do resp <- client_Do w
          {| req_url := LogAPIEndpoint;
             req_authorization := "Bearer " +:+ bearerToken;
             req_fields :=
               log_fields senderPhone recipientPhone text messageTime
               ++ identity_fields adminPhone msgId parMsgId;
             req_file := None |};
        match resp with
        | TransportError err => ret (Some err)
        | Response code status _ =>
            if negb (code =? StatusOK)
            then ret (Some ("error response from log API: " +:+ status))
            else ret None
        end
      end
  end.

End logfunction_v2.

(** The latest revision: private endpoint, wrapped errors, time-outs
    (a time-out is a transport error of [client.Do] or [client.Get]). *)
Module logfunction_v3.

Definition LogAPIEndpoint : string :=
  "http://privatebackend.railse.com:8080/whatsapp/log-message".

(** [LogMessage] of [logMessage.go], second revision. *)
Definition LogMessage (w : World) (senderPhone text recipientPhone : string)
    (messageTime : Time) (adminPhone msgId parMsgId : string) : M error :=
  match godotenv_Load w with
  | Some err => ret (Some ("error loading .env file: " +:+ err))
  | None =>
    let bearerToken := os_Getenv w "BEARER_TOKEN" in
    if is_empty bearerToken
    then ret (Some "BEARER_TOKEN not set in .env file")
    else
      match writer_Close w with
      | Some err => ret (Some ("error closing multipart writer: " +:+ err))
      | None =>
        match http_NewRequest w "POST" LogAPIEndpoint with
        | Some err => ret (Some ("error creating request: " +:+ err))
        | None =>
          do resp <- client_Do w
            {| req_url := LogAPIEndpoint;
               req_authorization := "Bearer " +:+ bearerToken;
               req_fields :=
                 log_fields senderPhone recipientPhone text messageTime
                 ++ identity_fields adminPhone msgId parMsgId;
               req_file := None |};
          match resp with
          | TransportError err => ret (Some ("error sending log: " +:+ err))
          | Response code status _ =>
              if negb (code =? StatusOK)
              then ret (Some ("error response from log API: " +:+ status))
              else ret None
          end
        end
      end
  end.

(** [LogDocumentMessageSQS], eight arguments: both the fetch and the
    POST are checked for status 200. *)
Definition LogDocumentMessageSQS (w : World)
    (senderPhone text recipientPhone filePath : string)
    (messageTime : Time) (adminPhone msgId parMsgId : string) : M error :=
  match godotenv_Load w with
  | Some err => ret (Some ("error loading .env file: " +:+ err))
  | None =>
    let bearerToken := os_Getenv w "BEARER_TOKEN" in
    if is_empty bearerToken
    then ret (Some "BEARER_TOKEN not set in .env file")
    else
      match http_Get w filePath with
      | TransportError err =>
          ret (Some ("error fetching S3 file: " +:+ err))
      | Response fcode fstatus body =>
        if negb (fcode =? StatusOK)
        then ret (Some ("non-OK response fetching S3 file: " +:+ fstatus))
        else
          match CreateFormFile w (filepath_Base w filePath) with
          | Some err => ret (Some ("error creating form file: " +:+ err))
          | None =>
            match io_Copy w body with
            | Some err => ret (Some ("error copying file data: " +:+ err))
            | None =>
              match writer_Close w with
              | Some err =>
                  ret (Some ("error closing multipart writer: " +:+ err))
              | None =>
                match http_NewRequest w "POST" LogAPIEndpoint with
                | Some err =>
                    ret (Some ("error creating request: " +:+ err))
                | None =>
                  do apiResp <- client_Do w
                    {| req_url := LogAPIEndpoint;
                       req_authorization := "Bearer " +:+ bearerToken;
                       req_fields :=
                         log_fields senderPhone recipientPhone text
                                    messageTime
                         ++ identity_fields adminPhone msgId parMsgId;
                       req_file := Some (filepath_Base w filePath, body) |};
                  match apiResp with
                  | TransportError err =>
                      ret (Some ("error sending log: " +:+ err))
                  | Response code status _ =>
                      if negb (code =? StatusOK)
                      then ret (Some ("error response from log API: "
                                      +:+ status))
                      else ret None
                  end
                end
              end
            end
          end
      end
  end.

End logfunction_v3.

(* ===================================================================== *)
(** ** The WhatsApp client and values seen through reflection *)
(* ===================================================================== *)

Record GroupInfo := { GroupName : string }.
Record ContactInfo := { FullName : string }.

(** The calls the bridge makes on [*whatsmeow.Client] and on package
    [types]: [client.Store.ID], [client.GetGroupInfo],
    [client.Store.Contacts.GetContact], [client.Download],
    [types.ParseJID] and [JID.String].  The client is one that has been
    paired, as it is when the bridge receives events: its
    [Store.Contacts] is set. *)
Record Client := {
  Store_ID : option types.JID;
  GetGroupInfo : types.JID -> GroupInfo + string;
  GetContact : types.JID -> ContactInfo + string;
  Download : string -> bytes + string;
  ParseJID : string -> types.JID + string;
  JID_String : types.JID -> string
}.

(** A Go value as package [reflect] shows it: its kind, its type name,
    and what [Elem], [FieldByName] and [String] find. *)
#[local] Unset Elimination Schemes.
Inductive rvalue :=
| RString (s : string)
| RPtr (ty : string) (target : option rvalue)
| RStruct (ty : string) (fields : list (string * rvalue))
| ROther (ty : string).
#[local] Set Elimination Schemes.

Definition type_name (v : rvalue) : string :=
  match v with
  | RString _ => "string"
  | RPtr ty _ => ty
  | RStruct ty _ => ty
  | ROther ty => ty
  end.

(** [Value.String]: the string itself for kind String, ["<T Value>"]
    for every other kind. *)
Definition rvalue_String (v : rvalue) : string :=
  match v with
  | RString s => s
  | _ => "<" +:+ type_name v +:+ " Value>"
  end.

Fixpoint assoc (n : string) (fs : list (string * rvalue)) : option rvalue :=
  match fs with
  | [] => None
  | (k, x) :: fs' => if String.eqb k n then Some x else assoc n fs'
  end.

(** [Value.FieldByName]: [None] is the panic on a value that is not a
    struct; [Some None] is the invalid value of a field that does not
    exist. *)
Definition FieldByName (v : rvalue) (n : string) : option (option rvalue) :=
  match v with
  | RStruct _ fs => Some (assoc n fs)
  | _ => None
  end.

(** [f.IsValid() && f.Kind() == reflect.Ptr && !f.IsNil()], then
    [f.Elem().String()]. *)
Definition pointed_string (f : option rvalue) : option string :=
  match f with
  | Some (RPtr _ (Some x)) => Some (rvalue_String x)
  | _ => None
  end.

(** The conversation block of [GetChatName] (lines 994-1022): the name
    it leaves in [name], [""] when it finds none. *)
Definition conversation_name (conversation : option rvalue) : M string :=
  match conversation with
  | None => ret ""
  | Some v =>
    match v with
    | RPtr _ (Some elem) =>
      match FieldByName elem "DisplayName", FieldByName elem "Name" with
      | Some displayNameField, Some nameField =>
        let displayName := pointed_string displayNameField in
        let convName := pointed_string nameField in
        let from_convName :=
          match convName with
          | Some n => if negb (is_empty n) then n else ""
          | None => ""
          end in
        match displayName with
        | Some dn => if negb (is_empty dn) then ret dn else ret from_convName
        | None => ret from_convName
        end
      | _, _ =>
        panic ("reflect: call of reflect.Value.FieldByName on "
               +:+ type_name elem +:+ " Value")
      end
    | _ => ret ""
    end
  end.

(* ===================================================================== *)
(** ** GetChatName (main.go, lines 975-1056) *)
(* ===================================================================== *)

Definition GetChatName (client : Client) (jid : types.JID) (chatJID : string)
    (conversation : option rvalue) (sender : string) : M string :=
  do store <- get_store;
  let cached :=
    match query_chat_name store chatJID with
    | inl existingName =>
        if negb (is_empty existingName) then Some existingName else None
    | inr _ => None
    end in
  match cached with
  | Some existingName => ret existingName
  | None =>
    if String.eqb (types.Server jid) "g.us" then
      do name <- conversation_name conversation;
      if is_empty name then
        match GetGroupInfo client jid with
        | inl groupInfo =>
            if negb (is_empty (GroupName groupInfo))
            then ret (GroupName groupInfo)
            else ret ("Group " +:+ types.User jid)
        | inr _ => ret ("Group " +:+ types.User jid)
        end
      else ret name
    else
      match GetContact client jid with
      | inl contact =>
          if negb (is_empty (FullName contact)) then ret (FullName contact)
          else if negb (is_empty sender) then ret sender
          else ret (types.User jid)
      | inr _ =>
          if negb (is_empty sender) then ret sender
          else ret (types.User jid)
      end
  end.

(* ===================================================================== *)
(** ** Live messages (main.go, lines 798-888 and 1058-1099) *)
(* ===================================================================== *)

(** [handleMessage]: text messages go into the database. *)
Definition handleMessage (client : Client) (msg : EventMessage) : M unit :=
  let content := extractTextContent (Message msg) in
  if is_empty content then ret tt
  else
    let chatJID := JID_String client (Chat (Info msg)) in
    let sender := types.User (Sender (Info msg)) in
    do name <- GetChatName client (Chat (Info msg)) chatJID None sender;
    do _ <- on_store (fun st =>
              StoreChat st chatJID name (Timestamp (Info msg)));
    do _ <- on_store (fun st =>
              StoreMessage st (ID (Info msg)) chatJID sender content
                           (Timestamp (Info msg)) (IsFromMe (Info msg)));
    ret tt.

(** The guard of line 811. *)
Definition is_status (sender recipient : string) : bool :=
  String.eqb sender "status" || String.eqb recipient "status"
  || String.eqb sender "status@broadcast"
  || String.eqb recipient "status@broadcast".

(** A media branch of the handler: download, write the temporary file,
    log.  [false] is the [return] after a failed download or write.  The
    deferred removal of the temporary file is not modelled. *)
Definition forward_media (w : World) (client : Client)
    (media : string) (caption : option string) (tmpFile : string)
    (log : string -> string -> string -> string -> Time -> M error)
    (sender recipient : string) (timestamp : Time) : M bool :=
  match Download client media with
  | inr _ => ret false
  | inl data =>
    match os_WriteFile w tmpFile data with
    | Some _ => ret false
    | None =>
      let caption := match caption with Some s => s | None => "" end in
      do _ <- log sender caption recipient tmpFile timestamp;
      ret true
    end
  end.

(** The [*events.Message] case of the event handler. *)
Definition onMessage (w : World) (client : Client) (v : EventMessage)
  : M unit :=
  do _ <- handleMessage client v;
  let sender := types.User (Sender (Info v)) in
  let timestamp := Timestamp (Info v) in
  let text := GetConversation (Message v) in
  let recipient := types.User (Chat (Info v)) in
  match Message v with
  | None => panic nil_dereference
  | Some m =>
    let image := msg_ImageMessage m in
    let document := msg_DocumentMessage m in
    if is_status sender recipient then ret tt
    else
      do go_on <-
        match document with
        | Some d =>
            forward_media w client (doc_Media d) (doc_Caption d)
              ("store/document_" +:+ FormatInt (time_Now_UnixNano w)
               +:+ ".pdf")
              (logDocumentMessage w) sender recipient timestamp
        | None => ret true
        end;
      if negb go_on then ret tt
      else
        do go_on <-
          match image with
          | Some i =>
              forward_media w client (img_Media i) (img_Caption i)
                ("store/image_" +:+ FormatInt (time_Now_UnixNano w)
                 +:+ ".jpg")
                (logImageMessage w) sender recipient timestamp
          | None => ret true
          end;
        if negb go_on then ret tt
        else if negb (is_empty text)
        then do _ <- logMessage w sender text recipient timestamp; ret tt
        else ret tt
  end.

(* ===================================================================== *)
(** ** History sync (main.go, lines 1105-1223) *)
(* ===================================================================== *)

(** [waCommon.MessageKey], [waWeb.WebMessageInfo],
    [waHistorySync.HistorySyncMsg] and [waHistorySync.Conversation], with
    the fields the bridge reads.  [MessageTimestamp] is a [*uint64]. *)
Record MessageKey := {
  key_FromMe : option bool;
  key_Participant : option string;
  key_ID : option string
}.

Record WebMessageInfo := {
  wmi_Key : option MessageKey;
  wmi_Message : option WAMessage;
  wmi_MessageTimestamp : option Z
}.

Record HistorySyncMsg := { hsm_Message : option WebMessageInfo }.

Record Conversation := {
  conv_ID : option string;
  conv_Messages : list (option HistorySyncMsg);
  conv_DisplayName : option string;
  conv_Name : option string
}.

(** [events.HistorySync]: [Data *HistorySync] with
    [Conversations []*Conversation]. *)
Record HistorySync := { Data : option (list (option Conversation)) }.

Definition GetMessageTimestamp (m : WebMessageInfo) : Z :=
  match wmi_MessageTimestamp m with Some ts => ts | None => 0 end.

(** A [*waHistorySync.Conversation] behind an [interface{}], as
    [reflect.ValueOf] shows it. *)
Definition reflect_string_ptr (p : option string) : rvalue :=
  RPtr "*string" (option_map RString p).

Definition reflect_Conversation (c : Conversation) : rvalue :=
  RPtr "*waHistorySync.Conversation"
    (Some (RStruct "waHistorySync.Conversation"
       [ ("ID", reflect_string_ptr (conv_ID c));
         ("Messages", ROther "[]*waHistorySync.HistorySyncMsg");
         ("Name", reflect_string_ptr (conv_Name c));
         ("DisplayName", reflect_string_ptr (conv_DisplayName c)) ])).

(** The time stamp the loop takes from a record: [None] is the
    [continue] of a record that is nil, has no message info, or whose
    time stamp is 0. *)
Definition record_timestamp (m : option HistorySyncMsg) : option Time :=
  match m with
  | Some {| hsm_Message := Some info |} =>
      let ts := GetMessageTimestamp info in
      if negb (ts =? 0) then Some (time_Unix (int64_of_uint64 ts)) else None
  | _ => None
  end.

(** The text of a history record (lines 1153-1161). *)
Definition history_content (info : WebMessageInfo) : string :=
  match wmi_Message info with
  | Some _ =>
      let conv := GetConversation (wmi_Message info) in
      if negb (is_empty conv) then conv
      else match GetExtendedTextMessage (wmi_Message info) with
           | Some ext => GetText (Some ext)
           | None => ""
           end
  | None => ""
  end.

(** The body of the inner loop (lines 1148-1218); the result is the
    increment of [syncedCount]. *)
Definition syncMessage (client : Client) (jid : types.JID) (chatJID : string)
    (msg : option HistorySyncMsg) : M Z :=
  match msg with
  | Some {| hsm_Message := Some info |} =>
    let content := history_content info in
    if is_empty content then ret 0
    else
      let isFromMe :=
        match wmi_Key info with
        | Some {| key_FromMe := Some b |} => b
        | _ => false
        end in
      do sender <-
        match wmi_Key info with
        | Some key =>
            match key_Participant key with
            | Some p =>
                if negb isFromMe && negb (is_empty p) then ret p
                else if isFromMe then
                  match Store_ID client with
                  | Some me => ret (types.User me)
                  | None => panic nil_dereference
                  end
                else ret (types.User jid)
            | None =>
                if isFromMe then
                  match Store_ID client with
                  | Some me => ret (types.User me)
                  | None => panic nil_dereference
                  end
                else ret (types.User jid)
            end
        | None => ret (types.User jid)
        end;
      let msgID :=
        match wmi_Key info with
        | Some {| key_ID := Some i |} => i
        | _ => ""
        end in
      let ts := GetMessageTimestamp info in
      if ts =? 0 then ret 0
      else
        do err <- on_store (fun st =>
                    StoreMessage st msgID chatJID sender content
                                 (time_Unix (int64_of_uint64 ts)) isFromMe);
        match err with
        | Some _ => ret 0
        | None => ret 1
        end
  | _ => ret 0
  end.

(** A [for ... range] loop whose iterations add to a counter. *)
Fixpoint for_range {A} (body : A -> M Z) (l : list A) : M Z :=
  match l with
  | [] => ret 0
  | x :: l' => do n <- body x; do m <- for_range body l'; ret (n + m)
  end.

(** The body of the outer loop (lines 1110-1220). *)
Definition syncConversation (client : Client)
    (conversation : option Conversation) : M Z :=
  match conversation with
  | None => panic nil_dereference
  | Some conv =>
    match conv_ID conv with
    | None => ret 0
    | Some chatJID =>
      match ParseJID client chatJID with
      | inr _ => ret 0
      | inl jid =>
        do name <- GetChatName client jid chatJID
                     (Some (reflect_Conversation conv)) "";
        match conv_Messages conv with
        | [] => ret 0
        | latestMsg :: _ =>
          match record_timestamp latestMsg with
          | None => ret 0
          | Some timestamp =>
            do _ <- on_store (fun st => StoreChat st chatJID name timestamp);
            for_range (syncMessage client jid chatJID) (conv_Messages conv)
          end
        end
      end
    end
  end.

(** [handleHistorySync]; the result is [syncedCount]. *)
Definition handleHistorySync (client : Client) (historySync : HistorySync)
  : M Z :=
  match Data historySync with
  | None => panic nil_dereference
  | Some conversations => for_range (syncConversation client) conversations
  end.

(** The events the handler switches on, and the handler. *)
Inductive Event :=
| EvMessage (v : EventMessage)
| EvReceipt
| EvHistorySync (v : HistorySync)
| EvConnected
| EvLoggedOut
| EvOther.

Definition eventHandler (w : World) (client : Client) (evt : Event) : M unit :=
  match evt with
  | EvMessage v => onMessage w client v
  | EvHistorySync v => do _ <- handleHistorySync client v; ret tt
  | _ => ret tt
  end.

(* ===================================================================== *)
(** ** The queue consumer and start-up (the SQS revision of main.go) *)
(* ===================================================================== *)

(** [WALogMessageForQueue], the JSON body of a queue entry. *)
Record WALogMessageForQueue := {
  q_Type : string;
  q_From : string;
  q_To : string;
  q_Message : string;
  q_File : string;
  q_Time : Time
}.

(** An entry as [ReceiveMessage] hands it out. *)
Record SQSMessage := { Body : string; ReceiptHandle : string }.

(** The cloud services and the calls made on them:
    [config.LoadDefaultConfig], [GetQueueUrl], [SendMessage],
    [ReceiveMessage], [DeleteMessage], the object store's [PutObject]
    (bucket, key, data), and [json.Marshal] and [json.Unmarshal] on
    queue bodies. *)
Record Queue := {
  LoadDefaultConfig : error;
  GetQueueUrl : string + string;
  SendMessage : string -> error;
  ReceiveMessage : list SQSMessage + string;
  DeleteMessage : string -> error;
  PutObject : string -> string -> bytes -> error;
  json_Marshal : WALogMessageForQueue -> string + string;
  json_Unmarshal : string -> WALogMessageForQueue + string
}.

Definition sqs_Delete (q : Queue) (handle : string) : M error :=
  fun s => (Done (DeleteMessage q handle),
            match DeleteMessage q handle with
            | None => {| db := db s; posts := posts s;
                         enqueued := enqueued s;
                         deleted := deleted s ++ [handle] |}
            | Some _ => s
            end).

(** The loop of [recieveMessagesFromQueue]: an entry is deleted only
    after its forwarder returned [nil]; a failed delete ends the call. *)
Fixpoint dispatch (w : World) (q : Queue) (msgs : list SQSMessage) : M error :=
  match msgs with
  | [] => ret None
  | msg :: rest =>
    match json_Unmarshal q (Body msg) with
    | inr _ => dispatch w q rest
    | inl message =>
      let forwarder : option (M error) :=
        if String.eqb (q_Type message) "text" then
          Some (logfunction.LogMessage w (q_From message) (q_Message message)
                  (q_To message) (q_Time message))
        else if String.eqb (q_Type message) "image" then
          Some (logfunction.LogImageMessageSQS w (q_From message)
                  (q_Message message) (q_To message) (q_File message)
                  (q_Time message))
        else if String.eqb (q_Type message) "document" then
          Some (logfunction.LogDocumentMessageSQS w (q_From message)
                  (q_Message message) (q_To message) (q_File message)
                  (q_Time message))
        else None in
      match forwarder with
      | None => dispatch w q rest
      | Some run =>
        do logErr <- run;
        match logErr with
        | Some _ => dispatch w q rest
        | None =>
          do err <- sqs_Delete q (ReceiptHandle msg);
          match err with
          | Some e => ret (Some ("error deleting message from SQS: " +:+ e))
          | None => dispatch w q rest
          end
        end
      end
    end
  end.

Definition recieveMessagesFromQueue (w : World) (q : Queue) : M error :=
  match ReceiveMessage q with
  | inr e => ret (Some ("error receiving message from SQS: " +:+ e))
  | inl msgs => dispatch w q msgs
  end.

(** How [main] gets to the polling goroutine (lines 938-973 of the SQS
    revision): it returns early, or the relay loop is started. *)
Inductive startup :=
| ReturnedEarly (why : string)
| RelayLoopStarted (queueUrl : string).

Definition main_startup (w : World) (q : Queue) : outcome startup :=
  match godotenv_Load w with
  | Some _ => Done (ReturnedEarly "Error loading .env file")
  | None =>
    match LoadDefaultConfig q with
    | Some _ => Panic nil_dereference
    | None =>
      match GetQueueUrl q with
      | inr _ => Done (ReturnedEarly "Error getting SQS queue URL")
      | inl url => Done (RelayLoopStarted url)
      end
    end
  end.

(** [uploadToS3]. *)
Definition uploadToS3 (w : World) (q : Queue) (bucketName key : string)
    (data : bytes) : string + string :=
  match LoadDefaultConfig q with
  | Some err => inr err
  | None =>
    match PutObject q bucketName key data with
    | Some err => inr err
    | None =>
        inl ("https://" +:+ bucketName +:+ ".s3." +:+ os_Getenv w "AWS_REGION"
             +:+ ".amazonaws.com/" +:+ key)
    end
  end.

(** [sendMessageToQueue]. *)
Definition sendMessageToQueue (q : Queue) (message : WALogMessageForQueue)
  : M error :=
  match json_Marshal q message with
  | inr err => ret (Some ("error marshalling message: " +:+ err))
  | inl messageBytes =>
    match SendMessage q messageBytes with
    | Some err => ret (Some ("error sending message to SQS: " +:+ err))
    | None =>
      fun s => (Done None,
                {| db := db s; posts := posts s;
                   enqueued := enqueued s ++ [messageBytes];
                   deleted := deleted s |})
    end
  end.

(** Sender and recipient as the SQS revision resolves them (lines
    1030-1044): in a group, the participant and the full group JID;
    otherwise the local account and the chat's counterpart, ordered by
    [IsFromMe].  [None] is the nil dereference of [client.Store.ID]. *)
Definition resolve_parties (client : Client) (v : EventMessage)
  : option (string * string) :=
  if String.eqb (types.Server (Chat (Info v))) "g.us" then
    Some (types.User (Sender (Info v)), JID_String client (Chat (Info v)))
  else
    match Store_ID client with
    | None => None
    | Some me =>
        if IsFromMe (Info v)
        then Some (types.User me, types.User (Chat (Info v)))
        else Some (types.User (Chat (Info v)), types.User me)
    end.

(** The [*events.Message] case of the event handler of the SQS
    revision: media goes to the object store, and every envelope goes to
    the queue. *)
Definition onMessageSQS (w : World) (q : Queue) (client : Client)
    (v : EventMessage) : M unit :=
  do _ <- handleMessage client v;
  match resolve_parties client v, Message v with
  | None, _ => panic nil_dereference
  | Some _, None => panic nil_dereference
  | Some (sender, recipient), Some m =>
    let timestamp := Timestamp (Info v) in
    let text := GetConversation (Message v) in
    let image := msg_ImageMessage m in
    let document := msg_DocumentMessage m in
    if is_status sender recipient then ret tt
    else
      do go_on <-
        match document with
        | Some d =>
          match Download client (doc_Media d) with
          | inr _ => ret false
          | inl data =>
            let tmpFile := "whatsapp_failed_files/document_"
                           +:+ FormatInt (time_Now_UnixNano w) +:+ ".pdf" in
            match uploadToS3 w q (os_Getenv w "AWS_S3_BUCKET_NAME")
                             tmpFile data with
            | inr _ => ret false
            | inl url =>
              let caption :=
                match doc_Caption d with Some c => c | None => "" end in
              do err <- sendMessageToQueue q
                {| q_Type := "document"; q_From := sender; q_To := recipient;
                   q_Message := caption; q_File := url;
                   q_Time := timestamp |};
              match err with
              | Some _ => ret false
              | None => ret true
              end
            end
          end
        | None => ret true
        end;
      if negb go_on then ret tt
      else
        do go_on <-
          match image with
          | Some i =>
            match Download client (img_Media i) with
            | inr _ => ret false
            | inl data =>
              let tmpFile := "whatsapp_failed_files/image_"
                             +:+ FormatInt (time_Now_UnixNano w) +:+ ".jpg" in
              match uploadToS3 w q (os_Getenv w "AWS_S3_BUCKET_NAME")
                               tmpFile data with
              | inr _ => ret false
              | inl url =>
                let caption :=
                  match img_Caption i with Some c => c | None => "" end in
                do _ <- sendMessageToQueue q
                  {| q_Type := "image"; q_From := sender; q_To := recipient;
                     q_Message := caption; q_File := url;
                     q_Time := timestamp |};
                ret true
              end
            end
          | None => ret true
          end;
        if negb go_on then ret tt
        else
          do _ <-
            (if negb (is_empty text)
             then sendMessageToQueue q
                    {| q_Type := "text"; q_From := sender; q_To := recipient;
                       q_Message := text; q_File := "";
                       q_Time := timestamp |}
             else ret None);
          match GetExtendedTextMessage (Message v) with
          | Some ext =>
            if ext_HasContextInfo ext then
              let replyMessage := GetText (Some ext) in
              if negb (is_empty replyMessage)
              then do _ <- sendMessageToQueue q
                     {| q_Type := "text"; q_From := sender;
                        q_To := recipient; q_Message := replyMessage;
                        q_File := ""; q_Time := timestamp |};
                   ret tt
              else ret tt
            else ret tt
          | None => ret tt
          end
  end.

(* ===================================================================== *)
(** ** Predicates of the statements, and sample inputs *)
(* ===================================================================== *)

(** The chat has no name in the database: no row, or an empty name. *)
Definition no_stored_name (store : MessageStore) (chatJID : string) : Prop :=
  forall r, In r (chats store) -> jid r = chatJID -> name r = "".

(** A field from which the conversation block takes no name: it does not
    exist, is not a non-nil pointer, or points to the empty string. *)
Definition blank_field (f : option rvalue) : bool :=
  match f with
  | Some (RPtr _ (Some x)) => is_empty (rvalue_String x)
  | _ => true
  end.

(** Conversation metadata that is absent or unusable: a nil interface, a
    value that is not a pointer, a nil pointer, or a pointer to a struct
    whose [DisplayName] and [Name] are both blank. *)
Definition unusable_metadata (conversation : option rvalue) : bool :=
  match conversation with
  | None => true
  | Some (RPtr _ (Some (RStruct _ fs))) =>
      blank_field (assoc "DisplayName" fs) && blank_field (assoc "Name" fs)
  | Some (RPtr _ (Some _)) => false
  | Some _ => true
  end.

(** The live group-info lookup fails or comes back without a name. *)
Definition group_lookup_empty (client : Client) (j : types.JID) : Prop :=
  match GetGroupInfo client j with
  | inl info => GroupName info = ""
  | inr _ => True
  end.

(** A call returned [nil]. *)
Definition succeeded (r : outcome error * Proc) : Prop := fst r = Done None.

(** A call that started in [s] made exactly one POST, and the backend
    answered it with status 200. *)
Definition post_completed_200 (w : World) (s : Proc)
    (r : outcome error * Proc) : Prop :=
  exists req status body,
    posts (snd r) = (posts s ++ [req])%list
    /\ http_Do w req = Response StatusOK status body.

(** A call made no POST. *)
Definition no_post (s : Proc) {A} (r : outcome A * Proc) : Prop :=
  posts (snd r) = posts s.

(** A process that has just opened an empty database. *)
Definition fresh : Proc :=
  {| db := NewMessageStore; posts := []; enqueued := []; deleted := [] |}.

(** A world in which the [.env] file loads, every file and fetch works,
    [BEARER_TOKEN] has the given value and the backend gives the given
    answer. *)
Definition sample_world (token : string) (backend : http_result) : World :=
  {| godotenv_Load := None;
     os_Getenv := fun k => if String.eqb k "BEARER_TOKEN" then token else "";
     os_Open := fun _ => inl [];
     os_WriteFile := fun _ _ => None;
     filepath_Base := fun p => p;
     CreateFormFile := fun _ => None;
     io_Copy := fun _ => None;
     writer_Close := None;
     http_NewRequest := fun _ _ => None;
     http_Get := fun _ => Response 200 "200 OK" [];
     http_Do := fun _ => backend;
     time_Now_UnixNano := 0 |}.

(** A client that is logged in as 1777, knows no contact names and
    cannot reach any group. *)
Definition sample_client : Client :=
  {| Store_ID := Some (types.mkJID "1777" "s.whatsapp.net");
     GetGroupInfo := fun _ => inr "context deadline exceeded";
     GetContact := fun _ => inr "contact not found";
     Download := fun _ => inl [];
     ParseJID := fun _ => inl (types.mkJID "120363041" "g.us");
     JID_String := fun j => types.User j +:+ "@" +:+ types.Server j |}.

(** A status broadcast with the text "hello", posted by 1555. *)
Definition status_event : EventMessage :=
  {| Info := {| Chat := types.mkJID "status" "broadcast";
                Sender := types.mkJID "1555" "s.whatsapp.net";
                IsFromMe := false;
                ID := "3EB0";
                Timestamp := 1700000000000 |};
     Message := Some {| msg_Conversation := Some "hello";
                        msg_ExtendedTextMessage := None;
                        msg_ImageMessage := None;
                        msg_DocumentMessage := None |} |}.

(** Three protocol messages: a text that also carries a quoted text, a
    quoted text alone, and an image with a caption. *)
Definition plain_and_quoted : WAMessage :=
  {| msg_Conversation := Some "hi";
     msg_ExtendedTextMessage :=
       Some {| ext_Text := Some "quoted"; ext_HasContextInfo := true |};
     msg_ImageMessage := None;
     msg_DocumentMessage := None |}.

Definition quoted_only : WAMessage :=
  {| msg_Conversation := None;
     msg_ExtendedTextMessage :=
       Some {| ext_Text := Some "quoted"; ext_HasContextInfo := true |};
     msg_ImageMessage := None;
     msg_DocumentMessage := None |}.

Definition image_only : WAMessage :=
  {| msg_Conversation := None;
     msg_ExtendedTextMessage := None;
     msg_ImageMessage :=
       Some {| img_Caption := Some "a photo"; img_Media := "media-1" |};
     msg_DocumentMessage := None |}.

(** A queue holding one image entry. *)
Definition sample_queue : Queue :=
  {| LoadDefaultConfig := None;
     GetQueueUrl := inl "https://sqs.example/queue";
     SendMessage := fun _ => None;
     ReceiveMessage := inl [ {| Body := "{image}"; ReceiptHandle := "rh-1" |} ];
     DeleteMessage := fun _ => None;
     PutObject := fun _ _ _ => None;
     json_Marshal := fun m => inl (q_Type m +:+ ":" +:+ q_Message m);
     json_Unmarshal := fun _ =>
       inl {| q_Type := "image"; q_From := "1555"; q_To := "1777";
              q_Message := "photo"; q_File := "https://bucket/image.jpg";
              q_Time := 1700000000000 |} |}.

(** Two chats, the older one inserted first. *)
Definition two_chats : MessageStore :=
  {| chats := [ {| jid := "a@s.whatsapp.net"; name := "A";
                   last_message_time := 1000 |};
                {| jid := "b@s.whatsapp.net"; name := "B";
                   last_message_time := 2000 |} ];
     messages := [] |}.

Definition chat_entry (d : Driver) (r : ChatRow) : string * Time :=
  (jid r, scan_time d (last_message_time r)).

(** The orders in which [for jid, t := range chats] may visit the
    entries of a Go map: the language fixes none. *)
Definition range_order (m : gmap string Time) (l : list (string * Time))
  : Prop :=
  l ≡ₚ map_to_list m.

(** Entries listed from the most recent to the least recent time. *)
Definition descending (l : list (string * Time)) : Prop :=
  StronglySorted (fun a b => snd b <= snd a) l.

(** A history record holding a text, with the given time stamp. *)
Definition text_record (text : string) (ts : Z) : option HistorySyncMsg :=
  Some {| hsm_Message :=
            Some {| wmi_Key := Some {| key_FromMe := Some false;
                                        key_Participant := None;
                                        key_ID := Some "H1" |};
                    wmi_Message :=
                      Some {| msg_Conversation := Some text;
                              msg_ExtendedTextMessage := None;
                              msg_ImageMessage := None;
                              msg_DocumentMessage := None |};
                    wmi_MessageTimestamp := Some ts |} |}.

(* ===================================================================== *)
(** ** More of the store: GetMessages and the schema's invariants *)
(* ===================================================================== *)

(** [Message] of main.go (lines 37-43), the element of what
    [GetMessages] returns. *)
Record StoredMessage := {
  m_Time : Time;
  m_Sender : string;
  m_Content : string;
  m_IsFromMe : bool
}.

(** [ORDER BY timestamp DESC], on the stored texts. *)
Definition newest_first (d : Driver) (a b : MessageRow) : Prop :=
  text_le (timestamp_text d (timestamp b)) (timestamp_text d (timestamp a)).

#[global] Instance newest_first_dec (d : Driver) : RelDecision (newest_first d).
Proof. intros a b. unfold newest_first, text_le. apply _. Defined.

Definition in_chat (chatJID : string) (r : MessageRow) : bool :=
  String.eqb (chat_jid r) chatJID.

(** [SELECT ... FROM messages WHERE chat_jid = ? ORDER BY timestamp DESC
    LIMIT ?]; a negative limit is no limit. *)
Definition query_messages (d : Driver) (store : MessageStore)
    (chatJID : string) (limit : Z) : list MessageRow :=
  let rows := merge_sort (newest_first d)
                (List.filter (in_chat chatJID) (messages store)) in
  if limit <? 0 then rows else take (Z.to_nat limit) rows.

(** The [Scan] of one row. *)
Definition scan_message (d : Driver) (r : MessageRow) : StoredMessage :=
  {| m_Time := scan_time d (timestamp r); m_Sender := sender r;
     m_Content := content r; m_IsFromMe := is_from_me r |}.

(** [GetMessages] (lines 118-142). *)
Definition GetMessages (d : Driver) (store : MessageStore)
    (chatJID : string) (limit : Z) : list StoredMessage * error :=
  (map (scan_message d) (query_messages d store chatJID limit), None).

(** The primary key of a message row. *)
Definition message_key (r : MessageRow) : string * string :=
  (id r, chat_jid r).

(** What the schema and [StoreMessage] keep true of the database: both
    primary keys are keys, every message belongs to a stored chat, and
    no stored message has an empty content. *)
Record store_ok (st : MessageStore) : Prop := {
  chats_unique : NoDup (map jid (chats st));
  messages_unique : NoDup (map message_key (messages st));
  messages_have_chat :
    forall r, In r (messages st) -> chat_exists st (chat_jid r) = true;
  messages_have_content :
    forall r, In r (messages st) -> content r <> ""
}.

(** A store with one chat and two of its messages. *)
Definition one_chat_two_messages : MessageStore :=
  {| chats := [ {| jid := "1555@s.whatsapp.net"; name := "Asha";
                   last_message_time := 3000 |} ];
     messages :=
       [ {| id := "A1"; chat_jid := "1555@s.whatsapp.net"; sender := "1555";
            content := "first"; timestamp := 1000; is_from_me := false |};
         {| id := "A2"; chat_jid := "1555@s.whatsapp.net"; sender := "1777";
            content := "second"; timestamp := 3000; is_from_me := true |} ] |}.

(** The driver keeps the order of these instants and reads each of
    them back: their texts compare as the instants do, and the parser
    returns the instant from its text.  With [go_sqlite3] this is the
    case of times in the years 0000 to 9999 between which the zone's
    clock was not set back. *)
Definition reads_back_in_order (d : Driver) (ts : list Time) : bool :=
  forallb (fun a =>
    (scan_time d a =? a)
    && forallb (fun b =>
         implb (String.leb (timestamp_text d a) (timestamp_text d b))
               (a <=? b)) ts) ts.

(** A zone that sets its clock back from UTC+2 to UTC+1 at 01:00 UTC on
    29 October 2023, as Central Europe did. *)
Definition fall_back : Location :=
  fun sec => if sec <? 1698541200 then 7200 else 3600.

(** Two messages of one chat, sent at 00:30 UTC and at 01:10 UTC on that
    day: 02:30 and 02:10 on the local clock. *)
Definition around_fall_back : MessageStore :=
  {| chats := [ {| jid := "1555@s.whatsapp.net"; name := "Asha";
                   last_message_time := 1698541800000 |} ];
     messages :=
       [ {| id := "B1"; chat_jid := "1555@s.whatsapp.net"; sender := "1555";
            content := "before"; timestamp := 1698539400000;
            is_from_me := false |};
         {| id := "B2"; chat_jid := "1555@s.whatsapp.net"; sender := "1555";
            content := "after"; timestamp := 1698541800000;
            is_from_me := false |} ] |}.

(** A chat whose last message carries a time in the year 10000. *)
Definition far_future_chat : MessageStore :=
  {| chats := [ {| jid := "1555@s.whatsapp.net"; name := "Asha";
                   last_message_time := 253402300800000 |} ];
     messages := [] |}.

(** What a forwarder may do to the process: it leaves the database, the
    producer's queue log and the deletions alone, and it makes either no
    POST or one POST that carries the bearer token (which is then not
    empty) and the status ["READ"]. *)
Definition forwards_at_most_once (w : World) (s : Proc)
    (r : outcome error * Proc) : Prop :=
  db (snd r) = db s
  /\ enqueued (snd r) = enqueued s
  /\ deleted (snd r) = deleted s
  /\ (posts (snd r) = posts s
      \/ exists req,
           posts (snd r) = (posts s ++ [req])%list
           /\ req_authorization req
              = "Bearer " +:+ os_Getenv w "BEARER_TOKEN"
           /\ os_Getenv w "BEARER_TOKEN" <> ""
           /\ In ("message_status", "READ") (req_fields req)).

(** A plain text message from 1555, not a status. *)
Definition text_event : EventMessage :=
  {| Info := {| Chat := types.mkJID "1555" "s.whatsapp.net";
                Sender := types.mkJID "1555" "s.whatsapp.net";
                IsFromMe := false;
                ID := "3EB2";
                Timestamp := 1700000000000 |};
     Message := Some {| msg_Conversation := Some "hi";
                        msg_ExtendedTextMessage := None;
                        msg_ImageMessage := None;
                        msg_DocumentMessage := None |} |}.

(** A message from 1555 whose text comes as extended text only, as a
    text with a link preview or a quoted reply does. *)
Definition extended_text_event : EventMessage :=
  {| Info := {| Chat := types.mkJID "1555" "s.whatsapp.net";
                Sender := types.mkJID "1555" "s.whatsapp.net";
                IsFromMe := false;
                ID := "3EB1";
                Timestamp := 1700000000000 |};
     Message := Some quoted_only |}.

(** A client whose downloads fail. *)
Definition offline_media_client : Client :=
  {| Store_ID := Some (types.mkJID "1777" "s.whatsapp.net");
     GetGroupInfo := fun _ => inr "context deadline exceeded";
     GetContact := fun _ => inr "contact not found";
     Download := fun _ => inr "download failed";
     ParseJID := fun _ => inl (types.mkJID "120363041" "g.us");
     JID_String := fun j => types.User j +:+ "@" +:+ types.Server j |}.

(** A document with a caption, sent with a text. *)
Definition document_event : EventMessage :=
  {| Info := {| Chat := types.mkJID "1555" "s.whatsapp.net";
                Sender := types.mkJID "1555" "s.whatsapp.net";
                IsFromMe := false;
                ID := "3EB3";
                Timestamp := 1700000000000 |};
     Message := Some {| msg_Conversation := Some "see attached";
                        msg_ExtendedTextMessage := None;
                        msg_ImageMessage := None;
                        msg_DocumentMessage :=
                          Some {| doc_Caption := Some "report";
                                  doc_Media := "media-2" |} |} |}.

(** A queue entry the consumer cannot dispatch: its body does not decode,
    or its type is none of ["text"], ["image"], ["document"]. *)
Definition undispatchable (q : Queue) (msg : SQSMessage) : Prop :=
  match json_Unmarshal q (Body msg) with
  | inr _ => True
  | inl message =>
      q_Type message <> "text" /\ q_Type message <> "image"
      /\ q_Type message <> "document"
  end.

(** A queue whose entries decode to an audio envelope, a type the
    consumer does not know. *)
Definition audio_queue : Queue :=
  {| LoadDefaultConfig := None;
     GetQueueUrl := inl "https://sqs.example/queue";
     SendMessage := fun _ => None;
     ReceiveMessage := inl [ {| Body := "{audio}"; ReceiptHandle := "rh-7" |} ];
     DeleteMessage := fun _ => None;
     PutObject := fun _ _ _ => None;
     json_Marshal := fun m => inl (q_Type m +:+ ":" +:+ q_Message m);
     json_Unmarshal := fun _ =>
       inl {| q_Type := "audio"; q_From := "1555"; q_To := "1777";
              q_Message := ""; q_File := "https://bucket/voice.ogg";
              q_Time := 1700000000000 |} |}.

(** A reply from 1555: extended text with context info, no plain text. *)
Definition reply_event : EventMessage :=
  {| Info := {| Chat := types.mkJID "1555" "s.whatsapp.net";
                Sender := types.mkJID "1555" "s.whatsapp.net";
                IsFromMe := false;
                ID := "3EB4";
                Timestamp := 1700000000000 |};
     Message := Some quoted_only |}.

(** The parts of a history record that [syncMessage] reads: the
    from-me flag (false when the key or the flag is nil) and the
    message id (empty when the key or the id is nil). *)
Definition history_from_me (info : WebMessageInfo) : bool :=
  match wmi_Key info with
  | Some {| key_FromMe := Some b |} => b
  | _ => false
  end.

Definition history_id (info : WebMessageInfo) : string :=
  match wmi_Key info with
  | Some {| key_ID := Some i |} => i
  | _ => ""
  end.

Definition history_participant (info : WebMessageInfo) : option string :=
  match wmi_Key info with
  | Some key => key_Participant key
  | None => None
  end.

(** A history record that the loop stores: it has message info, a text
    and a time stamp other than 0. *)
Definition storable (rec : option HistorySyncMsg) : bool :=
  match rec with
  | Some {| hsm_Message := Some info |} =>
      negb (is_empty (history_content info))
      && negb (GetMessageTimestamp info =? 0)
  | _ => false
  end.

(** The sender the loop resolves for a record of chat [j]. *)
Inductive history_sender (client : Client) (j : types.JID)
    (info : WebMessageInfo) : string -> Prop :=
| sender_is_me (me : types.JID) :
    history_from_me info = true -> Store_ID client = Some me ->
    history_sender client j info (types.User me)
| sender_is_participant (p : string) :
    history_from_me info = false ->
    history_participant info = Some p -> p <> "" ->
    history_sender client j info p
| sender_is_chat :
    history_from_me info = false ->
    (history_participant info = None \/ history_participant info = Some "") ->
    history_sender client j info (types.User j).

(** A group conversation of three records: a text by a participant, an
    image (no text), and the same text record delivered again. *)
Definition participant_record (text : string) (ts : Z) : option HistorySyncMsg :=
  Some {| hsm_Message :=
            Some {| wmi_Key := Some {| key_FromMe := Some false;
                                        key_Participant :=
                                          Some "1555@s.whatsapp.net";
                                        key_ID := Some "H7" |};
                    wmi_Message :=
                      Some {| msg_Conversation := Some text;
                              msg_ExtendedTextMessage := None;
                              msg_ImageMessage := None;
                              msg_DocumentMessage := None |};
                    wmi_MessageTimestamp := Some ts |} |}.

Definition family_conversation : Conversation :=
  {| conv_ID := Some "120363041@g.us";
     conv_Messages :=
       [ participant_record "hello" 1700000100;
         Some {| hsm_Message :=
                   Some {| wmi_Key := None;
                           wmi_Message := Some image_only;
                           wmi_MessageTimestamp := Some 1700000050 |} |};
         participant_record "hello" 1700000100 ];
     conv_DisplayName := Some "Family";
     conv_Name := None |}.

(* ===================================================================== *)
(** ** The command surface: sending and group creation *)
(* ===================================================================== *)

(** [strings.Contains]. *)
Fixpoint Contains (s substr : string) : bool :=
  String.prefix substr s
  || match s with
     | EmptyString => false
     | String _ s' => Contains s' substr
     end.

(** [whatsmeow.UploadResponse], the fields the bridge copies. *)
Record UploadResponse := {
  up_URL : string;
  up_DirectPath : string;
  up_MediaKey : bytes;
  up_FileEncSHA256 : bytes;
  up_FileSHA256 : bytes;
  up_FileLength : Z
}.

Inductive MediaType := MediaImage | MediaDocument.

(** The protocol messages the bridge builds for [client.SendMessage]:
    a conversation text, an image message (caption, mime type, upload
    fields) or a document message (title, file name, mime type, caption,
    upload fields). *)
Inductive Outgoing :=
| OutConversation (text : string)
| OutImage (caption mimetype : string) (up : UploadResponse)
| OutDocument (title fileName mimetype caption : string)
              (up : UploadResponse).

(** The sending side of [*whatsmeow.Client], with the library call
    [strings.TrimSpace]: [IsConnected], [Upload], [SendMessage],
    [GenerateMessageID] and [CreateGroup] (name, participants, create
    key; the result is the new group's JID). *)
Record Session := {
  session_client : Client;
  IsConnected : bool;
  wa_Upload : bytes -> MediaType -> UploadResponse + string;
  wa_SendMessage : types.JID -> Outgoing -> error;
  wa_GenerateMessageID : string;
  wa_CreateGroup : string -> list types.JID -> string -> types.JID + string;
  strings_TrimSpace : string -> string
}.

(** A call of [client.SendMessage]: the target and the message. *)
Definition Sent : Type := types.JID * Outgoing.

(** The recipient block of the three send functions of main.go (lines
    207-226): a string with an ["@"] is parsed, any other string is a
    phone number on ["s.whatsapp.net"]. *)
Definition recipient_jid (c : Session) (recipient : string)
  : types.JID + string :=
  if Contains recipient "@" then ParseJID (session_client c) recipient
  else inl (types.mkJID recipient "s.whatsapp.net").

(** [sendWhatsAppMessage] (main.go, lines 201-238).  The second
    component lists the calls of [client.SendMessage] that were made. *)
Definition sendWhatsAppMessage (c : Session) (recipient message : string)
  : (bool * string) * list Sent :=
  if negb (IsConnected c) then ((false, "Not connected to WhatsApp"), [])
  else
    match recipient_jid c recipient with
    | inr err => ((false, "Error parsing JID: " +:+ err), [])
    | inl recipientJID =>
      match wa_SendMessage c recipientJID (OutConversation message) with
      | Some err =>
          ((false, "Error sending message: " +:+ err),
           [(recipientJID, OutConversation message)])
      | None =>
          ((true, "Message sent to " +:+ recipient),
           [(recipientJID, OutConversation message)])
      end
    end.

(** [sendWhatsAppImageMessage] (lines 240-293). *)
Definition sendWhatsAppImageMessage (c : Session)
    (recipient message : string) (image : bytes)
  : (bool * string) * list Sent :=
  if negb (IsConnected c) then ((false, "Not connected to WhatsApp"), [])
  else
    match recipient_jid c recipient with
    | inr err => ((false, "Error parsing JID: " +:+ err), [])
    | inl recipientJID =>
      match wa_Upload c image MediaImage with
      | inr err => ((false, "Error uploading image: " +:+ err), [])
      | inl resp =>
        let imageMsg := OutImage message "image/png" resp in
        match wa_SendMessage c recipientJID imageMsg with
        | Some err =>
            ((false, "Error sending image message: " +:+ err),
             [(recipientJID, imageMsg)])
        | None =>
            ((true, "Image message sent to " +:+ recipient),
             [(recipientJID, imageMsg)])
        end
      end
    end.

(** [sendWhatsAppDocumentMessage] (lines 295-348). *)
Definition sendWhatsAppDocumentMessage (c : Session)
    (recipient message : string) (document : bytes)
    (fileName mimeType : string)
  : (bool * string) * list Sent :=
  if negb (IsConnected c) then ((false, "Not connected to WhatsApp"), [])
  else
    match recipient_jid c recipient with
    | inr err => ((false, "Error parsing JID: " +:+ err), [])
    | inl recipientJID =>
      match wa_Upload c document MediaDocument with
      | inr err => ((false, "Error uploading document: " +:+ err), [])
      | inl resp =>
        let docMsg := OutDocument fileName fileName mimeType message resp in
        match wa_SendMessage c recipientJID docMsg with
        | Some err =>
            ((false, "Error sending document message: " +:+ err),
             [(recipientJID, docMsg)])
        | None =>
            ((true, "Document message sent to " +:+ recipient),
             [(recipientJID, docMsg)])
        end
      end
    end.

(** [SendMessageRequest], and a request as the handler sees it: the
    method and what decoding the body as JSON gives. *)
Record SendMessageRequest := {
  smr_Recipient : string;
  smr_Message : string
}.

Record HttpRequest := {
  Method : string;
  decoded_body : SendMessageRequest + string
}.

(** What a handler writes: a plain-text error of [http.Error], or the
    JSON of [SendMessageResponseWithLog]. *)
Inductive ResponseBody :=
| PlainText (msg : string)
| Json (success : bool) (message messageLogged : string).

Record HttpResponse := { code : Z; body : ResponseBody }.

(** [time.Now()], from the clock of the world. *)
Definition time_Now (w : World) : Time := time_Now_UnixNano w / 1000000.

(** The handler of [/api/send] of main.go (lines 353-410).  The result
    is the response and the calls of [client.SendMessage] made. *)
Definition apiSend (w : World) (c : Session) (r : HttpRequest)
  : M (HttpResponse * list Sent) :=
  if negb (String.eqb (Method r) "POST") then
    ret ({| code := 405; body := PlainText "Method not allowed" |}, [])
  else
    match decoded_body r with
    | inr _ =>
        ret ({| code := 400; body := PlainText "Error parsing request body" |},
             [])
    | inl req =>
      if is_empty (smr_Recipient req) || is_empty (smr_Message req) then
        ret ({| code := 400;
                body := PlainText "Recipient and message are required" |}, [])
      else
        let '((success, msg), sent) :=
          sendWhatsAppMessage c (smr_Recipient req) (smr_Message req) in
        do messageLogged <-
          (if success then
             match Store_ID (session_client c) with
             | None => panic nil_dereference
             | Some me =>
               do err <- logMessage w (types.User me) (smr_Message req)
                           (smr_Recipient req) (time_Now w);
               match err with
               | Some _ => ret "Failed to log message"
               | None => ret "Message logged successfully"
               end
             end
           else ret "");
        ret ({| code := if success then 200 else 500;
                body := Json success msg messageLogged |}, sent)
    end.

(** The SQS revision of the command surface. *)
Module sqs_revision.

(** The recipient block of the SQS revision (lines 269-292): a phone
    number with a ["-"] in it is a group id on ["g.us"]. *)
Definition recipient_jid (c : Session) (recipient : string)
  : types.JID + string :=
  if Contains recipient "@" then ParseJID (session_client c) recipient
  else
    let server := if Contains recipient "-" then "g.us"
                  else "s.whatsapp.net" in
    inl (types.mkJID recipient server).

(** [sendWhatsAppMessage] (lines 263-304). *)
Definition sendWhatsAppMessage (c : Session) (recipient message : string)
  : (bool * string) * list Sent :=
  if negb (IsConnected c) then ((false, "Not connected to WhatsApp"), [])
  else
    match recipient_jid c recipient with
    | inr err => ((false, "Error parsing JID: " +:+ err), [])
    | inl recipientJID =>
      match wa_SendMessage c recipientJID (OutConversation message) with
      | Some err =>
          ((false, "Error sending message: " +:+ err),
           [(recipientJID, OutConversation message)])
      | None =>
          ((true, "Message sent to " +:+ recipient),
           [(recipientJID, OutConversation message)])
      end
    end.

(** The handler of [/api/send] (lines 528-597): after a successful send
    the envelope goes to the queue; a queue failure is only logged. *)
Definition apiSend (w : World) (q : Queue) (c : Session) (r : HttpRequest)
  : M (HttpResponse * list Sent) :=
  if negb (String.eqb (Method r) "POST") then
    ret ({| code := 405; body := PlainText "Method not allowed" |}, [])
  else
    match decoded_body r with
    | inr _ =>
        ret ({| code := 400; body := PlainText "Error parsing request body" |},
             [])
    | inl req =>
      if is_empty (smr_Recipient req) || is_empty (smr_Message req) then
        ret ({| code := 400;
                body := PlainText "Recipient and message are required" |}, [])
      else
        let '((success, msg), sent) :=
          sendWhatsAppMessage c (smr_Recipient req) (smr_Message req) in
        do _ <-
          (if success then
             match Store_ID (session_client c) with
             | None => panic nil_dereference
             | Some me =>
               sendMessageToQueue q
                 {| q_Type := "text"; q_From := types.User me;
                    q_To := smr_Recipient req; q_Message := smr_Message req;
                    q_File := ""; q_Time := time_Now w |}
             end
           else ret None);
        ret ({| code := if success then 200 else 500;
                body := Json success msg "" |}, sent)
    end.

(** [CreateGroupRequest] and [CreateGroupResponse]. *)
Record CreateGroupRequest := {
  GroupName : string;
  Members : list string
}.

Record CreateGroupResponse := {
  Success : bool;
  GroupJID : string;
  ResponseMessage : string
}.

(** [types.DefaultUserServer] of whatsmeow. *)
Definition DefaultUserServer : string := "s.whatsapp.net".

(** [strings.NewReplacer("+", "", "-", "", " ", "").Replace]. *)
Fixpoint strip_phone (s : string) : string :=
  match s with
  | EmptyString => EmptyString
  | String ch s' =>
      if (Ascii.eqb ch "+" || Ascii.eqb ch "-" || Ascii.eqb ch " ")%char
      then strip_phone s'
      else String ch (strip_phone s')
  end.

(** The member loop of [createWhatsAppGroup] (lines 446-468): the JIDs
    collected, or the response of the first member that does not
    parse. *)
Fixpoint memberJIDs (c : Session) (members : list string)
  : list types.JID + CreateGroupResponse :=
  match members with
  | [] => inl []
  | member :: rest =>
    let member := strings_TrimSpace c member in
    if is_empty member then memberJIDs c rest
    else
      let parsed : types.JID + string :=
        if Contains member "@" then ParseJID (session_client c) member
        else inl (types.mkJID (strip_phone member) DefaultUserServer) in
      match parsed with
      | inr err =>
          inr {| Success := false; GroupJID := "";
                 ResponseMessage := "Invalid JID '" +:+ member +:+ "': "
                                    +:+ err |}
      | inl memberJID =>
        match memberJIDs c rest with
        | inl jids => inl (memberJID :: jids)
        | inr resp => inr resp
        end
      end
  end.

(** [createWhatsAppGroup] (lines 424-489).  The third component lists
    the calls of [client.CreateGroup] made: name, participants, key. *)
Definition createWhatsAppGroup (c : Session) (req : CreateGroupRequest)
  : CreateGroupResponse * error * list (string * list types.JID * string) :=
  if negb (IsConnected c) then
    ({| Success := false; GroupJID := "";
        ResponseMessage := "Not connected to WhatsApp" |}, None, [])
  else if is_empty (strings_TrimSpace c (GroupName req))
          || (Z.of_nat (length (Members req)) =? 0) then
    ({| Success := false; GroupJID := "";
        ResponseMessage :=
          "Group name and at least one member are required" |}, None, [])
  else if Z.of_nat (String.length (GroupName req)) >? 25 then
    ({| Success := false; GroupJID := "";
        ResponseMessage := "Group name exceeds 25 character limit" |},
     None, [])
  else
    match memberJIDs c (Members req) with
    | inr resp => (resp, None, [])
    | inl jids =>
      let call := (GroupName req, jids, wa_GenerateMessageID c) in
      match wa_CreateGroup c (GroupName req) jids (wa_GenerateMessageID c) with
      | inr err =>
          ({| Success := false; GroupJID := "";
              ResponseMessage := "Error creating group: " +:+ err |},
           None, [call])
      | inl groupJID =>
          ({| Success := true;
              GroupJID := JID_String (session_client c) groupJID;
              ResponseMessage := "Group created successfully" |},
           None, [call])
      end
    end.

End sqs_revision.

(** A connected session that accepts every message; the inputs used
    with it have no blanks around them, so trimming returns them. *)
Definition sample_session : Session :=
  {| session_client := sample_client;
     IsConnected := true;
     wa_Upload := fun _ _ => inr "upload failed";
     wa_SendMessage := fun _ _ => None;
     wa_GenerateMessageID := "3EB0C0FFEE";
     wa_CreateGroup := fun _ _ _ => inl (types.mkJID "120363099" "g.us");
     strings_TrimSpace := fun s => s |}.

(* ===================================================================== *)
(** ** Properties of the store *)
(* ===================================================================== *)

Lemma is_empty_true (s : string) : is_empty s = true <-> s = "".
Proof. unfold is_empty. apply String.eqb_eq. Qed.

Lemma is_empty_false (s : string) : is_empty s = false <-> s <> "".
Proof. unfold is_empty. apply String.eqb_neq. Qed.

Lemma same_message_key_refl (r : MessageRow) :
  same_message_key (id r) (chat_jid r) r = true.
Proof. unfold same_message_key. now rewrite !String.eqb_refl. Qed.

Lemma filter_after_removal {A} (p : A -> bool) (l : list A) :
  List.filter p (List.filter (fun x => negb (p x)) l) = [].
Proof.
  induction l as [|x l IH]; simpl; [reflexivity|].
  destruct (p x) eqn:E; simpl; [exact IH|].
  now rewrite E.
Qed.

(** After an accepted upsert the key has one row, the one just written. *)
Lemma StoreMessage_rows_after (store : MessageStore)
    (i c s cont : string) (ts : Time) (b : bool) :
  cont <> "" -> chat_exists store c = true ->
  StoreMessage store i c s cont ts b
  = ({| chats := chats store;
        messages :=
          List.filter (fun r => negb (same_message_key i c r)) (messages store)
          ++ [ {| id := i; chat_jid := c; sender := s; content := cont;
                  timestamp := ts; is_from_me := b |} ] |}, None).
Proof.
  intros Hc He. unfold StoreMessage.
  apply String.eqb_neq in Hc. now rewrite Hc, He.
Qed.

(** C4: an upsert with empty content changes nothing in the store and
    returns [nil]. *)
Theorem StoreMessage_empty_content_is_noop (store : MessageStore)
    (i chatJID sndr : string) (ts : Time) (isFromMe : bool) :
  StoreMessage store i chatJID sndr "" ts isFromMe = (store, None).
Proof. reflexivity. Qed.

(** C3, as stated, fails on a store that has no chat row for the chat:
    both upserts are rejected by the foreign key and no row is held. *)
Lemma StoreMessage_twice_without_chat_row :
  let r1 := StoreMessage NewMessageStore "m1" "c1" "1555" "first" 1000 false in
  let r2 := StoreMessage (fst r1) "m1" "c1" "1555" "second" 2000 false in
  snd r1 = Some "FOREIGN KEY constraint failed"
  /\ snd r2 = Some "FOREIGN KEY constraint failed"
  /\ message_rows (fst r2) "m1" "c1" = [].
Proof. vm_compute. repeat split. Qed.

(** A chat row, once written, stays: no write removes it. *)
Lemma chat_exists_apply_write (store : MessageStore) (op : Write)
    (c : string) :
  chat_exists store c = true -> chat_exists (apply_write store op) c = true.
Proof.
  unfold chat_exists. intros He. destruct op as [j n t|i c' sd cont ts b].
  - cbn [apply_write StoreChat fst chats].
    rewrite existsb_app. apply orb_true_iff.
    destruct (String.eqb_spec j c) as [->|Hne].
    + right. simpl. unfold same_chat_key. simpl.
      now rewrite String.eqb_refl.
    + left. apply existsb_exists in He. destruct He as (r & Hin & Hk).
      apply existsb_exists. exists r. split; [|exact Hk].
      apply filter_In. split; [exact Hin|].
      unfold same_chat_key in *. apply String.eqb_eq in Hk.
      apply negb_true_iff, String.eqb_neq. congruence.
  - cbn [apply_write]. unfold StoreMessage.
    destruct (String.eqb cont ""); [exact He|].
    destruct (existsb (same_chat_key c') (chats store)) eqn:E;
      unfold chat_exists; rewrite E; exact He.
Qed.

Lemma chat_exists_apply_writes (ops : list Write) (store : MessageStore)
    (c : string) :
  chat_exists store c = true -> chat_exists (apply_writes store ops) c = true.
Proof.
  revert store. induction ops as [|op ops IH]; intros store He; [exact He|].
  cbn [apply_writes fold_left]. apply IH.
  now apply chat_exists_apply_write.
Qed.

(** An upsert that finds no row for its chat is rejected and leaves the
    database as it was. *)
Lemma StoreMessage_rejected (store : MessageStore)
    (i c s cont : string) (ts : Time) (b : bool) :
  cont <> "" -> chat_exists store c = false ->
  StoreMessage store i c s cont ts b
  = (store, Some "FOREIGN KEY constraint failed").
Proof.
  intros Hc He. unfold StoreMessage.
  apply String.eqb_neq in Hc. now rewrite Hc, He.
Qed.

(** C3, amended: take two upserts with one key and non-empty contents,
    from any database and with any writes of the bridge between them.
    An upsert made while the chat has its row succeeds and leaves
    exactly one row for the key, holding what that call wrote, whatever
    the key held before; so after the later call the key has one row
    with the later call's fields.  A chat row that the first call found
    is still there for the second.  An upsert made while the chat has no
    row is rejected with the foreign-key error and leaves the database
    unchanged. *)
Theorem StoreMessage_twice_replaces (store : MessageStore)
    (i chatJID : string)
    (s1 c1 : string) (t1 : Time) (b1 : bool)
    (between : list Write)
    (s2 c2 : string) (t2 : Time) (b2 : bool) :
  c1 <> "" -> c2 <> "" ->
  let r1 := StoreMessage store i chatJID s1 c1 t1 b1 in
  let mid := apply_writes (fst r1) between in
  let r2 := StoreMessage mid i chatJID s2 c2 t2 b2 in
  (chat_exists store chatJID = true ->
     snd r1 = None
     /\ message_rows (fst r1) i chatJID
        = [ {| id := i; chat_jid := chatJID; sender := s1; content := c1;
               timestamp := t1; is_from_me := b1 |} ]
     /\ chat_exists mid chatJID = true)
  /\ (chat_exists store chatJID = false ->
      snd r1 = Some "FOREIGN KEY constraint failed" /\ fst r1 = store)
  /\ (chat_exists mid chatJID = true ->
      snd r2 = None
      /\ message_rows (fst r2) i chatJID
         = [ {| id := i; chat_jid := chatJID; sender := s2; content := c2;
                timestamp := t2; is_from_me := b2 |} ])
  /\ (chat_exists mid chatJID = false ->
      snd r2 = Some "FOREIGN KEY constraint failed" /\ fst r2 = mid).
Proof.
  intros H1 H2. cbv zeta.
  assert (Hone : forall st s c t b, c <> "" ->
            chat_exists st chatJID = true ->
            snd (StoreMessage st i chatJID s c t b) = None
            /\ message_rows (fst (StoreMessage st i chatJID s c t b)) i chatJID
               = [ {| id := i; chat_jid := chatJID; sender := s; content := c;
                      timestamp := t; is_from_me := b |} ]).
  { intros st s c t b Hc He.
    rewrite StoreMessage_rows_after by assumption. cbn [fst snd].
    split; [reflexivity|]. unfold message_rows. cbn [messages].
    rewrite List.filter_app, filter_after_removal. simpl.
    unfold same_message_key. simpl. now rewrite !String.eqb_refl. }
  split; [|split; [|split]].
  - intros He. destruct (Hone store s1 c1 t1 b1 H1 He) as [Hr Hrows].
    split; [exact Hr|]. split; [exact Hrows|].
    apply chat_exists_apply_writes.
    rewrite StoreMessage_rows_after by assumption. exact He.
  - intros He. now rewrite StoreMessage_rejected by assumption.
  - intros He. now apply Hone.
  - intros He. now rewrite StoreMessage_rejected by assumption.
Qed.

Lemma StoreMessage_twice_replaces_witness :
  let store := fst (StoreChat NewMessageStore "c1" "Chat" 500) in
  let r1 := StoreMessage store "m1" "c1" "1555" "first" 1000 false in
  let mid := apply_writes (fst r1)
               [ WriteChat "c2" "Other" 1500;
                 WriteMessage "m1" "c2" "1666" "elsewhere" 1500 false ] in
  let r2 := StoreMessage mid "m1" "c1" "1555" "second" 2000 false in
  snd r1 = None /\ snd r2 = None
  /\ message_rows (fst r2) "m1" "c1"
     = [ {| id := "m1"; chat_jid := "c1"; sender := "1555";
            content := "second"; timestamp := 2000; is_from_me := false |} ].
Proof.
  pose proof (StoreMessage_twice_replaces
                (fst (StoreChat NewMessageStore "c1" "Chat" 500)) "m1" "c1"
                "1555" "first" 1000 false
                [ WriteChat "c2" "Other" 1500;
                  WriteMessage "m1" "c2" "1666" "elsewhere" 1500 false ]
                "1555" "second" 2000 false
                ltac:(discriminate) ltac:(discriminate)) as H.
  cbv zeta in H. destruct H as (Hfirst & _ & Hsecond & _).
  destruct (Hfirst eq_refl) as (Hr1 & _ & Hmid).
  destruct (Hsecond Hmid) as (Hr2 & Hrows).
  cbv zeta. split; [exact Hr1|]. split; [exact Hr2|exact Hrows].
Defined.

(** *** GetChats *)

Lemma text_le_trans (a b c : string) :
  text_le a b -> text_le b c -> text_le a c.
Proof.
  unfold text_le, String.leb. revert b c.
  induction a as [|x a IH]; intros [|y b] [|z c]; simpl; try easy.
  unfold Ascii.compare.
  destruct (N.compare_spec (N_of_ascii x) (N_of_ascii y)) as [Hxy|Hxy|Hxy];
    try easy;
    destruct (N.compare_spec (N_of_ascii y) (N_of_ascii z)) as [Hyz|Hyz|Hyz];
    try easy.
  - rewrite Hxy, Hyz, N.compare_refl. apply IH.
  - intros _ _. rewrite Hxy. now apply N.compare_lt_iff in Hyz as ->.
  - intros _ _. rewrite <- Hyz. now apply N.compare_lt_iff in Hxy as ->.
  - intros _ _.
    assert (H : (N_of_ascii x < N_of_ascii z)%N) by (etransitivity; eassumption).
    now apply N.compare_lt_iff in H as ->.
Qed.

Lemma text_le_total (a b : string) : text_le a b \/ text_le b a.
Proof. apply String.leb_total. Qed.

#[global] Instance newer_first_trans (d : Driver) : Transitive (newer_first d).
Proof. unfold newer_first. intros a b c H1 H2. exact (text_le_trans _ _ _ H2 H1). Qed.

#[global] Instance newer_first_total (d : Driver) : Total (newer_first d).
Proof. unfold newer_first. intros a b. apply text_le_total. Qed.

Lemma query_chats_sorted (d : Driver) (store : MessageStore) :
  StronglySorted (newer_first d) (query_chats_by_time_desc d store).
Proof. apply StronglySorted_merge_sort; apply _. Qed.

Lemma query_chats_all (d : Driver) (store : MessageStore) :
  query_chats_by_time_desc d store ≡ₚ chats store.
Proof. apply merge_sort_Permutation. Qed.

Lemma collect_chats_snoc (d : Driver) (rows : list ChatRow) (r : ChatRow) :
  collect_chats d (rows ++ [r])
  = <[ jid r := scan_time d (last_message_time r) ]> (collect_chats d rows).
Proof. unfold collect_chats. now rewrite foldl_app. Qed.

Lemma collect_chats_list_to_map (d : Driver) (rows : list ChatRow) :
  collect_chats d rows = list_to_map (rev (map (chat_entry d) rows)).
Proof.
  induction rows as [|r rows IH] using rev_ind; [reflexivity|].
  rewrite collect_chats_snoc, IH, map_app, rev_app_distr. reflexivity.
Qed.

(** Distinctness of the keys of a table written out in full. *)
Ltac distinct_keys :=
  repeat (apply NoDup_cons_2 || apply NoDup_nil_2);
  let Hin := fresh "Hin" in
  intros Hin; apply list_elem_of_In in Hin; simpl in Hin;
  intuition discriminate.

Lemma entries_NoDup (d : Driver) (rows : list ChatRow) :
  NoDup (map jid rows) -> NoDup ((rev (map (chat_entry d) rows)).*1).
Proof.
  intros Hnd. rewrite <- Permutation_rev.
  replace ((map (chat_entry d) rows).*1) with (map jid rows); [assumption|].
  clear Hnd. induction rows as [|r rows IH]; simpl; [reflexivity|].
  now rewrite IH.
Qed.

(** With the primary key in force, the map depends on the set of rows
    only: the order of the query result is lost. *)
Lemma collect_chats_permutation (d : Driver) (rows1 rows2 : list ChatRow) :
  NoDup (map jid rows1) -> rows1 ≡ₚ rows2 ->
  collect_chats d rows1 = collect_chats d rows2.
Proof.
  intros Hnd Hp. rewrite !collect_chats_list_to_map.
  apply list_to_map_proper.
  - now apply entries_NoDup.
  - now rewrite Hp.
Qed.

Lemma GetChats_ignores_order (d : Driver) (store : MessageStore) :
  NoDup (map jid (chats store)) ->
  fst (GetChats d store) = collect_chats d (chats store).
Proof.
  intros Hnd. unfold GetChats. cbn [fst].
  symmetry. apply collect_chats_permutation; [assumption|].
  symmetry. apply query_chats_all.
Qed.

(** Every stored chat is in the result, with its time as read back. *)
Lemma GetChats_complete (d : Driver) (store : MessageStore) (r : ChatRow) :
  NoDup (map jid (chats store)) -> In r (chats store) ->
  fst (GetChats d store) !! jid r = Some (scan_time d (last_message_time r)).
Proof.
  intros Hnd Hin. rewrite GetChats_ignores_order by assumption.
  rewrite collect_chats_list_to_map.
  apply elem_of_list_to_map_1.
  - now apply entries_NoDup.
  - apply list_elem_of_In, in_rev. rewrite rev_involutive.
    apply (in_map (chat_entry d)) in Hin. exact Hin.
Qed.

(** C5 at a store of two chats, read by a process that runs in UTC:
    the query is in descending order, but [GetChats] returns the map
    that the ascending order fills as well, and ranging over it may
    give the older chat first. *)
Theorem GetChats_loses_the_order :
  query_chats_by_time_desc (go_sqlite3 UTC) two_chats
  = [ {| jid := "b@s.whatsapp.net"; name := "B"; last_message_time := 2000 |};
      {| jid := "a@s.whatsapp.net"; name := "A"; last_message_time := 1000 |} ]
  /\ GetChats (go_sqlite3 UTC) two_chats
     = (collect_chats (go_sqlite3 UTC) (chats two_chats), None)
  /\ (exists l, range_order (fst (GetChats (go_sqlite3 UTC) two_chats)) l
                /\ ~ descending l).
Proof.
  split; [vm_compute; reflexivity|].
  assert (Hnd : NoDup (map jid (chats two_chats))).
  { simpl. distinct_keys. }
  assert (Heq : fst (GetChats (go_sqlite3 UTC) two_chats)
                = collect_chats (go_sqlite3 UTC) (chats two_chats))
    by now apply GetChats_ignores_order.
  split.
  - unfold GetChats in *. cbn [fst] in Heq. now rewrite Heq.
  - exists [ ("a@s.whatsapp.net", 1000); ("b@s.whatsapp.net", 2000) ].
    split.
    + unfold range_order. rewrite Heq, collect_chats_list_to_map.
      symmetry. etransitivity.
      * apply map_to_list_to_map. now apply entries_NoDup.
      * change (rev (map (chat_entry (go_sqlite3 UTC)) (chats two_chats)))
          with [ ("b@s.whatsapp.net",
                  scan_time (go_sqlite3 UTC) 2000);
                 ("a@s.whatsapp.net",
                  scan_time (go_sqlite3 UTC) 1000) ].
        replace (scan_time (go_sqlite3 UTC) 2000) with 2000
          by (vm_compute; reflexivity).
        replace (scan_time (go_sqlite3 UTC) 1000) with 1000
          by (vm_compute; reflexivity).
        apply Permutation_swap.
    + intros Hd. inversion Hd as [|? ? _ Hall]; subst.
      inversion Hall as [|? ? Hle _]; subst. simpl in Hle. lia.
Qed.

(* ===================================================================== *)
(** ** Properties of text extraction *)
(* ===================================================================== *)

(** The function [extractTextContent] takes the conversation string
    when it is not empty; otherwise the text of the extended-text field
    when the field is present; otherwise the empty string. *)
Theorem extractTextContent_order (msg : option WAMessage) :
  (GetConversation msg <> "" ->
     extractTextContent msg = GetConversation msg)
  /\ (forall e, GetConversation msg = "" ->
        GetExtendedTextMessage msg = Some e ->
        extractTextContent msg = GetText (Some e))
  /\ (GetConversation msg = "" ->
        GetExtendedTextMessage msg = None ->
        extractTextContent msg = "").
Proof.
  destruct msg as [m|]; cbn [extractTextContent].
  - split; [|split].
    + intros H. apply String.eqb_neq in H. now rewrite H.
    + intros e H He. rewrite H, He. reflexivity.
    + intros H He. rewrite H, He. reflexivity.
  - split; [|split].
    + reflexivity.
    + intros e _ He. discriminate He.
    + reflexivity.
Qed.

Lemma extractTextContent_order_witness :
  extractTextContent (Some plain_and_quoted) = "hi"
  /\ extractTextContent (Some quoted_only) = "quoted"
  /\ extractTextContent (Some image_only) = "".
Proof.
  split; [|split].
  - apply (proj1 (extractTextContent_order (Some plain_and_quoted))).
    discriminate.
  - apply (proj1 (proj2 (extractTextContent_order (Some quoted_only)))
             {| ext_Text := Some "quoted"; ext_HasContextInfo := true |});
      reflexivity.
  - apply (proj2 (proj2 (extractTextContent_order (Some image_only))));
      reflexivity.
Defined.

(** The text of a history record is extracted the same way. *)
Lemma history_content_extract (info : WebMessageInfo) :
  history_content info = extractTextContent (wmi_Message info).
Proof.
  unfold history_content, extractTextContent.
  destruct (wmi_Message info); reflexivity.
Qed.

(** C10: extraction returns the empty string for a nil message and for a
    message that has neither a conversation string nor an extended-text
    field; being a function into [string], it returns on every input. *)
Theorem extractTextContent_total :
  extractTextContent None = ""
  /\ (forall m : WAMessage,
        msg_Conversation m = None -> msg_ExtendedTextMessage m = None ->
        extractTextContent (Some m) = "")
  /\ (forall msg, exists s : string, extractTextContent msg = s).
Proof.
  split; [reflexivity|]. split.
  - intros m Hc He. unfold extractTextContent, GetConversation,
      GetExtendedTextMessage. now rewrite Hc, He.
  - intros msg. now exists (extractTextContent msg).
Qed.

Lemma extractTextContent_total_witness :
  extractTextContent (Some image_only) = "".
Proof.
  apply (proj1 (proj2 extractTextContent_total) image_only); reflexivity.
Defined.

(* ===================================================================== *)
(** ** Properties of GetChatName *)
(* ===================================================================== *)

Lemma query_chat_name_unnamed (store : MessageStore) (chatJID : string) :
  no_stored_name store chatJID ->
  query_chat_name store chatJID = inl ""
  \/ exists e, query_chat_name store chatJID = inr e.
Proof.
  intros Hno. unfold query_chat_name.
  destruct (List.find (same_chat_key chatJID) (chats store)) as [r|] eqn:Hf.
  - apply List.find_some in Hf. destruct Hf as [Hin Hk].
    unfold same_chat_key in Hk. apply String.eqb_eq in Hk.
    left. now rewrite (Hno r Hin Hk).
  - right. eauto.
Qed.

Lemma blank_field_pointed (f : option rvalue) :
  blank_field f = true ->
  match pointed_string f with
  | Some x => is_empty x = true
  | None => True
  end.
Proof.
  destruct f as [[ | ty [x|] | | ]|]; simpl; trivial.
Qed.

(** Unusable metadata makes the conversation block leave [name] empty,
    without a panic. *)
Lemma conversation_name_unusable (conversation : option rvalue) (s : Proc) :
  unusable_metadata conversation = true ->
  conversation_name conversation s = (Done "", s).
Proof.
  destruct conversation as [v|]; [|reflexivity].
  destruct v as [str | ty [elem|] | ty fs | ty]; try reflexivity.
  destruct elem as [ | | ty' fs | ]; try discriminate.
  cbn [unusable_metadata conversation_name FieldByName].
  intros H. apply andb_true_iff in H. destruct H as [Hd Hn].
  apply blank_field_pointed in Hd. apply blank_field_pointed in Hn.
  destruct (pointed_string (assoc "DisplayName" fs)) as [dn|];
    destruct (pointed_string (assoc "Name" fs)) as [n|];
    rewrite ?Hd, ?Hn; reflexivity.
Qed.

(** C6: a group chat without a stored name, with absent or unusable
    conversation metadata and a group-info lookup that fails or has no
    name, is named ["Group " + jid.User]; the store is not touched. *)
Theorem GetChatName_group_fallback (client : Client) (j : types.JID)
    (chatJID : string) (conversation : option rvalue) (sndr : string)
    (s : Proc) :
  types.Server j = "g.us" ->
  no_stored_name (db s) chatJID ->
  unusable_metadata conversation = true ->
  group_lookup_empty client j ->
  GetChatName client j chatJID conversation sndr s
  = (Done ("Group " +:+ types.User j), s).
Proof.
  intros Hg Hno Hconv Hinfo.
  unfold GetChatName, bind, get_store.
  assert (Hcache :
    match query_chat_name (db s) chatJID with
    | inl existingName =>
        if negb (is_empty existingName) then Some existingName else None
    | inr _ => None
    end = None).
  { destruct (query_chat_name_unnamed _ _ Hno) as [-> | [e ->]]; reflexivity. }
  rewrite Hcache, Hg. cbn [String.eqb Ascii.eqb Bool.eqb].
  rewrite (conversation_name_unusable _ _ Hconv). cbn [is_empty String.eqb].
  unfold group_lookup_empty in Hinfo.
  destruct (GetGroupInfo client j) as [info|e]; [|reflexivity].
  rewrite Hinfo. reflexivity.
Qed.

Lemma GetChatName_group_fallback_witness :
  GetChatName sample_client (types.mkJID "120363041" "g.us")
    "120363041@g.us"
    (Some (reflect_Conversation
       {| conv_ID := Some "120363041@g.us"; conv_Messages := [];
          conv_DisplayName := None; conv_Name := Some "" |}))
    "" fresh
  = (Done "Group 120363041", fresh).
Proof.
  apply (GetChatName_group_fallback sample_client
           (types.mkJID "120363041" "g.us")).
  - reflexivity.
  - intros r Hin. destruct Hin.
  - reflexivity.
  - exact I.
Defined.

(* ===================================================================== *)
(** ** Properties of history sync *)
(* ===================================================================== *)

(** [GetChatName] only reads the database. *)
Lemma conversation_name_state (conversation : option rvalue) (s : Proc) :
  snd (conversation_name conversation s) = s.
Proof.
  unfold conversation_name.
  destruct conversation as [[ | ty [elem|] | | ]|]; try reflexivity.
  destruct (FieldByName elem "DisplayName") as [d|]; [|reflexivity].
  destruct (FieldByName elem "Name") as [n|]; [|reflexivity].
  destruct (pointed_string d) as [dn|]; [destruct (negb (is_empty dn))|];
    reflexivity.
Qed.

Lemma GetChatName_state (client : Client) (j : types.JID) (chatJID : string)
    (conversation : option rvalue) (sndr : string) (s : Proc) :
  snd (GetChatName client j chatJID conversation sndr s) = s.
Proof.
  unfold GetChatName, bind, get_store.
  destruct (match query_chat_name (db s) chatJID with
            | inl existingName =>
                if negb (is_empty existingName) then Some existingName
                else None
            | inr _ => None
            end); [reflexivity|].
  destruct (String.eqb (types.Server j) "g.us").
  - pose proof (conversation_name_state conversation s) as Hs.
    destruct (conversation_name conversation s) as [[nm| |] s']; simpl in Hs;
      subst s'; try reflexivity.
    destruct (is_empty nm); [|reflexivity].
    destruct (GetGroupInfo client j) as [info|]; [|reflexivity].
    destruct (negb (is_empty (GroupName info))); reflexivity.
  - destruct (GetContact client j) as [contact|].
    + destruct (negb (is_empty (FullName contact))); [reflexivity|].
      destruct (negb (is_empty sndr)); reflexivity.
    + destruct (negb (is_empty sndr)); reflexivity.
Qed.

(** The reflected form of a history conversation is a pointer to a
    struct, so the conversation block returns. *)
Lemma conversation_name_reflect (conv : Conversation) (s : Proc) :
  exists n, conversation_name (Some (reflect_Conversation conv)) s
            = (Done n, s).
Proof.
  unfold conversation_name, reflect_Conversation.
  cbn [FieldByName assoc String.eqb Ascii.eqb Bool.eqb].
  destruct (pointed_string (Some (reflect_string_ptr (conv_DisplayName conv))))
    as [dn|]; [destruct (negb (is_empty dn))|]; eauto.
Qed.

Lemma GetChatName_history_returns (client : Client) (j : types.JID)
    (chatJID : string) (conv : Conversation) (s : Proc) :
  exists nm,
    GetChatName client j chatJID (Some (reflect_Conversation conv)) "" s
    = (Done nm, s).
Proof.
  unfold GetChatName, bind, get_store.
  destruct (match query_chat_name (db s) chatJID with
            | inl existingName =>
                if negb (is_empty existingName) then Some existingName
                else None
            | inr _ => None
            end); [eexists; reflexivity|].
  destruct (String.eqb (types.Server j) "g.us").
  - destruct (conversation_name_reflect conv s) as [n ->].
    destruct (is_empty n); [|eexists; reflexivity].
    destruct (GetGroupInfo client j) as [info|]; [|eexists; reflexivity].
    destruct (negb (is_empty (GroupName info))); eexists; reflexivity.
  - destruct (GetContact client j) as [contact|].
    + destruct (negb (is_empty (FullName contact))); eexists; reflexivity.
    + eexists; reflexivity.
Qed.

(** A conversation whose first record gives no time stamp is left
    behind by the [continue] of line 1134 or 1142. *)
Lemma syncConversation_continue (client : Client) (conv : Conversation)
    (latest : option HistorySyncMsg) (rest : list (option HistorySyncMsg))
    (s : Proc) :
  conv_Messages conv = latest :: rest ->
  record_timestamp latest = None ->
  syncConversation client (Some conv) s = (Done 0, s).
Proof.
  intros Hm Hts. unfold syncConversation.
  destruct (conv_ID conv) as [chatJID|]; [|reflexivity].
  destruct (ParseJID client chatJID) as [j|]; [|reflexivity].
  unfold bind.
  destruct (GetChatName_history_returns client j chatJID conv s) as [nm ->].
  now rewrite Hm, Hts.
Qed.

(** An iteration that changes nothing can be dropped from a loop. *)
Lemma for_range_skip {A} (body : A -> M Z) (before after : list A) (x : A) :
  (forall s, body x s = (Done 0, s)) ->
  forall s, for_range body (before ++ x :: after) s
            = for_range body (before ++ after) s.
Proof.
  intros Hx. induction before as [|b before IH]; intros s.
  - cbn [app for_range]. unfold bind. rewrite Hx. unfold ret.
    destruct (for_range body after s) as [[m| |] s']; reflexivity.
  - cbn [app for_range]. unfold bind.
    destruct (body b s) as [[n| |] s']; try reflexivity.
    now rewrite IH.
Qed.

(** For contrast: when the first record has a time stamp, the chat row
    is written and the records that have one are stored. *)
Lemma syncConversation_stores_when_latest_usable :
  let conv :=
    {| conv_ID := Some "120363041@g.us";
       conv_Messages := [ text_record "latest" 1700000100;
                          text_record "undated" 0 ];
       conv_DisplayName := Some "Family"; conv_Name := None |} in
  let r := syncConversation sample_client (Some conv) fresh in
  fst r = Done 1
  /\ map name (chats (db (snd r))) = ["Family"]
  /\ map content (messages (db (snd r))) = ["latest"].
Proof. cbv zeta. repeat split. Qed.

(** C9: when the first record of a conversation is nil, has no message
    info or has time stamp 0, history sync neither upserts the chat nor
    stores any of its messages, whatever the later records hold: the
    conversation leaves the process state as it was, and the whole sync
    runs as if the conversation were not in the payload. *)
Theorem handleHistorySync_skips_conversation (client : Client)
    (conv : Conversation) (latest : option HistorySyncMsg)
    (rest : list (option HistorySyncMsg))
    (before after : list (option Conversation)) (s : Proc) :
  conv_Messages conv = latest :: rest ->
  record_timestamp latest = None ->
  syncConversation client (Some conv) s = (Done 0, s)
  /\ handleHistorySync client
       {| Data := Some (before ++ Some conv :: after)%list |} s
     = handleHistorySync client {| Data := Some (before ++ after)%list |} s.
Proof.
  intros Hm Hts. split.
  - now apply (syncConversation_continue client conv latest rest).
  - unfold handleHistorySync. cbn [Data].
    apply for_range_skip. intros s0.
    now apply (syncConversation_continue client conv latest rest).
Qed.

Lemma handleHistorySync_skips_conversation_witness :
  let conv :=
    {| conv_ID := Some "120363041@g.us";
       conv_Messages := [ text_record "latest" 0;
                          text_record "older" 1700000000 ];
       conv_DisplayName := Some "Family"; conv_Name := None |} in
  syncConversation sample_client (Some conv) fresh = (Done 0, fresh)
  /\ handleHistorySync sample_client {| Data := Some ([] ++ [Some conv])%list |}
       fresh
     = handleHistorySync sample_client {| Data := Some ([] ++ [])%list |} fresh.
Proof.
  apply (handleHistorySync_skips_conversation sample_client _
           (text_record "latest" 0) [text_record "older" 1700000000]
           [] [] fresh).
  - reflexivity.
  - reflexivity.
Defined.

(* ===================================================================== *)
(** ** Properties of the live-message handler *)
(* ===================================================================== *)

Lemma handleMessage_posts (client : Client) (v : EventMessage) (s : Proc) :
  posts (snd (handleMessage client v s)) = posts s.
Proof.
  unfold handleMessage.
  destruct (is_empty (extractTextContent (Message v))); [reflexivity|].
  unfold bind.
  pose proof (GetChatName_state client (Chat (Info v))
                (JID_String client (Chat (Info v))) None
                (types.User (Sender (Info v))) s) as Hs.
  destruct (GetChatName _ _ _ _ _ s) as [[nm| |] s']; simpl in Hs; subst s';
    try reflexivity.
  unfold on_store, StoreChat. cbn [db posts fst snd].
  destruct (StoreMessage _ _ _ _ _ _ _) as [st e]. reflexivity.
Qed.

(** Past the guard of line 811 nothing is sent: a status event never
    reaches a forwarder. *)
Lemma status_event_not_forwarded (w : World) (client : Client)
    (v : EventMessage) (s : Proc) :
  is_status (types.User (Sender (Info v))) (types.User (Chat (Info v))) = true ->
  posts (snd (eventHandler w client (EvMessage v) s)) = posts s.
Proof.
  intros Hst. cbn [eventHandler]. unfold onMessage, bind.
  pose proof (handleMessage_posts client v s) as Hp.
  destruct (handleMessage client v s) as [[[]| |] s']; cbn [snd] in *;
    try exact Hp.
  destruct (Message v); [|exact Hp].
  rewrite Hst. exact Hp.
Qed.

Lemma handleMessage_enqueued (client : Client) (v : EventMessage) (s : Proc) :
  enqueued (snd (handleMessage client v s)) = enqueued s.
Proof.
  unfold handleMessage.
  destruct (is_empty (extractTextContent (Message v))); [reflexivity|].
  unfold bind.
  pose proof (GetChatName_state client (Chat (Info v))
                (JID_String client (Chat (Info v))) None
                (types.User (Sender (Info v))) s) as Hs.
  destruct (GetChatName _ _ _ _ _ s) as [[nm| |] s']; simpl in Hs; subst s';
    try reflexivity.
  unfold on_store, StoreChat. cbn [db enqueued fst snd].
  destruct (StoreMessage _ _ _ _ _ _ _) as [st e]. reflexivity.
Qed.

(** The same holds in the SQS revision: a status event is never put on
    the queue. *)
Lemma status_event_not_queued (w : World) (q : Queue) (client : Client)
    (v : EventMessage) (sndr rcpt : string) (s : Proc) :
  resolve_parties client v = Some (sndr, rcpt) ->
  is_status sndr rcpt = true ->
  enqueued (snd (onMessageSQS w q client v s)) = enqueued s
  /\ posts (snd (onMessageSQS w q client v s)) = posts s.
Proof.
  intros Hp Hst. unfold onMessageSQS, bind.
  pose proof (handleMessage_enqueued client v s) as He.
  pose proof (handleMessage_posts client v s) as Hq.
  destruct (handleMessage client v s) as [[[]| |] s']; cbn [snd] in *;
    try (split; assumption).
  rewrite Hp. destruct (Message v); [|split; assumption].
  rewrite Hst. split; assumption.
Qed.

(** A text that arrives as extended text only (a link preview, say) is
    stored by [handleMessage], but the handler of main.go forwards the
    conversation string alone, so nothing is sent for it. *)
Lemma extended_text_is_stored_not_forwarded :
  let v := {| Info := {| Chat := types.mkJID "1555" "s.whatsapp.net";
                         Sender := types.mkJID "1555" "s.whatsapp.net";
                         IsFromMe := false; ID := "3EB1";
                         Timestamp := 1700000000000 |};
              Message := Some quoted_only |} in
  let r := eventHandler (sample_world "secret" (Response 200 "200 OK" []))
             sample_client (EvMessage v) fresh in
  map content (messages (db (snd r))) = ["quoted"]
  /\ posts (snd r) = [].
Proof. cbv zeta. split; vm_compute; reflexivity. Qed.

(** C1 at a status broadcast that carries a text: nothing is forwarded,
    but [handleMessage] has run before the guard, and the database now
    holds a chat row and a message row for the status conversation. *)
Theorem status_event_is_stored :
  is_status (types.User (Sender (Info status_event)))
            (types.User (Chat (Info status_event))) = true
  /\ eventHandler (sample_world "secret" (Response 200 "200 OK" []))
       sample_client (EvMessage status_event) fresh
     = (Done tt,
        {| db :=
             {| chats := [ {| jid := "status@broadcast"; name := "1555";
                              last_message_time := 1700000000000 |} ];
                messages := [ {| id := "3EB0";
                                 chat_jid := "status@broadcast";
                                 sender := "1555"; content := "hello";
                                 timestamp := 1700000000000;
                                 is_from_me := false |} ] |};
           posts := [];
           enqueued := [];
           deleted := [] |}).
Proof. split; vm_compute; reflexivity. Qed.

(** The SQS revision stores the same status broadcast and puts nothing
    on the queue. *)
Lemma status_event_is_stored_sqs :
  let r := onMessageSQS (sample_world "secret" (Response 200 "200 OK" []))
             sample_queue sample_client status_event fresh in
  resolve_parties sample_client status_event = Some ("status", "1777")
  /\ fst r = Done tt
  /\ map chat_jid (messages (db (snd r))) = ["status@broadcast"]
  /\ enqueued (snd r) = [].
Proof. cbv zeta. repeat split. Qed.

(* ===================================================================== *)
(** ** Properties of the forwarders *)
(* ===================================================================== *)

Lemma app_one_more {A} (l : list A) (x : A) : l <> (l ++ [x])%list.
Proof.
  intros H. apply (f_equal (@length A)) in H.
  rewrite length_app in H. simpl in H. lia.
Qed.

(** Case analysis over the calls a forwarder makes before the POST. *)
Ltac forwarder_paths w :=
  repeat match goal with
  | |- context [godotenv_Load w] => destruct (godotenv_Load w) eqn:?
  | |- context [is_empty (os_Getenv w ?k)] =>
      destruct (is_empty (os_Getenv w k)) eqn:?
  | |- context [os_Open w ?p] => destruct (os_Open w p) eqn:?
  | |- context [http_Get w ?p] => destruct (http_Get w p) eqn:?
  | |- context [negb (?c =? StatusOK)] => destruct (Z.eqb_spec c StatusOK)
  | |- context [CreateFormFile w ?p] => destruct (CreateFormFile w p) eqn:?
  | |- context [io_Copy w ?p] => destruct (io_Copy w p) eqn:?
  | |- context [writer_Close w] => destruct (writer_Close w) eqn:?
  | |- context [http_NewRequest w ?m ?u] =>
      destruct (http_NewRequest w m u) eqn:?
  | |- context [http_Do w ?r] => destruct (http_Do w r) eqn:?
  end.

(** A forwarder that checks the response: it returns [nil] exactly when
    its POST was made and answered with status 200. *)
Ltac success_iff_200 w :=
  intros; unfold succeeded, post_completed_200, bind, client_Do, ret;
  forwarder_paths w; cbn [fst snd posts negb];
  (split;
  [ intros Hok;
    first [ discriminate Hok
          | eexists _, _, _; split; [reflexivity|]; subst; eassumption ]
  | intros (req & status & body & Hp & Hr);
    first [ exfalso; exact (app_one_more _ _ Hp)
          | apply app_inj_tail in Hp; destruct Hp as [_ <-];
            first [ reflexivity | congruence ] ] ]).

Lemma LogMessage_v2_success_iff (w : World) (a b c : string) (t : Time)
    (adm i p : string) (s : Proc) :
  let r := logfunction_v2.LogMessage w a b c t adm i p s in
  succeeded r <-> post_completed_200 w s r.
Proof. unfold logfunction_v2.LogMessage. success_iff_200 w. Qed.

Lemma LogMessage_v3_success_iff (w : World) (a b c : string) (t : Time)
    (adm i p : string) (s : Proc) :
  let r := logfunction_v3.LogMessage w a b c t adm i p s in
  succeeded r <-> post_completed_200 w s r.
Proof. unfold logfunction_v3.LogMessage. success_iff_200 w. Qed.

Lemma LogDocumentMessageSQS_v3_success_iff (w : World) (a b c f : string)
    (t : Time) (adm i p : string) (s : Proc) :
  let r := logfunction_v3.LogDocumentMessageSQS w a b c f t adm i p s in
  succeeded r <-> post_completed_200 w s r.
Proof. unfold logfunction_v3.LogDocumentMessageSQS. success_iff_200 w. Qed.

Lemma LogImageMessageSQS_success_iff (w : World) (a b c f : string)
    (t : Time) (s : Proc) :
  let r := logfunction.LogImageMessageSQS w a b c f t s in
  succeeded r <-> post_completed_200 w s r.
Proof. unfold logfunction.LogImageMessageSQS. success_iff_200 w. Qed.

Lemma LogDocumentMessage_success_iff (w : World) (a b c f : string)
    (t : Time) (s : Proc) :
  let r := logfunction.LogDocumentMessage w a b c f t s in
  succeeded r <-> post_completed_200 w s r.
Proof. unfold logfunction.LogDocumentMessage. success_iff_200 w. Qed.

(** C2 at a backend that answers 500: [logMessage] of main.go and
    [LogImageMessage] of the package make their POST, get status 500 and
    still return [nil]. *)
Theorem logMessage_returns_nil_on_status_500 :
  let w := sample_world "secret" (Response 500 "500 Internal Server Error" []) in
  let r := logMessage w "1555" "hi" "1777" 1700000000000 fresh in
  let r' := logfunction.LogImageMessage w "1555" "photo" "1777"
              "store/image_0.jpg" 1700000000000 fresh in
  (succeeded r /\ length (posts (snd r)) = 1%nat
   /\ ~ post_completed_200 w fresh r)
  /\ (succeeded r' /\ length (posts (snd r')) = 1%nat
      /\ ~ post_completed_200 w fresh r').
Proof.
  cbv zeta. split; (split; [reflexivity|]; split; [reflexivity|]);
    intros (req & status & body & _ & Hr); discriminate Hr.
Qed.

(** The forwarders that do not look at the response return [nil] for
    every answer of the backend. *)
Lemma logMessage_nil_for_any_status (w : World) (a b c : string) (t : Time)
    (s : Proc) (code : Z) (status : string) (body : bytes) :
  godotenv_Load w = None ->
  os_Getenv w "BEARER_TOKEN" <> "" ->
  http_NewRequest w "POST" LogAPIEndpoint = None ->
  (forall req, http_Do w req = Response code status body) ->
  succeeded (logMessage w a b c t s).
Proof.
  intros Henv Htok Hreq Hdo. apply is_empty_false in Htok.
  unfold succeeded, logMessage, bind, client_Do.
  now rewrite Henv, Htok, Hreq, Hdo.
Qed.

(* ===================================================================== *)
(** ** The missing bearer token *)
(* ===================================================================== *)

(** C8, as stated, fails: with [BEARER_TOKEN] unset, start-up reaches
    the relay loop; the revised [LogMessage] then returns the missing
    token as an error of that call, and the consumer leaves the queue
    entry whose forwarder failed this way undeleted, to be delivered
    again. *)
Lemma missing_token_is_a_delivery_failure :
  let w := sample_world "" (Response 200 "200 OK" []) in
  main_startup w sample_queue
  = Done (RelayLoopStarted "https://sqs.example/queue")
  /\ logfunction_v3.LogMessage w "1555" "hi" "1777" 1700000000000
       "1777" "3EB0" "" fresh
     = (Done (Some "BEARER_TOKEN not set in .env file"), fresh)
  /\ recieveMessagesFromQueue w sample_queue fresh = (Done None, fresh).
Proof. cbv zeta. repeat split. Qed.

(** C8, amended: start-up does not look for the bearer token and
    reaches the relay loop without it; a missing token is found inside
    the forwarder, at the first call, before any request is built or
    sent.  There it is fatal: the forwarders of main.go and those of the
    first revision of the package end the process through [log.Fatal].
    The revised forwarders too send nothing without the token. *)
Theorem missing_token_found_at_each_call (w : World) (q : Queue)
    (a b c f url : string) (t : Time) (adm i p : string) (s : Proc) :
  godotenv_Load w = None ->
  os_Getenv w "BEARER_TOKEN" = "" ->
  LoadDefaultConfig q = None ->
  GetQueueUrl q = inl url ->
  let fatal {A} : outcome A * Proc :=
    (Fatal "BEARER_TOKEN not set in .env file", s) in
  main_startup w q = Done (RelayLoopStarted url)
  /\ (logMessage w a b c t s = fatal
      /\ logImageMessage w a b c f t s = fatal
      /\ logDocumentMessage w a b c f t s = fatal
      /\ logfunction.LogMessage w a b c t s = fatal
      /\ logfunction.LogImageMessage w a b c f t s = fatal
      /\ logfunction.LogDocumentMessageSQS w a b c f t s = fatal)
  /\ (snd (logfunction.LogDocumentMessage w a b c f t s) = s
      /\ snd (logfunction.LogImageMessageSQS w a b c f t s) = s
      /\ snd (logfunction_v2.LogMessage w a b c t adm i p s) = s
      /\ snd (logfunction_v3.LogMessage w a b c t adm i p s) = s
      /\ snd (logfunction_v3.LogDocumentMessageSQS w a b c f t adm i p s)
         = s).
Proof.
  intros Henv Htok Hcfg Hurl. cbv zeta.
  unfold main_startup, logMessage, logImageMessage, logDocumentMessage,
    logFileMessage, logfunction.LogMessage, logfunction.LogImageMessage,
    logfunction.LogDocumentMessageSQS, logfunction.LogDocumentMessage,
    logfunction.LogImageMessageSQS, logfunction_v2.LogMessage,
    logfunction_v3.LogMessage, logfunction_v3.LogDocumentMessageSQS.
  rewrite Henv, Htok, Hcfg, Hurl. cbn [is_empty String.eqb].
  repeat split.
Qed.

Lemma missing_token_found_at_each_call_witness :
  let w := sample_world "" (Response 200 "200 OK" []) in
  main_startup w sample_queue
  = Done (RelayLoopStarted "https://sqs.example/queue")
  /\ logMessage w "1555" "hi" "1777" 1700000000000 fresh
     = (Fatal "BEARER_TOKEN not set in .env file", fresh)
  /\ posts (snd (logfunction_v2.LogMessage w "1555" "hi" "1777"
                   1700000000000 "1777" "3EB0" "" fresh)) = [].
Proof.
  pose proof (missing_token_found_at_each_call
                (sample_world "" (Response 200 "200 OK" [])) sample_queue
                "1555" "hi" "1777" "store/image_0.jpg"
                "https://sqs.example/queue" 1700000000000
                "1777" "3EB0" "" fresh
                eq_refl eq_refl eq_refl eq_refl) as H.
  cbv zeta in H. destruct H as [Hs [[Hm _] [_ [_ [Hv2 _]]]]].
  cbv zeta. split; [exact Hs|]. split; [exact Hm|].
  now rewrite Hv2.
Defined.

(* ===================================================================== *)
(** ** The store: upserts, invariants and queries *)
(* ===================================================================== *)

Lemma same_chat_key_eq (k : string) (r : ChatRow) :
  same_chat_key k r = true <-> jid r = k.
Proof. unfold same_chat_key. apply String.eqb_eq. Qed.

Lemma same_message_key_eq (i c : string) (r : MessageRow) :
  same_message_key i c r = true <-> message_key r = (i, c).
Proof.
  unfold same_message_key, message_key.
  rewrite andb_true_iff, !String.eqb_eq. split.
  - intros [-> ->]. reflexivity.
  - intros H. now inversion H.
Qed.

Lemma chat_exists_In (st : MessageStore) (j : string) :
  chat_exists st j = true <-> In j (map jid (chats st)).
Proof.
  unfold chat_exists. rewrite existsb_exists, in_map_iff. split.
  - intros (r & Hin & Hk). apply same_chat_key_eq in Hk. eauto.
  - intros (r & Hk & Hin). exists r. split; [assumption|].
    now apply same_chat_key_eq.
Qed.

Lemma filter_all_false {A} (p : A -> bool) (l : list A) :
  (forall x, In x l -> p x = false) -> List.filter p l = [].
Proof.
  induction l as [|x l IH]; intros H; simpl; [reflexivity|].
  rewrite (H x) by now left. apply IH. intros y Hy. apply H. now right.
Qed.

Lemma filter_all_true {A} (p : A -> bool) (l : list A) :
  (forall x, In x l -> p x = true) -> List.filter p l = l.
Proof.
  induction l as [|x l IH]; intros H; simpl; [reflexivity|].
  rewrite (H x) by now left. f_equal. apply IH. intros y Hy. apply H. now right.
Qed.

(** Filtering keeps the keys of a table distinct. *)
Lemma NoDup_map_filter {A B} (f : A -> B) (p : A -> bool) (l : list A) :
  NoDup (map f l) -> NoDup (map f (List.filter p l)).
Proof.
  induction l as [|x l IH]; simpl; intros H; [assumption|].
  apply NoDup_cons in H. destruct H as [Hx Hl].
  destruct (p x); simpl; [|now apply IH].
  apply NoDup_cons. split; [|now apply IH].
  intros Hin. apply Hx. apply list_elem_of_In in Hin. apply list_elem_of_In.
  apply in_map_iff in Hin. destruct Hin as (y & Hy & Hin).
  apply filter_In in Hin. apply in_map_iff. exists y. tauto.
Qed.

Lemma NoDup_map_replace {A B} (f : A -> B) (p : A -> bool) (l : list A)
    (x : A) :
  (forall y, In y l -> p y = false -> f y <> f x) ->
  NoDup (map f l) ->
  NoDup (map f (List.filter (fun y => negb (p y)) l ++ [x])).
Proof.
  intros Hp Hnd. rewrite map_app. apply NoDup_app. split; [|split].
  - now apply NoDup_map_filter.
  - intros b Hb Hx. apply list_elem_of_In in Hb. apply list_elem_of_In in Hx.
    simpl in Hx. destruct Hx as [<-|[]].
    apply in_map_iff in Hb. destruct Hb as (y & Hy & Hin).
    apply filter_In in Hin. destruct Hin as [Hin Hpy].
    apply negb_true_iff in Hpy. exact (Hp y Hin Hpy Hy).
  - simpl. apply NoDup_singleton.
Qed.

(** The rows [StoreChat] leaves under the key it wrote. *)
Lemma StoreChat_rows_after (st : MessageStore) (j n : string) (t : Time) :
  let r := StoreChat st j n t in
  snd r = None
  /\ List.filter (same_chat_key j) (chats (fst r))
     = [ {| jid := j; name := n; last_message_time := t |} ]
  /\ query_chat_name (fst r) j = inl n.
Proof.
  cbv zeta. unfold StoreChat. cbn [fst snd chats].
  assert (Hf : List.filter (same_chat_key j)
                 (List.filter (fun r => negb (same_chat_key j r)) (chats st)
                  ++ [ {| jid := j; name := n; last_message_time := t |} ])
               = [ {| jid := j; name := n; last_message_time := t |} ]).
  { rewrite List.filter_app, filter_after_removal. simpl.
    unfold same_chat_key. simpl. now rewrite String.eqb_refl. }
  split; [reflexivity|]. split; [exact Hf|].
  unfold query_chat_name. cbn [chats].
  destruct (List.find _ _) as [r|] eqn:Hfind.
  - apply List.find_some in Hfind. destruct Hfind as [Hin Hk].
    assert (Hr : In r (List.filter (same_chat_key j)
              (List.filter (fun r => negb (same_chat_key j r)) (chats st)
               ++ [ {| jid := j; name := n; last_message_time := t |} ])))
      by (apply filter_In; auto).
    rewrite Hf in Hr. destruct Hr as [<-|[]]. reflexivity.
  - assert (Hin : In {| jid := j; name := n; last_message_time := t |}
              (List.filter (fun r => negb (same_chat_key j r)) (chats st)
               ++ [ {| jid := j; name := n; last_message_time := t |} ])).
    { apply in_or_app. right. now left. }
    assert (Hc := List.find_none _ _ Hfind _ Hin).
    unfold same_chat_key in Hc. simpl in Hc.
    rewrite String.eqb_refl in Hc. discriminate Hc.
Qed.

(** X1: [StoreChat] is an upsert.  Whatever the table held, afterwards
    there is exactly one row for the id, carrying the name and time just
    given; the call returns [nil], a name lookup for the id finds the
    name, and messages of that chat are accepted from then on. *)
Theorem StoreChat_upserts (st : MessageStore) (j n : string) (t : Time) :
  let r := StoreChat st j n t in
  snd r = None
  /\ List.filter (same_chat_key j) (chats (fst r))
     = [ {| jid := j; name := n; last_message_time := t |} ]
  /\ query_chat_name (fst r) j = inl n
  /\ chat_exists (fst r) j = true.
Proof.
  cbv zeta. destruct (StoreChat_rows_after st j n t) as (He & Hrows & Hname).
  cbv zeta in He, Hrows, Hname.
  split; [exact He|]. split; [exact Hrows|]. split; [exact Hname|].
  apply chat_exists_In. unfold StoreChat. cbn [fst chats].
  rewrite map_app. apply in_or_app. right. now left.
Qed.

(** X2: [StoreChat] touches one key only: the rows of every other chat
    and all message rows are what they were. *)
Theorem StoreChat_frame (st : MessageStore) (j n : string) (t : Time)
    (k : string) :
  k <> j ->
  List.filter (same_chat_key k) (chats (fst (StoreChat st j n t)))
  = List.filter (same_chat_key k) (chats st)
  /\ messages (fst (StoreChat st j n t)) = messages st.
Proof.
  intros Hk. unfold StoreChat. cbn [fst chats messages].
  split; [|reflexivity].
  rewrite List.filter_app. simpl.
  assert (Hn : same_chat_key k
                 {| jid := j; name := n; last_message_time := t |} = false).
  { unfold same_chat_key. simpl. apply String.eqb_neq. congruence. }
  rewrite Hn, app_nil_r.
  induction (chats st) as [|r l IH]; simpl; [reflexivity|].
  destruct (same_chat_key j r) eqn:Hj; simpl.
  - apply same_chat_key_eq in Hj.
    assert (Hkr : same_chat_key k r = false).
    { unfold same_chat_key. apply String.eqb_neq. congruence. }
    now rewrite Hkr.
  - destruct (same_chat_key k r); now rewrite IH.
Qed.

Lemma StoreChat_frame_witness :
  List.filter (same_chat_key "a@s.whatsapp.net")
    (chats (fst (StoreChat two_chats "b@s.whatsapp.net" "Bee" 5000)))
  = List.filter (same_chat_key "a@s.whatsapp.net") (chats two_chats)
  /\ messages (fst (StoreChat two_chats "b@s.whatsapp.net" "Bee" 5000))
     = messages two_chats.
Proof.
  apply (StoreChat_frame two_chats "b@s.whatsapp.net" "Bee" 5000
           "a@s.whatsapp.net").
  discriminate.
Defined.

(** X3: [StoreMessage] touches one key only: rows under any other
    (id, chat) pair and all chat rows are what they were, whether the
    insert is accepted or not. *)
Theorem StoreMessage_frame (st : MessageStore) (i c s cont : string)
    (ts : Time) (b : bool) (i' c' : string) :
  (i', c') <> (i, c) ->
  message_rows (fst (StoreMessage st i c s cont ts b)) i' c'
  = message_rows st i' c'
  /\ chats (fst (StoreMessage st i c s cont ts b)) = chats st.
Proof.
  intros Hk. unfold StoreMessage.
  destruct (String.eqb cont ""); [split; reflexivity|].
  destruct (chat_exists st c); [|split; reflexivity].
  cbn [fst chats]. split; [|reflexivity].
  unfold message_rows. cbn [messages]. rewrite List.filter_app. simpl.
  assert (Hn : same_message_key i' c'
                 {| id := i; chat_jid := c; sender := s; content := cont;
                    timestamp := ts; is_from_me := b |} = false).
  { apply not_true_is_false. intros H. apply same_message_key_eq in H.
    apply Hk. now inversion H. }
  rewrite Hn, app_nil_r.
  induction (messages st) as [|r l IH]; simpl; [reflexivity|].
  destruct (same_message_key i c r) eqn:Hj; simpl.
  - apply same_message_key_eq in Hj.
    assert (Hkr : same_message_key i' c' r = false).
    { apply not_true_is_false. intros H. apply same_message_key_eq in H.
      apply Hk. congruence. }
    now rewrite Hkr.
  - destruct (same_message_key i' c' r); now rewrite IH.
Qed.

Lemma StoreMessage_frame_witness :
  let st := fst (StoreMessage one_chat_two_messages "A2"
                   "1555@s.whatsapp.net" "1777" "edited" 4000 true) in
  message_rows st "A1" "1555@s.whatsapp.net"
  = message_rows one_chat_two_messages "A1" "1555@s.whatsapp.net"
  /\ chats st = chats one_chat_two_messages.
Proof.
  apply (StoreMessage_frame one_chat_two_messages "A2" "1555@s.whatsapp.net"
           "1777" "edited" 4000 true "A1" "1555@s.whatsapp.net").
  discriminate.
Defined.

Lemma store_ok_StoreChat (st : MessageStore) (j n : string) (t : Time) :
  store_ok st -> store_ok (fst (StoreChat st j n t)).
Proof.
  intros [Hc Hm Hfk Hne]. unfold StoreChat. cbn [fst].
  split; cbn [chats messages]; try assumption.
  - apply NoDup_map_replace; [|assumption].
    intros y _ Hy. simpl. intros Heq.
    apply same_chat_key_eq in Heq. congruence.
  - intros r Hr. specialize (Hfk r Hr).
    apply chat_exists_In. apply chat_exists_In in Hfk. cbn [chats].
    rewrite map_app. apply in_or_app.
    destruct (String.eqb_spec (chat_jid r) j) as [->|Hneq].
    + right. now left.
    + left. apply in_map_iff in Hfk. destruct Hfk as (x & Hx & Hin).
      apply in_map_iff. exists x. split; [assumption|].
      apply filter_In. split; [assumption|].
      apply negb_true_iff, not_true_is_false. intros Hk.
      apply same_chat_key_eq in Hk. congruence.
Qed.

Lemma store_ok_StoreMessage (st : MessageStore) (i c s cont : string)
    (ts : Time) (b : bool) :
  store_ok st -> store_ok (fst (StoreMessage st i c s cont ts b)).
Proof.
  intros Hok. unfold StoreMessage.
  destruct (String.eqb_spec cont "") as [|Hcont]; [assumption|].
  destruct (chat_exists st c) eqn:Hex; [|assumption].
  destruct Hok as [Hc Hm Hfk Hne]. cbn [fst].
  split; cbn [chats messages]; try assumption.
  - apply NoDup_map_replace; [|assumption].
    intros y _ Hy Heq. change (message_key y = (i, c)) in Heq.
    apply same_message_key_eq in Heq. congruence.
  - intros r Hr. apply in_app_or in Hr.
    change (chat_exists st (chat_jid r) = true).
    destruct Hr as [Hr|[<-|[]]].
    + apply filter_In in Hr. now apply Hfk.
    + exact Hex.
  - intros r Hr. apply in_app_or in Hr. destruct Hr as [Hr|[<-|[]]].
    + apply filter_In in Hr. now apply Hne.
    + exact Hcont.
Qed.

(** X4: the database keeps its shape.  From the empty database on,
    [StoreChat] and [StoreMessage] keep chat ids unique, (id, chat)
    pairs unique, every message attached to a stored chat, and every
    stored content non-empty. *)
Theorem store_ok_preserved :
  store_ok NewMessageStore
  /\ (forall st j n t,
        store_ok st -> store_ok (fst (StoreChat st j n t)))
  /\ (forall st i c s cont ts b,
        store_ok st -> store_ok (fst (StoreMessage st i c s cont ts b))).
Proof.
  split; [|split].
  - split; simpl; try apply NoDup_nil_2; intros r [].
  - exact store_ok_StoreChat.
  - exact store_ok_StoreMessage.
Qed.

Lemma store_ok_preserved_witness :
  store_ok
    (fst (StoreMessage (fst (StoreChat NewMessageStore "c1" "Chat" 500))
            "m1" "c1" "1555" "first" 1000 false)).
Proof.
  apply (proj2 (proj2 store_ok_preserved)).
  apply (proj1 (proj2 store_ok_preserved)).
  exact (proj1 store_ok_preserved).
Defined.

(** X5: with chat ids unique, the map [GetChats] returns has exactly the
    stored chats as keys, each with the time that [Scan] reads back
    from the stored text: the stored instant when the text parses to
    it, and the zero time when the text does not parse. *)
Theorem GetChats_lookup (d : Driver) (st : MessageStore) :
  NoDup (map jid (chats st)) ->
  (forall j t,
     fst (GetChats d st) !! j = Some t
     <-> exists r, In r (chats st) /\ jid r = j
                   /\ scan_time d (last_message_time r) = t)
  /\ (forall r, In r (chats st) ->
        timestamp_parse d (timestamp_text d (last_message_time r))
        = Some (last_message_time r) ->
        fst (GetChats d st) !! jid r = Some (last_message_time r))
  /\ (forall r, In r (chats st) ->
        timestamp_parse d (timestamp_text d (last_message_time r)) = None ->
        fst (GetChats d st) !! jid r = Some zero_Time).
Proof.
  intros Hnd.
  assert (Hiff : forall j t,
     fst (GetChats d st) !! j = Some t
     <-> exists r, In r (chats st) /\ jid r = j
                   /\ scan_time d (last_message_time r) = t).
  { intros j t. rewrite GetChats_ignores_order by assumption.
    rewrite collect_chats_list_to_map.
    rewrite <- elem_of_list_to_map by now apply entries_NoDup.
    rewrite list_elem_of_In, <- in_rev, in_map_iff. split.
    - intros (r & Hr & Hin). inversion Hr; subst. eauto.
    - intros (r & Hin & <- & <-). exists r. split; [reflexivity|assumption]. }
  split; [exact Hiff|]. split.
  - intros r Hin Hp. apply Hiff. exists r.
    unfold scan_time. rewrite Hp. auto.
  - intros r Hin Hp. apply Hiff. exists r.
    unfold scan_time. rewrite Hp. auto.
Qed.

Lemma GetChats_lookup_witness :
  fst (GetChats (go_sqlite3 UTC) two_chats) !! "b@s.whatsapp.net" = Some 2000
  /\ fst (GetChats (go_sqlite3 UTC) far_future_chat) !! "1555@s.whatsapp.net"
     = Some zero_Time.
Proof.
  split.
  - apply (proj1 (proj2 (GetChats_lookup (go_sqlite3 UTC) two_chats
                           ltac:(simpl; distinct_keys)))
             {| jid := "b@s.whatsapp.net"; name := "B";
                last_message_time := 2000 |}).
    + simpl. auto.
    + vm_compute. reflexivity.
  - apply (proj2 (proj2 (GetChats_lookup (go_sqlite3 UTC) far_future_chat
                           ltac:(simpl; distinct_keys)))
             {| jid := "1555@s.whatsapp.net"; name := "Asha";
                last_message_time := 253402300800000 |}).
    + simpl. auto.
    + vm_compute. reflexivity.
Defined.

(** *** GetMessages *)

#[global] Instance newest_first_trans (d : Driver) : Transitive (newest_first d).
Proof. unfold newest_first. intros a b c H1 H2. exact (text_le_trans _ _ _ H2 H1). Qed.

#[global] Instance newest_first_total (d : Driver) : Total (newest_first d).
Proof. unfold newest_first. intros a b. apply text_le_total. Qed.

(** What [LIMIT] cuts off: the result is a prefix of the ordered rows,
    and the whole of them when the limit is negative or large enough. *)
Lemma limit_prefix (rows : list MessageRow) (limit : Z) :
  exists rest,
    ((if limit <? 0 then rows else take (Z.to_nat limit) rows) ++ rest)%list
    = rows
    /\ (limit < 0 \/ Z.of_nat (length rows) <= limit -> rest = []).
Proof.
  destruct (Z.ltb_spec limit 0) as [Hneg|Hpos].
  - exists []. split; [apply app_nil_r|reflexivity].
  - exists (drop (Z.to_nat limit) rows). split; [apply firstn_skipn|].
    intros [H|H]; [lia|]. apply drop_ge. lia.
Qed.

(** What [reads_back_in_order] says of two of the instants. *)
Lemma reads_back_in_order_spec (d : Driver) (ts : list Time) :
  reads_back_in_order d ts = true ->
  forall a, In a ts ->
    scan_time d a = a
    /\ forall b, In b ts ->
         text_le (timestamp_text d a) (timestamp_text d b) -> a <= b.
Proof.
  unfold reads_back_in_order. intros H a Ha.
  rewrite forallb_forall in H. specialize (H a Ha).
  apply andb_true_iff in H. destruct H as [Hs Ho]. split; [lia|].
  intros b Hb Hle. rewrite forallb_forall in Ho. specialize (Ho b Hb).
  unfold text_le in Hle. rewrite Hle in Ho. simpl in Ho. lia.
Qed.

(** Rows in the order of their texts are in the order of their times
    when the driver keeps that order. *)
Lemma scan_sorted (d : Driver) (all rows : list MessageRow) :
  reads_back_in_order d (map timestamp all) = true ->
  (forall r, In r rows -> In r all) ->
  StronglySorted (newest_first d) rows ->
  StronglySorted (fun a b => m_Time b <= m_Time a) (map (scan_message d) rows).
Proof.
  intros Hok Hsub Hs.
  pose proof (reads_back_in_order_spec d _ Hok) as Hspec.
  induction Hs as [|r rows Hs IH Hall]; simpl; constructor.
  - apply IH. intros x Hx. apply Hsub. now right.
  - apply Forall_forall. intros m Hm. apply list_elem_of_In in Hm.
    apply in_map_iff in Hm. destruct Hm as (x & <- & Hx).
    rewrite Forall_forall in Hall.
    assert (Hxr : newest_first d r x) by (apply Hall; now apply list_elem_of_In).
    assert (Hin_x : In (timestamp x) (map timestamp all))
      by (apply in_map, Hsub; now right).
    assert (Hin_r : In (timestamp r) (map timestamp all))
      by (apply in_map, Hsub; now left).
    cbn [scan_message m_Time].
    rewrite (proj1 (Hspec _ Hin_x)), (proj1 (Hspec _ Hin_r)).
    exact (proj2 (Hspec _ Hin_x) _ Hin_r Hxr).
Qed.

(** X6: [GetMessages] returns [nil] as error and the scans of rows of
    the chat asked for, in the descending order of their stored texts
    and no more of them than a non-negative limit.  The list is ordered
    newest first when the driver's texts keep the order of the chat's
    times and read back as they were stored. *)
Theorem GetMessages_newest_first_bounded (d : Driver) (st : MessageStore)
    (c : string) (limit : Z) :
  snd (GetMessages d st c limit) = None
  /\ (exists rows,
        fst (GetMessages d st c limit) = map (scan_message d) rows
        /\ StronglySorted (newest_first d) rows
        /\ forall row, In row rows -> In row (messages st) /\ chat_jid row = c)
  /\ (0 <= limit ->
      (length (fst (GetMessages d st c limit)) <= Z.to_nat limit)%nat)
  /\ (reads_back_in_order d
        (map timestamp (List.filter (in_chat c) (messages st))) = true ->
      StronglySorted (fun a b => m_Time b <= m_Time a)
        (fst (GetMessages d st c limit))).
Proof.
  unfold GetMessages, query_messages. cbn [fst snd].
  set (rows := merge_sort (newest_first d)
                 (List.filter (in_chat c) (messages st))).
  assert (Hs : StronglySorted (newest_first d) rows)
    by (apply StronglySorted_merge_sort; apply _).
  destruct (limit_prefix rows limit) as (rest & Hsplit & _).
  set (res := if limit <? 0 then rows else take (Z.to_nat limit) rows) in *.
  assert (Hres : StronglySorted (newest_first d) res).
  { rewrite <- Hsplit in Hs. now apply StronglySorted_app_1_l in Hs. }
  assert (Hin : forall row, In row res ->
                  In row (List.filter (in_chat c) (messages st))).
  { intros row Hrow. assert (Hr : In row rows).
    { rewrite <- Hsplit. apply in_or_app. now left. }
    apply list_elem_of_In in Hr. subst rows.
    rewrite merge_sort_Permutation in Hr. now apply list_elem_of_In in Hr. }
  split; [reflexivity|]. split; [|split].
  - exists res. split; [reflexivity|]. split; [exact Hres|].
    intros row Hrow. apply Hin, filter_In in Hrow.
    destruct Hrow as [Hrow Hc]. unfold in_chat in Hc.
    apply String.eqb_eq in Hc. auto.
  - intros Hl. subst res. rewrite length_map.
    destruct (Z.ltb_spec limit 0); [lia|]. rewrite length_take. lia.
  - intros Hok. now apply (scan_sorted d _ res Hok).
Qed.

Lemma GetMessages_newest_first_bounded_witness :
  (length (fst (GetMessages (go_sqlite3 UTC) one_chat_two_messages
                  "1555@s.whatsapp.net" 1)) <= Z.to_nat 1)%nat
  /\ StronglySorted (fun a b => m_Time b <= m_Time a)
       (fst (GetMessages (go_sqlite3 UTC) one_chat_two_messages
               "1555@s.whatsapp.net" (-1))).
Proof.
  split.
  - apply (proj1 (proj2 (proj2 (GetMessages_newest_first_bounded
             (go_sqlite3 UTC) one_chat_two_messages
             "1555@s.whatsapp.net" 1)))).
    lia.
  - apply (proj2 (proj2 (proj2 (GetMessages_newest_first_bounded
             (go_sqlite3 UTC) one_chat_two_messages
             "1555@s.whatsapp.net" (-1))))).
    vm_compute. reflexivity.
Defined.

(** Across the hour in which the clock is set back the stored texts do
    not follow the instants: asked for the newest message of the chat,
    [GetMessages] returns the one sent earlier. *)
Lemma GetMessages_across_fall_back :
  reads_back_in_order (go_sqlite3 fall_back)
    (map timestamp (messages around_fall_back)) = false
  /\ map (fun r => Format fall_back (timestamp r))
         (messages around_fall_back)
     = [ "2023-10-29 02:30:00+02:00"; "2023-10-29 02:10:00+01:00" ]
  /\ GetMessages (go_sqlite3 fall_back) around_fall_back
       "1555@s.whatsapp.net" 1
     = ([ {| m_Time := 1698539400000; m_Sender := "1555";
             m_Content := "before"; m_IsFromMe := false |} ], None).
Proof. split; [|split]; vm_compute; reflexivity. Qed.

(** X7: what [GetMessages] returns is the top of the chat in the order
    of the stored texts: the chat's rows are the returned rows followed
    by rows none of which has a greater text than a returned one, and
    nothing is left out when the limit is negative or at least the
    number of the chat's messages.  When the driver's texts keep the
    order of the chat's times, no row left out is newer than a returned
    one. *)
Theorem GetMessages_takes_the_newest (d : Driver) (st : MessageStore)
    (c : string) (limit : Z) :
  exists rows rest,
    fst (GetMessages d st c limit) = map (scan_message d) rows
    /\ (rows ++ rest)%list ≡ₚ List.filter (in_chat c) (messages st)
    /\ (forall a b, In a rows -> In b rest ->
          text_le (timestamp_text d (timestamp b))
                  (timestamp_text d (timestamp a)))
    /\ (limit < 0
        \/ Z.of_nat (length (List.filter (in_chat c) (messages st))) <= limit
        -> rest = [])
    /\ (reads_back_in_order d
          (map timestamp (List.filter (in_chat c) (messages st))) = true ->
        forall a b, In a rows -> In b rest -> timestamp b <= timestamp a).
Proof.
  unfold GetMessages, query_messages. cbn [fst].
  set (rows := merge_sort (newest_first d)
                 (List.filter (in_chat c) (messages st))).
  assert (Hs : StronglySorted (newest_first d) rows)
    by (apply StronglySorted_merge_sort; apply _).
  assert (Hp : rows ≡ₚ List.filter (in_chat c) (messages st))
    by apply merge_sort_Permutation.
  destruct (limit_prefix rows limit) as (rest & Hsplit & Hall).
  set (res := if limit <? 0 then rows else take (Z.to_nat limit) rows) in *.
  assert (Hord : forall a b, In a res -> In b rest -> newest_first d a b).
  { intros a b Ha Hb. rewrite <- Hsplit in Hs.
    apply (StronglySorted_app_1_elem_of _ _ _ _ _ Hs);
      now apply list_elem_of_In. }
  exists res, rest. split; [reflexivity|]. split; [|split; [|split]].
  - now rewrite Hsplit.
  - exact Hord.
  - intros H. rewrite Hall; [reflexivity|].
    rewrite (Permutation_length Hp). exact H.
  - intros Hok a b Ha Hb.
    pose proof (reads_back_in_order_spec d _ Hok) as Hspec.
    assert (Hmem : forall x, In x (res ++ rest)%list ->
              In (timestamp x)
                 (map timestamp (List.filter (in_chat c) (messages st)))).
    { intros x Hx. apply in_map. apply list_elem_of_In.
      rewrite <- Hp, <- Hsplit. now apply list_elem_of_In. }
    apply (proj2 (Hspec (timestamp b)
                    (Hmem b (in_or_app _ _ _ (or_intror Hb))))
             (timestamp a) (Hmem a (in_or_app _ _ _ (or_introl Ha)))).
    exact (Hord a b Ha Hb).
Qed.

Lemma GetMessages_takes_the_newest_witness :
  exists rows rest,
    fst (GetMessages (go_sqlite3 UTC) one_chat_two_messages
           "1555@s.whatsapp.net" 1)
    = map (scan_message (go_sqlite3 UTC)) rows
    /\ (rows ++ rest)%list
         ≡ₚ List.filter (in_chat "1555@s.whatsapp.net")
              (messages one_chat_two_messages)
    /\ forall a b, In a rows -> In b rest -> timestamp b <= timestamp a.
Proof.
  destruct (GetMessages_takes_the_newest (go_sqlite3 UTC)
              one_chat_two_messages "1555@s.whatsapp.net" 1)
    as (rows & rest & Hres & Hp & _ & _ & Hnew).
  exists rows, rest. split; [exact Hres|]. split; [exact Hp|].
  apply Hnew. vm_compute. reflexivity.
Defined.

(* ===================================================================== *)
(** ** Chat names: the order of the sources *)
(* ===================================================================== *)

Lemma key_determines_row {A B} (f : A -> B) (l : list A) (a b : A) :
  NoDup (map f l) -> In a l -> In b l -> f a = f b -> a = b.
Proof.
  induction l as [|x l IH]; simpl; intros Hnd Ha Hb Hf; [destruct Ha|].
  apply NoDup_cons in Hnd. destruct Hnd as [Hx Hnd].
  destruct Ha as [<-|Ha], Hb as [<-|Hb]; auto.
  - exfalso. apply Hx. apply list_elem_of_In. rewrite Hf. now apply in_map.
  - exfalso. apply Hx. apply list_elem_of_In. rewrite <- Hf. now apply in_map.
Qed.

Lemma query_chat_name_row (st : MessageStore) (r : ChatRow) :
  NoDup (map jid (chats st)) -> In r (chats st) ->
  query_chat_name st (jid r) = inl (name r).
Proof.
  intros Hnd Hin. unfold query_chat_name.
  destruct (List.find (same_chat_key (jid r)) (chats st)) as [r'|] eqn:Hf.
  - apply List.find_some in Hf. destruct Hf as [Hin' Hk].
    apply same_chat_key_eq in Hk.
    now rewrite (key_determines_row jid (chats st) r' r Hnd Hin' Hin Hk).
  - assert (Hc := List.find_none _ _ Hf r Hin).
    unfold same_chat_key in Hc. rewrite String.eqb_refl in Hc. discriminate.
Qed.

(** X8: a name already stored for the chat wins.  When the chats table
    holds a non-empty name for the chat id, [GetChatName] returns it for
    every client, every metadata value and every sender, and consults
    nothing else. *)
Theorem GetChatName_uses_stored_name (client : Client) (j : types.JID)
    (conversation : option rvalue) (sndr : string) (s : Proc) (r : ChatRow) :
  NoDup (map jid (chats (db s))) ->
  In r (chats (db s)) ->
  name r <> "" ->
  GetChatName client j (jid r) conversation sndr s = (Done (name r), s).
Proof.
  intros Hnd Hin Hname. unfold GetChatName, bind, get_store.
  rewrite (query_chat_name_row _ _ Hnd Hin).
  apply is_empty_false in Hname. now rewrite Hname.
Qed.

Lemma GetChatName_uses_stored_name_witness :
  GetChatName sample_client (types.mkJID "120363041" "g.us")
    "a@s.whatsapp.net" None "1555"
    {| db := two_chats; posts := []; enqueued := []; deleted := [] |}
  = (Done "A",
     {| db := two_chats; posts := []; enqueued := []; deleted := [] |}).
Proof.
  apply (GetChatName_uses_stored_name sample_client
           (types.mkJID "120363041" "g.us") None "1555"
           {| db := two_chats; posts := []; enqueued := []; deleted := [] |}
           {| jid := "a@s.whatsapp.net"; name := "A";
              last_message_time := 1000 |}).
  - simpl. distinct_keys.
  - simpl. auto.
  - discriminate.
Defined.

Lemma uncached (st : MessageStore) (chatJID : string) :
  no_stored_name st chatJID ->
  match query_chat_name st chatJID with
  | inl existingName =>
      if negb (is_empty existingName) then Some existingName else None
  | inr _ => None
  end = None.
Proof.
  intros Hno.
  destruct (query_chat_name_unnamed _ _ Hno) as [-> | [e ->]]; reflexivity.
Qed.

(** X9: for a group without a stored name, history metadata comes
    before the live lookup: a non-empty [DisplayName] of the
    conversation record is the name; failing that, a non-empty [Name]
    is.  The client's group info is not consulted in either case. *)
Theorem GetChatName_history_metadata (client : Client) (j : types.JID)
    (chatJID : string) (conv : Conversation) (sndr : string) (s : Proc) :
  types.Server j = "g.us" ->
  no_stored_name (db s) chatJID ->
  (forall dn, conv_DisplayName conv = Some dn -> dn <> "" ->
     GetChatName client j chatJID (Some (reflect_Conversation conv)) sndr s
     = (Done dn, s))
  /\ (forall n, (conv_DisplayName conv = None
                 \/ conv_DisplayName conv = Some "") ->
        conv_Name conv = Some n -> n <> "" ->
        GetChatName client j chatJID (Some (reflect_Conversation conv)) sndr s
        = (Done n, s)).
Proof.
  intros Hg Hno. apply uncached in Hno.
  split.
  - intros dn Hd Hne. apply is_empty_false in Hne.
    unfold GetChatName, bind, get_store. rewrite Hno, Hg.
    cbn [String.eqb Ascii.eqb Bool.eqb].
    unfold conversation_name, reflect_Conversation.
    cbn [FieldByName assoc String.eqb Ascii.eqb Bool.eqb].
    rewrite Hd. cbn [reflect_string_ptr option_map pointed_string
                       rvalue_String].
    rewrite Hne. cbn [negb]. unfold ret. now rewrite Hne.
  - intros n Hd Hn Hne. apply is_empty_false in Hne.
    unfold GetChatName, bind, get_store. rewrite Hno, Hg.
    cbn [String.eqb Ascii.eqb Bool.eqb].
    unfold conversation_name, reflect_Conversation.
    cbn [FieldByName assoc String.eqb Ascii.eqb Bool.eqb].
    rewrite Hn.
    destruct Hd as [-> | ->];
      cbn [reflect_string_ptr option_map pointed_string rvalue_String];
      change (is_empty "") with true;
      rewrite Hne; cbn [negb]; unfold ret; now rewrite Hne.
Qed.

Lemma GetChatName_history_metadata_witness :
  GetChatName sample_client (types.mkJID "120363041" "g.us")
    "120363041@g.us"
    (Some (reflect_Conversation
       {| conv_ID := Some "120363041@g.us"; conv_Messages := [];
          conv_DisplayName := Some ""; conv_Name := Some "Family" |}))
    "" fresh
  = (Done "Family", fresh).
Proof.
  apply (proj2 (GetChatName_history_metadata sample_client
                  (types.mkJID "120363041" "g.us") "120363041@g.us"
                  {| conv_ID := Some "120363041@g.us"; conv_Messages := [];
                     conv_DisplayName := Some ""; conv_Name := Some "Family" |}
                  "" fresh eq_refl (fun r Hin => match Hin with end))
           "Family").
  - right. reflexivity.
  - reflexivity.
  - discriminate.
Defined.

(** X10: for a chat that is not a group and has no stored name, the name
    is the contact's full name when the contact store has a non-empty
    one; otherwise the sender string when it is not empty; otherwise the
    user part of the chat id.  Conversation metadata plays no part. *)
Theorem GetChatName_contact_order (client : Client) (j : types.JID)
    (chatJID : string) (conversation : option rvalue) (sndr : string)
    (s : Proc) :
  types.Server j <> "g.us" ->
  no_stored_name (db s) chatJID ->
  let unnamed :=
    match GetContact client j with
    | inl contact => FullName contact = ""
    | inr _ => True
    end in
  (forall contact, GetContact client j = inl contact ->
     FullName contact <> "" ->
     GetChatName client j chatJID conversation sndr s
     = (Done (FullName contact), s))
  /\ (unnamed -> sndr <> "" ->
      GetChatName client j chatJID conversation sndr s = (Done sndr, s))
  /\ (unnamed -> sndr = "" ->
      GetChatName client j chatJID conversation sndr s
      = (Done (types.User j), s)).
Proof.
  intros Hg Hno. apply uncached in Hno. apply String.eqb_neq in Hg.
  cbv zeta. unfold GetChatName, bind, get_store. rewrite Hno, Hg.
  split; [|split].
  - intros contact -> Hn. apply is_empty_false in Hn. now rewrite Hn.
  - intros Hu Hs. apply is_empty_false in Hs.
    destruct (GetContact client j) as [contact|]; [rewrite Hu|];
      cbn [is_empty String.eqb negb]; fold (is_empty sndr); now rewrite Hs.
  - intros Hu ->.
    destruct (GetContact client j) as [contact|]; [rewrite Hu|]; reflexivity.
Qed.

Lemma GetChatName_contact_order_witness :
  GetChatName sample_client (types.mkJID "1555" "s.whatsapp.net")
    "1555@s.whatsapp.net" None "" fresh
  = (Done "1555", fresh).
Proof.
  apply (proj2 (proj2 (GetChatName_contact_order sample_client
           (types.mkJID "1555" "s.whatsapp.net") "1555@s.whatsapp.net"
           None "" fresh ltac:(discriminate)
           (fun r Hin => match Hin with end)))).
  - exact I.
  - reflexivity.
Defined.

(** X11: [GetChatName] only reads.  Whatever it returns, and also when
    the reflection panics, the database, the request log and the queue
    are as before the call: the name is not written back by the resolver
    itself.  It never exits the process.  For a group chat it panics
    only when the lookup in the database found no name or an empty one
    and the metadata is a non-nil pointer to something that is not a
    struct. *)
Theorem GetChatName_never_writes (client : Client) (j : types.JID)
    (chatJID : string) (conversation : option rvalue) (sndr : string)
    (s : Proc) :
  let r := GetChatName client j chatJID conversation sndr s in
  snd r = s
  /\ (forall msg, fst r <> Fatal msg)
  /\ (types.Server j = "g.us" ->
      forall msg, fst r = Panic msg ->
        (query_chat_name (db s) chatJID = inl ""
         \/ exists e, query_chat_name (db s) chatJID = inr e)
        /\ exists ty elem,
             conversation = Some (RPtr ty (Some elem))
             /\ FieldByName elem "Name" = None).
Proof.
  cbv zeta. split; [apply GetChatName_state|].
  unfold GetChatName, bind, get_store.
  assert (Hq :
    (exists n, query_chat_name (db s) chatJID = inl n /\ is_empty n = false)
    \/ query_chat_name (db s) chatJID = inl ""
    \/ exists e, query_chat_name (db s) chatJID = inr e).
  { destruct (query_chat_name (db s) chatJID) as [n|e]; [|eauto].
    destruct (is_empty n) eqn:En; [|eauto].
    apply is_empty_true in En. subst n. auto. }
  destruct Hq as [(n & Hq & En)|Hq].
  { rewrite Hq, En. cbn [negb]. split; [|intros _]; intros; discriminate. }
  assert (Hcache :
    match query_chat_name (db s) chatJID with
    | inl existingName =>
        if negb (is_empty existingName) then Some existingName else None
    | inr _ => None
    end = None).
  { destruct Hq as [->|[e ->]]; reflexivity. }
  rewrite Hcache.
  destruct (String.eqb_spec (types.Server j) "g.us") as [Hg|Hg].
  - assert (Hconv :
      (exists n, conversation_name conversation s = (Done n, s))
      \/ (exists msg ty elem,
            conversation_name conversation s = (Panic msg, s)
            /\ conversation = Some (RPtr ty (Some elem))
            /\ FieldByName elem "Name" = None)).
    { unfold conversation_name.
      destruct conversation as [[ | ty [elem|] | | ]|];
        try (left; eexists; reflexivity).
      destruct (FieldByName elem "Name") as [nf|] eqn:Hname.
      - left. destruct elem; try discriminate. cbn [FieldByName].
        destruct (pointed_string _) as [dn|];
          [destruct (negb (is_empty dn))|]; eexists; reflexivity.
      - right. destruct elem; try discriminate;
          (eexists _, _, _; split; [reflexivity|]; split; reflexivity). }
    destruct Hconv as [(n & ->)|(m & ty & elem & -> & Hc & Hf)].
    + destruct (is_empty n); [|split; [|intros _]; intros; discriminate].
      destruct (GetGroupInfo client j) as [info|];
        [destruct (negb (is_empty (GroupName info)))|];
        (split; [|intros _]; intros; discriminate).
    + cbn [fst]. split; [discriminate|]. intros _ msg _.
      split; [exact Hq|eauto].
  - split; [|intros Hg'; contradiction].
    destruct (GetContact client j) as [contact|];
      [destruct (negb (is_empty (FullName contact)))|];
      try destruct (negb (is_empty sndr)); intros; discriminate.
Qed.

(** A group whose metadata is a pointer to a string, with no name in the
    database: the resolver panics, and the state is the one before the
    call. *)
Lemma GetChatName_never_writes_witness :
  snd (GetChatName sample_client (types.mkJID "120363041" "g.us")
         "120363041@g.us" (Some (RPtr "*string" (Some (RString "Family"))))
         "" fresh) = fresh
  /\ (query_chat_name (db fresh) "120363041@g.us" = inl ""
      \/ exists e, query_chat_name (db fresh) "120363041@g.us" = inr e)
  /\ exists ty elem,
       Some (RPtr "*string" (Some (RString "Family")))
       = Some (RPtr ty (Some elem))
       /\ FieldByName elem "Name" = None.
Proof.
  pose proof (GetChatName_never_writes sample_client
                (types.mkJID "120363041" "g.us") "120363041@g.us"
                (Some (RPtr "*string" (Some (RString "Family")))) "" fresh)
    as H.
  cbv zeta in H. destruct H as (Hs & _ & Hp).
  split; [exact Hs|].
  exact (Hp eq_refl _ eq_refl).
Defined.

(* ===================================================================== *)
(** ** Live messages: what handleMessage leaves in the store *)
(* ===================================================================== *)

(** Without conversation metadata the resolver cannot panic. *)
Lemma GetChatName_live_returns (client : Client) (j : types.JID)
    (chatJID sndr : string) (s : Proc) :
  exists n, GetChatName client j chatJID None sndr s = (Done n, s).
Proof.
  unfold GetChatName, bind, get_store.
  destruct (match query_chat_name (db s) chatJID with
            | inl existingName =>
                if negb (is_empty existingName) then Some existingName
                else None
            | inr _ => None
            end); [eexists; reflexivity|].
  destruct (String.eqb (types.Server j) "g.us").
  - cbn [conversation_name ret is_empty String.eqb].
    destruct (GetGroupInfo client j) as [info|]; [|eexists; reflexivity].
    destruct (negb (is_empty (GroupName info))); eexists; reflexivity.
  - destruct (GetContact client j) as [contact|].
    + destruct (negb (is_empty (FullName contact))); [eexists; reflexivity|].
      destruct (negb (is_empty sndr)); eexists; reflexivity.
    + destruct (negb (is_empty sndr)); eexists; reflexivity.
Qed.

Lemma chat_exists_after_StoreChat (st : MessageStore) (j n : string)
    (t : Time) :
  chat_exists (fst (StoreChat st j n t)) j = true.
Proof.
  apply chat_exists_In. unfold StoreChat. cbn [fst chats].
  rewrite map_app. apply in_or_app. right. now left.
Qed.

(** What a run of [handleMessage] on a text message is: the resolved
    name, one chat upsert and one accepted message upsert. *)
Lemma handleMessage_text_run (client : Client) (v : EventMessage) (s : Proc) :
  extractTextContent (Message v) <> "" ->
  exists n,
    GetChatName client (Chat (Info v)) (JID_String client (Chat (Info v)))
      None (types.User (Sender (Info v))) s = (Done n, s)
    /\ handleMessage client v s
       = (Done tt,
          {| db := fst (StoreMessage
                          (fst (StoreChat (db s)
                                  (JID_String client (Chat (Info v))) n
                                  (Timestamp (Info v))))
                          (ID (Info v)) (JID_String client (Chat (Info v)))
                          (types.User (Sender (Info v)))
                          (extractTextContent (Message v))
                          (Timestamp (Info v)) (IsFromMe (Info v)));
             posts := posts s; enqueued := enqueued s;
             deleted := deleted s |}).
Proof.
  intros Hc. apply is_empty_false in Hc.
  destruct (GetChatName_live_returns client (Chat (Info v))
              (JID_String client (Chat (Info v)))
              (types.User (Sender (Info v))) s) as [n Hn].
  exists n. split; [exact Hn|].
  unfold handleMessage. rewrite Hc. unfold bind. rewrite Hn.
  unfold on_store. cbn [db posts enqueued deleted].
  destruct (StoreChat (db s) _ n _) as [st1 e1] eqn:H1. cbn [db posts
    enqueued deleted fst].
  destruct (StoreMessage st1 _ _ _ _ _ _) as [st2 e2] eqn:H2.
  reflexivity.
Qed.

(** X12: a live text message ends up in the store.  After
    [handleMessage], the store holds exactly one message row under the
    event's (id, chat) key, with the event's sender, text, time and
    direction, and exactly one chat row for the chat whose
    last-message-time is the event's time, whatever time was stored
    before. *)
Theorem handleMessage_stores_text (client : Client) (v : EventMessage)
    (s : Proc) :
  extractTextContent (Message v) <> "" ->
  let chatJID := JID_String client (Chat (Info v)) in
  let s' := snd (handleMessage client v s) in
  fst (handleMessage client v s) = Done tt
  /\ message_rows (db s') (ID (Info v)) chatJID
     = [ {| id := ID (Info v); chat_jid := chatJID;
            sender := types.User (Sender (Info v));
            content := extractTextContent (Message v);
            timestamp := Timestamp (Info v);
            is_from_me := IsFromMe (Info v) |} ]
  /\ map last_message_time
       (List.filter (same_chat_key chatJID) (chats (db s')))
     = [ Timestamp (Info v) ].
Proof.
  intros Hc. cbv zeta.
  destruct (handleMessage_text_run client v s Hc) as (n & _ & ->).
  cbn [fst snd db].
  rewrite StoreMessage_rows_after;
    [|assumption|apply chat_exists_after_StoreChat].
  cbn [fst]. split; [reflexivity|]. split.
  - unfold message_rows. cbn [messages].
    rewrite List.filter_app, filter_after_removal. simpl.
    unfold same_message_key. simpl. now rewrite !String.eqb_refl.
  - cbn [chats].
    destruct (StoreChat_rows_after (db s) (JID_String client (Chat (Info v)))
                n (Timestamp (Info v))) as (_ & Hf & _).
    cbv zeta in Hf. rewrite Hf. reflexivity.
Qed.

Lemma handleMessage_stores_text_witness :
  map last_message_time
    (List.filter (same_chat_key "status@broadcast")
       (chats (db (snd (handleMessage sample_client status_event fresh)))))
  = [ 1700000000000 ].
Proof.
  apply (proj2 (proj2 (handleMessage_stores_text sample_client status_event
                         fresh ltac:(discriminate)))).
Defined.

Lemma filter_idem {A} (p : A -> bool) (l : list A) :
  List.filter p (List.filter p l) = List.filter p l.
Proof.
  apply filter_all_true. intros x Hx. now apply filter_In in Hx.
Qed.

(** Writing the same row under the same key a second time changes
    nothing. *)
Lemma upsert_twice_same {A} (p : A -> bool) (l : list A) (x : A) :
  p x = true ->
  (List.filter (fun y => negb (p y))
     (List.filter (fun y => negb (p y)) l ++ [x]) ++ [x])%list
  = (List.filter (fun y => negb (p y)) l ++ [x])%list.
Proof.
  intros Hx. rewrite List.filter_app, filter_idem. simpl.
  now rewrite Hx, app_nil_r.
Qed.

Lemma query_chat_name_after_handle (st : MessageStore) (c n : string)
    (t : Time) (i sndr txt : string) (b : bool) :
  query_chat_name
    (fst (StoreMessage (fst (StoreChat st c n t)) i c sndr txt t b)) c
  = inl n.
Proof.
  destruct (StoreChat_rows_after st c n t) as (_ & _ & Hq). cbv zeta in Hq.
  unfold query_chat_name in *.
  replace (chats (fst (StoreMessage (fst (StoreChat st c n t))
                         i c sndr txt t b)))
    with (chats (fst (StoreChat st c n t))); [exact Hq|].
  unfold StoreMessage.
  destruct (String.eqb txt ""); [reflexivity|].
  destruct (chat_exists _ c); reflexivity.
Qed.

(** A name computed without a cache hit does not depend on the store. *)
Lemma GetChatName_live_uncached (client : Client) (j : types.JID)
    (c sndr : string) (s s' : Proc) :
  match query_chat_name (db s) c with
  | inl m => if negb (is_empty m) then Some m else None
  | inr _ => None
  end = None ->
  match query_chat_name (db s') c with
  | inl m => if negb (is_empty m) then Some m else None
  | inr _ => None
  end = None ->
  fst (GetChatName client j c None sndr s)
  = fst (GetChatName client j c None sndr s').
Proof.
  intros H H'. unfold GetChatName, bind, get_store. rewrite H, H'.
  destruct (String.eqb (types.Server j) "g.us").
  - cbn [conversation_name ret is_empty String.eqb].
    destruct (GetGroupInfo client j) as [info|]; [|reflexivity].
    destruct (negb (is_empty (GroupName info))); reflexivity.
  - destruct (GetContact client j) as [contact|].
    + destruct (negb (is_empty (FullName contact))); [reflexivity|].
      destruct (negb (is_empty sndr)); reflexivity.
    + destruct (negb (is_empty sndr)); reflexivity.
Qed.

(** After a text message was handled, resolving the chat's name again
    gives the name that was resolved the first time. *)
Lemma GetChatName_after_handle (client : Client) (j : types.JID)
    (c sndr : string) (s s1 : Proc) (n : string) :
  GetChatName client j c None sndr s = (Done n, s) ->
  query_chat_name (db s1) c = inl n ->
  GetChatName client j c None sndr s1 = (Done n, s1).
Proof.
  intros Hn Hq.
  destruct (GetChatName_live_returns client j c sndr s1) as [n' Hn'].
  rewrite Hn'. f_equal. f_equal.
  destruct (is_empty n) eqn:He.
  - apply is_empty_true in He. subst n.
    assert (H1 : match query_chat_name (db s1) c with
                 | inl m => if negb (is_empty m) then Some m else None
                 | inr _ => None
                 end = None) by now rewrite Hq.
    assert (H0 : match query_chat_name (db s) c with
                 | inl m => if negb (is_empty m) then Some m else None
                 | inr _ => None
                 end = None).
    { revert Hn. unfold GetChatName, bind, get_store.
      destruct (query_chat_name (db s) c) as [m|]; [|reflexivity].
      destruct (is_empty m) eqn:Hm; [reflexivity|]. cbn [negb].
      unfold ret. intros Heq. inversion Heq; subst.
      discriminate Hm. }
    pose proof (GetChatName_live_uncached client j c sndr s s1 H0 H1) as Heq.
    rewrite Hn, Hn' in Heq. cbn [fst] in Heq. now inversion Heq.
  - revert Hn'. unfold GetChatName, bind, get_store. rewrite Hq, He.
    cbn [negb]. unfold ret. intros Heq. now inversion Heq.
Qed.

(** X13: handling a live text message is idempotent.  When the same
    event is delivered and handled a second time, the process state
    (store included) is exactly what the first handling left. *)
Theorem handleMessage_replay (client : Client) (v : EventMessage) (s : Proc) :
  extractTextContent (Message v) <> "" ->
  handleMessage client v (snd (handleMessage client v s))
  = handleMessage client v s.
Proof.
  intros Hc.
  destruct (handleMessage_text_run client v s Hc) as (n & Hn & Hrun).
  rewrite Hrun. cbn [snd].
  set (c := JID_String client (Chat (Info v))) in *.
  set (s1 := {| db := _; posts := _; enqueued := _; deleted := _ |}).
  destruct (handleMessage_text_run client v s1 Hc) as (n' & Hn' & Hrun').
  fold c in Hn', Hrun'.
  assert (Hq : query_chat_name (db s1) c = inl n)
    by apply query_chat_name_after_handle.
  rewrite (GetChatName_after_handle _ _ _ _ _ _ _ Hn Hq) in Hn'.
  inversion Hn'; subst n'. rewrite Hrun'. f_equal. subst s1.
  cbn [db posts enqueued deleted]. f_equal.
  rewrite (StoreMessage_rows_after (fst (StoreChat (db s) c n _)))
    by (assumption || apply chat_exists_after_StoreChat).
  cbn [fst].
  rewrite StoreMessage_rows_after
    by (assumption || apply chat_exists_after_StoreChat).
  cbn [fst]. unfold StoreChat. cbn [fst chats messages].
  f_equal.
  - apply (upsert_twice_same (same_chat_key c)).
    unfold same_chat_key. simpl. apply String.eqb_refl.
  - apply (upsert_twice_same (same_message_key (ID (Info v)) c)).
    unfold same_message_key. simpl. now rewrite !String.eqb_refl.
Qed.

Lemma handleMessage_replay_witness :
  handleMessage sample_client status_event
    (snd (handleMessage sample_client status_event fresh))
  = handleMessage sample_client status_event fresh.
Proof.
  apply (handleMessage_replay sample_client status_event fresh).
  discriminate.
Defined.

(** X14: the caller caches the name.  Once [handleMessage] has stored a
    text message of a chat under a non-empty resolved name, every later
    resolution for that chat id returns that name, whatever the client,
    the metadata or the sender say by then. *)
Theorem resolved_name_is_reused (client : Client) (v : EventMessage)
    (s : Proc) (n : string)
    (client' : Client) (j' : types.JID) (conversation : option rvalue)
    (sndr' : string) :
  extractTextContent (Message v) <> "" ->
  fst (GetChatName client (Chat (Info v))
         (JID_String client (Chat (Info v))) None
         (types.User (Sender (Info v))) s) = Done n ->
  n <> "" ->
  let s1 := snd (handleMessage client v s) in
  GetChatName client' j' (JID_String client (Chat (Info v))) conversation
    sndr' s1
  = (Done n, s1).
Proof.
  intros Hc Hn Hne. cbv zeta.
  destruct (handleMessage_text_run client v s Hc) as (n0 & Hn0 & Hrun).
  rewrite Hn0 in Hn. cbn [fst] in Hn. inversion Hn; subst n0.
  rewrite Hrun. cbn [snd].
  unfold GetChatName, bind, get_store. cbn [db].
  rewrite query_chat_name_after_handle.
  apply is_empty_false in Hne. now rewrite Hne.
Qed.

Lemma resolved_name_is_reused_witness :
  let s1 := snd (handleMessage sample_client status_event fresh) in
  GetChatName sample_client (types.mkJID "120363041" "g.us")
    "status@broadcast" None "" s1
  = (Done "1555", s1).
Proof.
  apply (resolved_name_is_reused sample_client status_event fresh "1555"
           sample_client (types.mkJID "120363041" "g.us") None "").
  - discriminate.
  - reflexivity.
  - discriminate.
Defined.

(* ===================================================================== *)
(** ** Forwarders and the live handler: what reaches the backend *)
(* ===================================================================== *)

(** Every path of a forwarder ends in one of the two shapes. *)
Ltac at_most_once w :=
  intros; unfold forwards_at_most_once, bind, client_Do, ret, log_Fatal;
  forwarder_paths w; cbn [fst snd db posts enqueued deleted];
  (split; [reflexivity|]; split; [reflexivity|]; split; [reflexivity|]);
  first
    [ left; reflexivity
    | right; eexists; split; [reflexivity|]; cbn [req_authorization req_fields];
      split; [reflexivity|]; split;
      [ apply is_empty_false; assumption
      | unfold log_fields; simpl; tauto ] ].

(** The forwarders that the consumer and the command surface call meet
    [forwards_at_most_once]. *)
Lemma forwarders_frame (w : World) (a b c f : string) (t : Time) (s : Proc) :
  forwards_at_most_once w s (logMessage w a b c t s)
  /\ forwards_at_most_once w s (logfunction.LogMessage w a b c t s)
  /\ forwards_at_most_once w s (logfunction.LogImageMessageSQS w a b c f t s)
  /\ forwards_at_most_once w s
       (logfunction.LogDocumentMessageSQS w a b c f t s).
Proof.
  unfold logMessage, logfunction.LogMessage, logfunction.LogImageMessageSQS,
    logfunction.LogDocumentMessageSQS.
  repeat split_and; at_most_once w.
Qed.

(** X15: no forwarder touches the store or the queue, and each makes at
    most one POST; a POST that is made carries ["Bearer " + token] with
    a non-empty token and the field [message_status = READ]. *)
Theorem forwarders_post_at_most_once (w : World)
    (a b c f : string) (t : Time) (adm i p : string) (s : Proc) :
  forwards_at_most_once w s (logMessage w a b c t s)
  /\ forwards_at_most_once w s (logImageMessage w a b c f t s)
  /\ forwards_at_most_once w s (logDocumentMessage w a b c f t s)
  /\ forwards_at_most_once w s (logfunction.LogMessage w a b c t s)
  /\ forwards_at_most_once w s (logfunction.LogImageMessage w a b c f t s)
  /\ forwards_at_most_once w s (logfunction.LogDocumentMessage w a b c f t s)
  /\ forwards_at_most_once w s (logfunction.LogImageMessageSQS w a b c f t s)
  /\ forwards_at_most_once w s
       (logfunction.LogDocumentMessageSQS w a b c f t s)
  /\ forwards_at_most_once w s (logfunction_v2.LogMessage w a b c t adm i p s)
  /\ forwards_at_most_once w s (logfunction_v3.LogMessage w a b c t adm i p s)
  /\ forwards_at_most_once w s
       (logfunction_v3.LogDocumentMessageSQS w a b c f t adm i p s).
Proof.
  unfold logMessage, logImageMessage, logDocumentMessage, logFileMessage,
    logfunction.LogMessage, logfunction.LogImageMessage,
    logfunction.LogDocumentMessage, logfunction.LogImageMessageSQS,
    logfunction.LogDocumentMessageSQS, logfunction_v2.LogMessage,
    logfunction_v3.LogMessage, logfunction_v3.LogDocumentMessageSQS.
  repeat split_and; at_most_once w.
Qed.

Lemma handleMessage_returns (client : Client) (v : EventMessage) (s : Proc) :
  exists s1, handleMessage client v s = (Done tt, s1)
             /\ posts s1 = posts s /\ enqueued s1 = enqueued s
             /\ deleted s1 = deleted s.
Proof.
  destruct (is_empty (extractTextContent (Message v))) eqn:He.
  - exists s. unfold handleMessage. rewrite He. auto.
  - apply is_empty_false in He.
    destruct (handleMessage_text_run client v s He) as (n & _ & ->).
    eexists. split; [reflexivity|]. auto.
Qed.

(** [UnixMilli] is the time itself as long as its milliseconds fit an
    [int64]. *)
Lemma UnixMilli_in_range (t : Time) :
  - 2 ^ 63 <= t < 2 ^ 63 -> UnixMilli t = t.
Proof.
  intros H. unfold UnixMilli, wrap_int64.
  rewrite Z.mod_small by lia. lia.
Qed.

(** X16: a plain text message that is not a status is forwarded by the
    handler of main.go in one POST: to the log endpoint, with the
    bearer token, from the sender's user to the chat's user, with the
    text and the event's time as [UnixMilli] gives it. *)
Theorem onMessage_forwards_text (w : World) (client : Client)
    (v : EventMessage) (m : WAMessage) (text : string) (s : Proc) :
  Message v = Some m ->
  msg_Conversation m = Some text -> text <> "" ->
  msg_ImageMessage m = None -> msg_DocumentMessage m = None ->
  is_status (types.User (Sender (Info v))) (types.User (Chat (Info v)))
  = false ->
  godotenv_Load w = None ->
  os_Getenv w "BEARER_TOKEN" <> "" ->
  http_NewRequest w "POST" LogAPIEndpoint = None ->
  posts (snd (onMessage w client v s))
  = (posts s ++
     [ {| req_url := LogAPIEndpoint;
          req_authorization := "Bearer " +:+ os_Getenv w "BEARER_TOKEN";
          req_fields :=
            [ ("entity_phone_number_from", types.User (Sender (Info v)));
              ("entity_phone_number_to", types.User (Chat (Info v)));
              ("message_text", text);
              ("message_status", "READ");
              ("message_time", FormatInt (UnixMilli (Timestamp (Info v)))) ];
          req_file := None |} ])%list.
Proof.
  intros Hm Ht Hne Hi Hd Hst Henv Htok Hreq.
  apply is_empty_false in Hne, Htok.
  destruct (handleMessage_returns client v s) as (s1 & Hrun & Hp & _).
  unfold onMessage, bind. rewrite Hrun, Hm, Hst, Hd, Hi.
  cbn [ret negb]. unfold GetConversation. rewrite Ht, Hne. cbn [negb].
  unfold logMessage. rewrite Henv, Htok, Hreq.
  unfold bind, client_Do.
  destruct (http_Do w _); cbn [ret snd posts]; now rewrite Hp.
Qed.

Lemma onMessage_forwards_text_witness :
  posts (snd (onMessage (sample_world "secret" (Response 200 "200 OK" []))
                sample_client text_event fresh))
  = [ {| req_url := LogAPIEndpoint;
         req_authorization := "Bearer secret";
         req_fields :=
           [ ("entity_phone_number_from", "1555");
             ("entity_phone_number_to", "1555");
             ("message_text", "hi");
             ("message_status", "READ");
             ("message_time", "1700000000000") ];
         req_file := None |} ].
Proof.
  apply (onMessage_forwards_text
           (sample_world "secret" (Response 200 "200 OK" []))
           sample_client text_event
           {| msg_Conversation := Some "hi";
              msg_ExtendedTextMessage := None;
              msg_ImageMessage := None;
              msg_DocumentMessage := None |} "hi" fresh);
    try reflexivity; discriminate.
Defined.

(** X17: when the download of an attached document fails, the handler
    of main.go returns at once: nothing is sent to the backend for the
    event, not even its text or its image. *)
Theorem onMessage_failed_download_sends_nothing (w : World) (client : Client)
    (v : EventMessage) (m : WAMessage) (d : DocumentMessage) (e : string)
    (s : Proc) :
  Message v = Some m ->
  msg_DocumentMessage m = Some d ->
  Download client (doc_Media d) = inr e ->
  fst (onMessage w client v s) = Done tt
  /\ posts (snd (onMessage w client v s)) = posts s.
Proof.
  intros Hm Hd Hdl.
  destruct (handleMessage_returns client v s) as (s1 & Hrun & Hp & _).
  unfold onMessage, bind. rewrite Hrun, Hm.
  destruct (is_status _ _); [split; [reflexivity|exact Hp]|].
  rewrite Hd. unfold forward_media. rewrite Hdl.
  cbn [ret negb fst snd]. split; [reflexivity|exact Hp].
Qed.

Lemma onMessage_failed_download_sends_nothing_witness :
  fst (onMessage (sample_world "secret" (Response 200 "200 OK" []))
         offline_media_client document_event fresh) = Done tt
  /\ posts (snd (onMessage (sample_world "secret" (Response 200 "200 OK" []))
                   offline_media_client document_event fresh)) = posts fresh.
Proof.
  apply (onMessage_failed_download_sends_nothing
           (sample_world "secret" (Response 200 "200 OK" []))
           offline_media_client document_event
           {| msg_Conversation := Some "see attached";
              msg_ExtendedTextMessage := None;
              msg_ImageMessage := None;
              msg_DocumentMessage :=
                Some {| doc_Caption := Some "report";
                        doc_Media := "media-2" |} |}
           {| doc_Caption := Some "report"; doc_Media := "media-2" |}
           "download failed" fresh); reflexivity.
Defined.

(* ===================================================================== *)
(** ** The text that the handler forwards *)
(* ===================================================================== *)

(** C7 at the handler of main.go.  For an event whose text comes as
    extended text only, [extractTextContent] gives that text, and
    [handleMessage] stores it; the handler itself takes its text from
    [GetConversation] alone (line 805), finds it empty and forwards
    nothing. *)
Theorem onMessage_forwards_conversation_only (w : World) (client : Client)
    (v : EventMessage) (m : WAMessage) (e : ExtendedTextMessage)
    (text : string) (s : Proc) :
  Message v = Some m ->
  GetConversation (Some m) = "" ->
  msg_ExtendedTextMessage m = Some e ->
  ext_Text e = Some text -> text <> "" ->
  msg_ImageMessage m = None -> msg_DocumentMessage m = None ->
  let r := onMessage w client v s in
  let chatJID := JID_String client (Chat (Info v)) in
  extractTextContent (Message v) = text
  /\ GetConversation (Message v) = ""
  /\ fst r = Done tt
  /\ message_rows (db (snd r)) (ID (Info v)) chatJID
     = [ {| id := ID (Info v); chat_jid := chatJID;
            sender := types.User (Sender (Info v)); content := text;
            timestamp := Timestamp (Info v);
            is_from_me := IsFromMe (Info v) |} ]
  /\ posts (snd r) = posts s.
Proof.
  intros Hm Hconv He Ht Hne Hi Hd. cbv zeta.
  assert (Hext : extractTextContent (Message v) = text).
  { rewrite Hm. unfold extractTextContent. rewrite Hconv.
    unfold GetExtendedTextMessage. rewrite He. cbn [String.eqb negb GetText].
    now rewrite Ht. }
  assert (Hcont : extractTextContent (Message v) <> "") by now rewrite Hext.
  destruct (handleMessage_text_run client v s Hcont) as (n & _ & Hrun).
  assert (Hall : onMessage w client v s
                 = (Done tt, snd (handleMessage client v s))).
  { unfold onMessage, bind. rewrite Hrun, Hm. cbn [snd].
    destruct (is_status _ _); [reflexivity|].
    rewrite Hd, Hi. cbn [ret negb]. rewrite Hconv. reflexivity. }
  split; [exact Hext|]. split; [now rewrite Hm|].
  rewrite Hall, Hrun, Hext. cbn [fst snd db posts].
  split; [reflexivity|]. split; [|reflexivity].
  rewrite StoreMessage_rows_after
    by (assumption || apply chat_exists_after_StoreChat).
  cbn [fst]. unfold message_rows. cbn [messages].
  rewrite List.filter_app, filter_after_removal. simpl.
  unfold same_message_key. simpl. now rewrite !String.eqb_refl.
Qed.

Lemma onMessage_forwards_conversation_only_witness :
  let r := onMessage (sample_world "secret" (Response 200 "200 OK" []))
             sample_client extended_text_event fresh in
  extractTextContent (Message extended_text_event) = "quoted"
  /\ GetConversation (Message extended_text_event) = ""
  /\ map content (message_rows (db (snd r)) "3EB1" "1555@s.whatsapp.net")
     = ["quoted"]
  /\ posts (snd r) = [].
Proof.
  pose proof (onMessage_forwards_conversation_only
                (sample_world "secret" (Response 200 "200 OK" []))
                sample_client extended_text_event quoted_only
                {| ext_Text := Some "quoted"; ext_HasContextInfo := true |}
                "quoted" fresh eq_refl eq_refl eq_refl eq_refl
                ltac:(discriminate) eq_refl eq_refl) as H.
  cbv zeta in H. destruct H as (Hx & Hc & _ & Hrows & Hp).
  cbv zeta. split; [exact Hx|]. split; [exact Hc|].
  split; [exact (f_equal (map content) Hrows)|exact Hp].
Defined.

(* ===================================================================== *)
(** ** The queue: producer and consumer *)
(* ===================================================================== *)

Lemma forwards_at_most_once_frame (w : World) (s : Proc)
    (r : outcome error * Proc) :
  forwards_at_most_once w s r ->
  db (snd r) = db s /\ enqueued (snd r) = enqueued s
  /\ deleted (snd r) = deleted s
  /\ exists ps, posts (snd r) = (posts s ++ ps)%list.
Proof.
  intros (Hd & He & Hx & Hp).
  split; [assumption|]. split; [assumption|]. split; [assumption|].
  destruct Hp as [Hp|(req & Hp & _)].
  - exists []. now rewrite app_nil_r.
  - now exists [req].
Qed.

Lemma frame_intro (s s' : Proc) (handles : list string)
    (ps : list Request) (hs : list string) :
  db s' = db s -> enqueued s' = enqueued s ->
  posts s' = (posts s ++ ps)%list ->
  deleted s' = (deleted s ++ hs)%list ->
  sublist hs handles ->
  db s' = db s
  /\ enqueued s' = enqueued s
  /\ (exists ps, posts s' = (posts s ++ ps)%list)
  /\ (exists hs, deleted s' = (deleted s ++ hs)%list /\ sublist hs handles).
Proof. intros. eauto 10. Qed.

(** X19: the consumer works on the queue and the backend only.  A call
    of the dispatch loop leaves the database and the producer's log
    alone, adds requests to the request log without removing any, and
    deletes only entries of the batch it was given, in batch order. *)
Theorem dispatch_frame (w : World) (q : Queue) (msgs : list SQSMessage)
    (s : Proc) :
  let r := dispatch w q msgs s in
  db (snd r) = db s
  /\ enqueued (snd r) = enqueued s
  /\ (exists ps, posts (snd r) = (posts s ++ ps)%list)
  /\ (exists hs, deleted (snd r) = (deleted s ++ hs)%list
                 /\ sublist hs (map ReceiptHandle msgs)).
Proof.
  cbv zeta. revert s.
  induction msgs as [|msg rest IH]; intros s.
  - apply (frame_intro s _ _ [] []); simpl; rewrite ?app_nil_r;
      reflexivity.
  - assert (Hskip :
      db (snd (dispatch w q rest s)) = db s
      /\ enqueued (snd (dispatch w q rest s)) = enqueued s
      /\ (exists ps, posts (snd (dispatch w q rest s)) = (posts s ++ ps)%list)
      /\ (exists hs, deleted (snd (dispatch w q rest s))
                     = (deleted s ++ hs)%list
                     /\ sublist hs (map ReceiptHandle (msg :: rest)))).
    { destruct (IH s) as (Hd & He & (ps & Hp) & hs & Hx & Hsub).
      apply (frame_intro s _ _ ps hs); try assumption.
      simpl. now apply sublist_cons. }
    cbn [dispatch].
    destruct (json_Unmarshal q (Body msg)) as [message|]; [|exact Hskip].
    set (fwd := if String.eqb (q_Type message) "text" then _ else _).
    assert (Hfwd : forall run, fwd = Some run ->
                     forwards_at_most_once w s (run s)).
    { subst fwd. intros run.
      pose proof (forwarders_frame w (q_From message)
                    (q_Message message) (q_To message) (q_File message)
                    (q_Time message) s) as H.
      destruct (String.eqb (q_Type message) "text");
        [intros Hr; inversion Hr; subst; apply H|].
      destruct (String.eqb (q_Type message) "image");
        [intros Hr; inversion Hr; subst; apply H|].
      destruct (String.eqb (q_Type message) "document");
        [intros Hr; inversion Hr; subst; apply H|].
      discriminate. }
    destruct fwd as [run|]; [|exact Hskip].
    specialize (Hfwd run eq_refl).
    apply forwards_at_most_once_frame in Hfwd.
    destruct Hfwd as (Hd1 & He1 & Hx1 & ps1 & Hp1).
    unfold bind. destruct (run s) as [[logErr| |] s1]; cbn [snd] in *.
    + destruct logErr as [e|].
      * destruct (IH s1) as (Hd & He & (ps & Hp) & hs & Hx & Hsub).
        apply (frame_intro s _ _ (ps1 ++ ps)%list hs); try congruence.
        -- rewrite Hp, Hp1. now rewrite app_assoc.
        -- simpl. now apply sublist_cons.
      * unfold sqs_Delete.
        destruct (DeleteMessage q (ReceiptHandle msg)) as [e|].
        -- cbn [ret snd].
           apply (frame_intro s _ _ ps1 []); rewrite ?app_nil_r;
             try assumption. apply sublist_nil_l.
        -- destruct (IH {| db := db s1; posts := posts s1;
                           enqueued := enqueued s1;
                           deleted := deleted s1 ++ [ReceiptHandle msg] |})
             as (Hd & He & (ps & Hp) & hs & Hx & Hsub).
           cbn [db posts enqueued deleted] in *.
           apply (frame_intro s _ _ (ps1 ++ ps)%list (ReceiptHandle msg :: hs));
             try congruence.
           ++ rewrite Hp, Hp1. now rewrite app_assoc.
           ++ rewrite Hx, Hx1. now rewrite <- app_assoc.
           ++ simpl. now apply sublist_skip.
    + apply (frame_intro s _ _ ps1 []); rewrite ?app_nil_r; try assumption.
      apply sublist_nil_l.
    + apply (frame_intro s _ _ ps1 []); rewrite ?app_nil_r; try assumption.
      apply sublist_nil_l.
Qed.

(** X20: entries that do not decode, or that carry an unknown type, are
    passed over: a batch made of such entries produces no request and
    no deletion, so every one of them stays in the queue, and the call
    returns [nil]. *)
Theorem consumer_leaves_undispatchable (w : World) (q : Queue)
    (msgs : list SQSMessage) (s : Proc) :
  ReceiveMessage q = inl msgs ->
  (forall msg, In msg msgs -> undispatchable q msg) ->
  recieveMessagesFromQueue w q s = (Done None, s).
Proof.
  intros Hrecv Hall. unfold recieveMessagesFromQueue. rewrite Hrecv.
  clear Hrecv. induction msgs as [|msg rest IH]; [reflexivity|].
  cbn [dispatch].
  pose proof (Hall msg (or_introl eq_refl)) as Hu. unfold undispatchable in Hu.
  assert (Hrest : dispatch w q rest s = (Done None, s)).
  { apply IH. intros m Hm. apply Hall. now right. }
  destruct (json_Unmarshal q (Body msg)) as [message|]; [|exact Hrest].
  destruct Hu as (Ht & Hi & Hd).
  apply String.eqb_neq in Ht, Hi, Hd. rewrite Ht, Hi, Hd. exact Hrest.
Qed.

Lemma consumer_leaves_undispatchable_witness :
  recieveMessagesFromQueue (sample_world "secret" (Response 200 "200 OK" []))
    audio_queue fresh
  = (Done None, fresh).
Proof.
  apply (consumer_leaves_undispatchable
           (sample_world "secret" (Response 200 "200 OK" [])) audio_queue
           [ {| Body := "{audio}"; ReceiptHandle := "rh-7" |} ] fresh).
  - reflexivity.
  - intros msg [<-|[]]. unfold undispatchable. simpl.
    repeat split; discriminate.
Defined.

(** X21: an image entry is deleted from the queue exactly when its
    forwarder's POST was answered with status 200 and the delete call
    itself succeeded; in every other case the entry stays. *)
Theorem consumer_deletes_image_iff_200 (w : World) (q : Queue)
    (msg : SQSMessage) (message : WALogMessageForQueue) (s : Proc) :
  json_Unmarshal q (Body msg) = inl message ->
  q_Type message = "image" ->
  let forwarded :=
    logfunction.LogImageMessageSQS w (q_From message) (q_Message message)
      (q_To message) (q_File message) (q_Time message) s in
  deleted (snd (dispatch w q [msg] s))
  = (deleted s ++ [ReceiptHandle msg])%list
  <-> post_completed_200 w s forwarded
      /\ DeleteMessage q (ReceiptHandle msg) = None.
Proof.
  intros Hj Ht. cbv zeta.
  pose proof (LogImageMessageSQS_success_iff w (q_From message)
                (q_Message message) (q_To message) (q_File message)
                (q_Time message) s) as Hiff. cbv zeta in Hiff.
  rewrite <- Hiff. clear Hiff.
  destruct (forwarders_frame w (q_From message)
              (q_Message message) (q_To message) (q_File message)
              (q_Time message) s)
    as (_ & _ & Hfr & _).
  destruct Hfr as (_ & _ & Hx & _).
  cbn [dispatch]. rewrite Hj, Ht. cbn [String.eqb Ascii.eqb Bool.eqb].
  unfold bind, succeeded.
  destruct (logfunction.LogImageMessageSQS w _ _ _ _ _ s)
    as [[[e|]| |] s1]; cbn [fst snd dispatch ret] in *.
  - rewrite Hx. split.
    + intros H. exfalso. exact (app_one_more _ _ H).
    + intros [H _]. discriminate H.
  - unfold sqs_Delete.
    destruct (DeleteMessage q (ReceiptHandle msg)) as [e|];
      cbn [ret snd deleted dispatch].
    + rewrite Hx. split.
      * intros H. exfalso. exact (app_one_more _ _ H).
      * intros [_ H]. discriminate H.
    + rewrite Hx. split; auto.
  - rewrite Hx. split.
    + intros H. exfalso. exact (app_one_more _ _ H).
    + intros [H _]. discriminate H.
  - rewrite Hx. split.
    + intros H. exfalso. exact (app_one_more _ _ H).
    + intros [H _]. discriminate H.
Qed.

Lemma consumer_deletes_image_iff_200_witness :
  deleted (snd (dispatch (sample_world "secret" (Response 200 "200 OK" []))
                  sample_queue
                  [ {| Body := "{image}"; ReceiptHandle := "rh-1" |} ] fresh))
  = ["rh-1"].
Proof.
  apply (consumer_deletes_image_iff_200
           (sample_world "secret" (Response 200 "200 OK" [])) sample_queue
           {| Body := "{image}"; ReceiptHandle := "rh-1" |}
           {| q_Type := "image"; q_From := "1555"; q_To := "1777";
              q_Message := "photo"; q_File := "https://bucket/image.jpg";
              q_Time := 1700000000000 |} fresh eq_refl eq_refl).
  split; [|reflexivity].
  eexists _, _, _. split; reflexivity.
Defined.

(** X22: in the SQS revision a plain text message that is not a status
    is put on the queue once, as a ["text"] envelope from the resolved
    sender to the resolved recipient with the event's time and no file;
    nothing is posted to the backend by the handler itself. *)
Theorem onMessageSQS_queues_text (w : World) (q : Queue) (client : Client)
    (v : EventMessage) (m : WAMessage) (text sndr rcpt body : string)
    (s : Proc) :
  Message v = Some m ->
  msg_Conversation m = Some text -> text <> "" ->
  msg_ExtendedTextMessage m = None ->
  msg_ImageMessage m = None -> msg_DocumentMessage m = None ->
  resolve_parties client v = Some (sndr, rcpt) ->
  is_status sndr rcpt = false ->
  json_Marshal q {| q_Type := "text"; q_From := sndr; q_To := rcpt;
                    q_Message := text; q_File := "";
                    q_Time := Timestamp (Info v) |} = inl body ->
  SendMessage q body = None ->
  fst (onMessageSQS w q client v s) = Done tt
  /\ enqueued (snd (onMessageSQS w q client v s))
     = (enqueued s ++ [body])%list
  /\ posts (snd (onMessageSQS w q client v s)) = posts s.
Proof.
  intros Hm Ht Hne He Hi Hd Hp Hst Hj Hsend.
  apply is_empty_false in Hne.
  destruct (handleMessage_returns client v s) as (s1 & Hrun & Hps & Hen & _).
  unfold onMessageSQS, bind. rewrite Hrun, Hp, Hm, Hst, Hd, Hi.
  cbn [ret negb]. unfold GetConversation, GetExtendedTextMessage.
  rewrite Ht, He, Hne. cbn [negb].
  unfold sendMessageToQueue. rewrite Hj, Hsend.
  cbn [fst snd enqueued posts]. now rewrite Hps, Hen.
Qed.

Lemma onMessageSQS_queues_text_witness :
  enqueued (snd (onMessageSQS (sample_world "secret" (Response 200 "200 OK" []))
                   sample_queue sample_client text_event fresh))
  = ["text:hi"].
Proof.
  apply (onMessageSQS_queues_text
           (sample_world "secret" (Response 200 "200 OK" []))
           sample_queue sample_client text_event
           {| msg_Conversation := Some "hi";
              msg_ExtendedTextMessage := None;
              msg_ImageMessage := None;
              msg_DocumentMessage := None |}
           "hi" "1555" "1777" "text:hi" fresh);
    try reflexivity; discriminate.
Defined.

(** X23: in the SQS revision an extended text without a plain
    conversation string is queued only as a reply: with context info
    and a non-empty text it gives one ["text"] envelope holding that
    text; without context info nothing is queued for it. *)
Theorem onMessageSQS_extended_text (w : World) (q : Queue) (client : Client)
    (v : EventMessage) (m : WAMessage) (e : ExtendedTextMessage)
    (sndr rcpt : string) (s : Proc) :
  Message v = Some m ->
  msg_Conversation m = None ->
  msg_ExtendedTextMessage m = Some e ->
  msg_ImageMessage m = None -> msg_DocumentMessage m = None ->
  resolve_parties client v = Some (sndr, rcpt) ->
  is_status sndr rcpt = false ->
  (ext_HasContextInfo e = false ->
     enqueued (snd (onMessageSQS w q client v s)) = enqueued s)
  /\ (forall body,
        ext_HasContextInfo e = true -> GetText (Some e) <> "" ->
        json_Marshal q {| q_Type := "text"; q_From := sndr; q_To := rcpt;
                          q_Message := GetText (Some e); q_File := "";
                          q_Time := Timestamp (Info v) |} = inl body ->
        SendMessage q body = None ->
        enqueued (snd (onMessageSQS w q client v s))
        = (enqueued s ++ [body])%list).
Proof.
  intros Hm Ht He Hi Hd Hp Hst.
  destruct (handleMessage_returns client v s) as (s1 & Hrun & Hps & Hen & _).
  unfold onMessageSQS, bind. rewrite Hrun, Hp, Hm, Hst, Hd, Hi.
  cbn [ret negb]. unfold GetConversation, GetExtendedTextMessage.
  rewrite Ht, He. cbn [is_empty String.eqb negb ret].
  split.
  - intros ->. exact Hen.
  - intros body -> Hne Hj Hsend. apply is_empty_false in Hne.
    fold (is_empty (GetText (Some e))). rewrite Hne. cbn [negb].
    unfold sendMessageToQueue. rewrite Hj, Hsend.
    cbn [snd enqueued]. now rewrite Hen.
Qed.

Lemma onMessageSQS_extended_text_witness :
  enqueued (snd (onMessageSQS (sample_world "secret" (Response 200 "200 OK" []))
                   sample_queue sample_client reply_event fresh))
  = ["text:quoted"].
Proof.
  apply (proj2 (onMessageSQS_extended_text
                  (sample_world "secret" (Response 200 "200 OK" []))
                  sample_queue sample_client reply_event quoted_only
                  {| ext_Text := Some "quoted"; ext_HasContextInfo := true |}
                  "1555" "1777" fresh eq_refl eq_refl eq_refl eq_refl eq_refl
                  eq_refl eq_refl) "text:quoted");
    try reflexivity. discriminate.
Defined.

(* ===================================================================== *)
(** ** History sync: what is stored, under which sender, and the count *)
(* ===================================================================== *)

(** The run of the inner loop body on a storable record. *)
Lemma syncMessage_run (client : Client) (j : types.JID) (c : string)
    (info : WebMessageInfo) (sndr : string) (s : Proc) :
  storable (Some {| hsm_Message := Some info |}) = true ->
  history_sender client j info sndr ->
  chat_exists (db s) c = true ->
  syncMessage client j c (Some {| hsm_Message := Some info |}) s
  = (Done 1,
     {| db := fst (StoreMessage (db s) (history_id info) c sndr
                     (history_content info)
                     (time_Unix (int64_of_uint64 (GetMessageTimestamp info)))
                     (history_from_me info));
        posts := posts s; enqueued := enqueued s; deleted := deleted s |}).
Proof.
  intros Hst Hs Hex. cbn [storable] in Hst.
  apply andb_true_iff in Hst. destruct Hst as [Hc Ht].
  apply negb_true_iff in Hc, Ht.
  assert (Hcontent : history_content info <> "") by now apply is_empty_false.
  cbn [syncMessage]. rewrite Hc.
  assert (Hsender :
    forall k : string -> M Z,
      bind (match wmi_Key info with
            | Some key =>
                match key_Participant key with
                | Some p =>
                    if negb (match wmi_Key info with
                             | Some {| key_FromMe := Some b |} => b
                             | _ => false
                             end) && negb (is_empty p) then ret p
                    else if match wmi_Key info with
                            | Some {| key_FromMe := Some b |} => b
                            | _ => false
                            end
                    then match Store_ID client with
                         | Some me => ret (types.User me)
                         | None => panic nil_dereference
                         end
                    else ret (types.User j)
                | None =>
                    if match wmi_Key info with
                       | Some {| key_FromMe := Some b |} => b
                       | _ => false
                       end
                    then match Store_ID client with
                         | Some me => ret (types.User me)
                         | None => panic nil_dereference
                         end
                    else ret (types.User j)
                end
            | None => ret (types.User j)
            end) k s = k sndr s).
  { intros k. unfold bind.
    destruct Hs as [me Hfm Hid | p Hfm Hp Hne | Hfm Hp];
      unfold history_from_me, history_participant in *;
      destruct (wmi_Key info) as [[fm part kid]|]; cbn [key_Participant] in *;
      try discriminate; try reflexivity.
    - destruct fm as [[]|]; try discriminate.
      destruct part as [p|]; cbn [negb andb]; rewrite Hid; reflexivity.
    - subst part. apply is_empty_false in Hne.
      destruct fm as [[]|]; try discriminate; cbn [negb andb];
        rewrite Hne; reflexivity.
    - destruct fm as [[]|]; try discriminate;
        destruct Hp as [->| ->]; reflexivity. }
  rewrite Hsender. rewrite Ht.
  unfold bind, on_store. cbn [db posts enqueued deleted].
  fold (history_from_me info). fold (history_id info).
  rewrite StoreMessage_rows_after by assumption.
  reflexivity.
Qed.

Lemma history_sender_exists (client : Client) (j : types.JID)
    (info : WebMessageInfo) (me : types.JID) :
  Store_ID client = Some me ->
  exists sndr, history_sender client j info sndr.
Proof.
  intros Hid. destruct (history_from_me info) eqn:Hfm.
  - exists (types.User me). now apply sender_is_me.
  - destruct (history_participant info) as [p|] eqn:Hp.
    + destruct (String.eqb_spec p "") as [->|Hne].
      * exists (types.User j). apply sender_is_chat; auto.
      * exists p. now apply sender_is_participant.
    + exists (types.User j). apply sender_is_chat; auto.
Qed.

(** A record that is not storable is passed over. *)
Lemma syncMessage_skip (client : Client) (j : types.JID) (c : string)
    (rec : option HistorySyncMsg) (me : types.JID) (s : Proc) :
  Store_ID client = Some me ->
  storable rec = false ->
  syncMessage client j c rec s = (Done 0, s).
Proof.
  intros Hid Hst. destruct rec as [[[info|]]|]; try reflexivity.
  cbn [storable] in Hst. cbn [syncMessage].
  destruct (is_empty (history_content info)); [reflexivity|].
  cbn [negb andb] in Hst. apply negb_false_iff in Hst. rewrite Hst.
  unfold bind. rewrite Hid.
  destruct (wmi_Key info) as [[fm part kid]|]; [|reflexivity].
  cbn [key_Participant].
  destruct fm as [[]|], part as [p|]; cbn [negb andb]; try reflexivity;
    destruct (is_empty p); reflexivity.
Qed.

(** The inner loop on a chat that exists: it counts the storable
    records, and touches nothing but the messages table. *)
Lemma sync_loop_counts (client : Client) (j : types.JID) (c : string)
    (me : types.JID) (records : list (option HistorySyncMsg)) (s : Proc) :
  Store_ID client = Some me ->
  chat_exists (db s) c = true ->
  exists s',
    for_range (syncMessage client j c) records s
    = (Done (Z.of_nat (length (List.filter storable records))), s')
    /\ chats (db s') = chats (db s) /\ posts s' = posts s
    /\ enqueued s' = enqueued s /\ deleted s' = deleted s.
Proof.
  intros Hid. revert s.
  induction records as [|rec records IH]; intros s Hex.
  - exists s. auto.
  - cbn [for_range List.filter]. unfold bind at 1.
    destruct (storable rec) eqn:Hst.
    + destruct rec as [[[info|]]|]; try discriminate.
      destruct (history_sender_exists client j info me Hid) as [sndr Hs].
      rewrite (syncMessage_run client j c info sndr s Hst Hs Hex).
      set (s1 := {| db := _; posts := _; enqueued := _; deleted := _ |}).
      assert (Hch : chats (db s1) = chats (db s)).
      { subst s1. cbn [db]. unfold StoreMessage.
        destruct (String.eqb _ ""); [reflexivity|].
        destruct (chat_exists (db s) c); reflexivity. }
      assert (Hex1 : chat_exists (db s1) c = true).
      { unfold chat_exists in *. now rewrite Hch. }
      destruct (IH s1 Hex1) as (s' & Hrun & Hc' & Hp' & He' & Hd').
      exists s'. unfold bind. rewrite Hrun. unfold ret.
      split; [|rewrite Hc', Hch; auto].
      f_equal. f_equal. cbn [length]. lia.
    + rewrite (syncMessage_skip client j c rec me s Hid Hst).
      destruct (IH s Hex) as (s' & Hrun & Hc' & Hp' & He' & Hd').
      exists s'. unfold bind. rewrite Hrun. unfold ret.
      split; [|auto]. reflexivity.
Qed.

(** X24: a conversation whose first record has a time stamp is synced
    in full.  The chat row is upserted with that time, and the count
    the loop reports is the number of records that carry a text and a
    non-zero time stamp, each of which has been accepted by the store
    (a record delivered twice is counted twice).  Nothing is posted or
    queued. *)
Theorem syncConversation_counts_storable (client : Client)
    (conv : Conversation) (c : string) (j me : types.JID)
    (latest : option HistorySyncMsg) (rest : list (option HistorySyncMsg))
    (t : Time) (s : Proc) :
  Store_ID client = Some me ->
  conv_ID conv = Some c ->
  ParseJID client c = inl j ->
  conv_Messages conv = latest :: rest ->
  record_timestamp latest = Some t ->
  let r := syncConversation client (Some conv) s in
  fst r = Done (Z.of_nat (length (List.filter storable (conv_Messages conv))))
  /\ map last_message_time
       (List.filter (same_chat_key c) (chats (db (snd r)))) = [t]
  /\ posts (snd r) = posts s /\ enqueued (snd r) = enqueued s.
Proof.
  intros Hid Hc Hj Hm Ht. cbv zeta.
  destruct (GetChatName_history_returns client j c conv s) as [nm Hnm].
  set (s1 := {| db := fst (StoreChat (db s) c nm t); posts := posts s;
                enqueued := enqueued s; deleted := deleted s |}).
  assert (Hex : chat_exists (db s1) c = true)
    by apply chat_exists_after_StoreChat.
  destruct (sync_loop_counts client j c me (latest :: rest) s1 Hid Hex)
    as (s' & Hrun & Hch & Hp & He & _).
  assert (Hall : syncConversation client (Some conv) s
                 = (Done (Z.of_nat (length (List.filter storable
                                              (conv_Messages conv)))), s')).
  { unfold syncConversation. rewrite Hc, Hj. unfold bind at 1.
    rewrite Hnm, Hm, Ht. unfold bind at 1. unfold on_store at 1.
    destruct (StoreChat (db s) c nm t) as [st1 e1] eqn:Hsc.
    subst s1. cbn [fst] in Hrun. exact Hrun. }
  rewrite Hall. cbn [fst snd]. split; [reflexivity|].
  subst s1. cbn [db posts enqueued] in *.
  split; [|split; assumption].
  rewrite Hch.
  destruct (StoreChat_rows_after (db s) c nm t) as (_ & Hf & _).
  cbv zeta in Hf. now rewrite Hf.
Qed.

Lemma syncConversation_counts_storable_witness :
  fst (syncConversation sample_client (Some family_conversation) fresh)
  = Done 2.
Proof.
  apply (syncConversation_counts_storable sample_client family_conversation
           "120363041@g.us" (types.mkJID "120363041" "g.us")
           (types.mkJID "1777" "s.whatsapp.net")
           (participant_record "hello" 1700000100)
           (tl (conv_Messages family_conversation)) 1700000100000 fresh);
    reflexivity.
Defined.

(** [time.Unix(int64(ts), 0)] is [ts] seconds after the epoch as long
    as the seconds counted from year 1 still fit an [int64]. *)
Lemma time_Unix_in_range (ts : Z) :
  0 <= ts < 2 ^ 63 - unixToInternal ->
  time_Unix (int64_of_uint64 ts) = ts * 1000.
Proof.
  intros [Hlo Hhi]. unfold time_Unix, int64_of_uint64, wrap_int64.
  unfold unixToInternal in *.
  destruct (Z.ltb_spec ts (2 ^ 63)) as [_|Hge]; [|lia].
  rewrite Z.mod_small by lia. lia.
Qed.

(** X25: the sender stored for a history record.  For a record with a
    text and a time stamp, in a chat that has its row, the loop stores
    the row under the record's key id with the record's text and the
    time [time.Unix(int64(ts), 0)], and with this sender: the local
    account's user when the record is from me; otherwise the record's
    participant when it is not empty; otherwise the user part of the
    chat id.  The stored time is [ts] seconds after the epoch when
    [ts + 62135596800] is below [2 ^ 63]. *)
Theorem syncMessage_stores_with_sender (client : Client) (j : types.JID)
    (c : string) (info : WebMessageInfo) (s : Proc) :
  storable (Some {| hsm_Message := Some info |}) = true ->
  chat_exists (db s) c = true ->
  let r := syncMessage client j c (Some {| hsm_Message := Some info |}) s in
  let row sndr :=
    {| id := history_id info; chat_jid := c; sender := sndr;
       content := history_content info;
       timestamp := time_Unix (int64_of_uint64 (GetMessageTimestamp info));
       is_from_me := history_from_me info |} in
  (forall me, history_from_me info = true -> Store_ID client = Some me ->
     message_rows (db (snd r)) (history_id info) c = [row (types.User me)])
  /\ (forall p, history_from_me info = false ->
        history_participant info = Some p -> p <> "" ->
        message_rows (db (snd r)) (history_id info) c = [row p])
  /\ (history_from_me info = false ->
      history_participant info = None \/ history_participant info = Some "" ->
      message_rows (db (snd r)) (history_id info) c = [row (types.User j)])
  /\ (0 <= GetMessageTimestamp info < 2 ^ 63 - unixToInternal ->
      forall sndr, timestamp (row sndr) = GetMessageTimestamp info * 1000).
Proof.
  intros Hst Hex. cbv zeta.
  assert (Hcontent : history_content info <> "").
  { cbn [storable] in Hst. apply andb_true_iff in Hst.
    destruct Hst as [Hc _]. apply negb_true_iff in Hc.
    now apply is_empty_false. }
  assert (Hrow : forall sndr, history_sender client j info sndr ->
    message_rows (db (snd (syncMessage client j c
                             (Some {| hsm_Message := Some info |}) s)))
      (history_id info) c
    = [ {| id := history_id info; chat_jid := c; sender := sndr;
           content := history_content info;
           timestamp :=
             time_Unix (int64_of_uint64 (GetMessageTimestamp info));
           is_from_me := history_from_me info |} ]).
  { intros sndr Hs.
    rewrite (syncMessage_run client j c info sndr s Hst Hs Hex).
    cbn [snd db]. rewrite StoreMessage_rows_after by assumption.
    cbn [fst]. unfold message_rows. cbn [messages].
    rewrite List.filter_app, filter_after_removal. simpl.
    unfold same_message_key. simpl. now rewrite !String.eqb_refl. }
  split; [|split; [|split]].
  - intros me Hfm Hid. apply Hrow. now apply sender_is_me.
  - intros p Hfm Hp Hne. apply Hrow. now apply sender_is_participant.
  - intros Hfm Hp. apply Hrow. now apply sender_is_chat.
  - intros Hts sndr. cbn [timestamp]. now apply time_Unix_in_range.
Qed.

Lemma syncMessage_stores_with_sender_witness :
  let s := {| db := fst (StoreChat NewMessageStore "120363041@g.us"
                           "Family" 1700000100000);
              posts := []; enqueued := []; deleted := [] |} in
  map (fun r => (sender r, timestamp r))
    (message_rows
       (db (snd (syncMessage sample_client (types.mkJID "120363041" "g.us")
                   "120363041@g.us" (participant_record "hello" 1700000100) s)))
       "H7" "120363041@g.us")
  = [("1555@s.whatsapp.net", 1700000100000)].
Proof.
  cbv zeta.
  pose proof (syncMessage_stores_with_sender sample_client
                (types.mkJID "120363041" "g.us") "120363041@g.us"
                {| wmi_Key := Some {| key_FromMe := Some false;
                                       key_Participant :=
                                         Some "1555@s.whatsapp.net";
                                       key_ID := Some "H7" |};
                   wmi_Message :=
                     Some {| msg_Conversation := Some "hello";
                             msg_ExtendedTextMessage := None;
                             msg_ImageMessage := None;
                             msg_DocumentMessage := None |};
                   wmi_MessageTimestamp := Some 1700000100 |}
                {| db := fst (StoreChat NewMessageStore "120363041@g.us"
                                "Family" 1700000100000);
                   posts := []; enqueued := []; deleted := [] |}
                eq_refl eq_refl) as H.
  cbv zeta in H. destruct H as (_ & Hp & _ & Ht).
  specialize (Hp "1555@s.whatsapp.net" eq_refl eq_refl ltac:(discriminate)).
  specialize (Ht ltac:(vm_compute; split; [discriminate|reflexivity])
                 "1555@s.whatsapp.net").
  cbn [timestamp] in Ht.
  etransitivity;
    [exact (f_equal (map (fun r => (sender r, timestamp r))) Hp)|].
  cbn [map sender timestamp]. now rewrite Ht.
Defined.

(* ===================================================================== *)
(** ** Forwarders that check the response *)
(* ===================================================================== *)

(** X26: the forwarders that look at the response status
    ([LogDocumentMessage], [LogImageMessageSQS], both seven-argument
    [LogMessage] revisions and the eight-argument
    [LogDocumentMessageSQS]) return [nil] exactly when they made their
    POST and the backend answered it with status 200; a missing token,
    a failed fetch, a transport error or any other status gives an
    error. *)
Theorem checked_forwarders_success_iff_200 (w : World)
    (a b c f : string) (t : Time) (adm i p : string) (s : Proc) :
  (succeeded (logfunction.LogDocumentMessage w a b c f t s)
   <-> post_completed_200 w s (logfunction.LogDocumentMessage w a b c f t s))
  /\ (succeeded (logfunction.LogImageMessageSQS w a b c f t s)
      <-> post_completed_200 w s
            (logfunction.LogImageMessageSQS w a b c f t s))
  /\ (succeeded (logfunction_v2.LogMessage w a b c t adm i p s)
      <-> post_completed_200 w s
            (logfunction_v2.LogMessage w a b c t adm i p s))
  /\ (succeeded (logfunction_v3.LogMessage w a b c t adm i p s)
      <-> post_completed_200 w s
            (logfunction_v3.LogMessage w a b c t adm i p s))
  /\ (succeeded (logfunction_v3.LogDocumentMessageSQS w a b c f t adm i p s)
      <-> post_completed_200 w s
            (logfunction_v3.LogDocumentMessageSQS w a b c f t adm i p s)).
Proof.
  split; [apply LogDocumentMessage_success_iff|].
  split; [apply LogImageMessageSQS_success_iff|].
  split; [apply LogMessage_v2_success_iff|].
  split; [apply LogMessage_v3_success_iff|].
  apply LogDocumentMessageSQS_v3_success_iff.
Qed.

(* ===================================================================== *)
(** ** The command surface *)
(* ===================================================================== *)

(** The outcomes of the text send, for either recipient rule. *)
Lemma send_text_cases (c : Session) (resolved : types.JID + string)
    (recipient message : string) :
  let r :=
    if negb (IsConnected c) then ((false, "Not connected to WhatsApp"), [])
    else
      match resolved with
      | inr err => ((false, "Error parsing JID: " +:+ err), [])
      | inl recipientJID =>
        match wa_SendMessage c recipientJID (OutConversation message) with
        | Some err =>
            ((false, "Error sending message: " +:+ err),
             [(recipientJID, OutConversation message)])
        | None =>
            ((true, "Message sent to " +:+ recipient),
             [(recipientJID, OutConversation message)])
        end
      end in
  (length (snd r) <= 1)%nat
  /\ (snd r <> [] ->
      IsConnected c = true
      /\ exists jid, resolved = inl jid
                     /\ snd r = [(jid, OutConversation message)])
  /\ (fst (fst r) = true
      <-> IsConnected c = true
          /\ exists jid, resolved = inl jid
               /\ wa_SendMessage c jid (OutConversation message) = None).
Proof.
  cbv zeta. destruct (IsConnected c); cbn [negb].
  - destruct resolved as [jid|err].
    + destruct (wa_SendMessage c jid (OutConversation message)) eqn:Hs;
        cbn [fst snd length]; (split; [lia|]); split; eauto.
      * split; [discriminate|]. intros (_ & jid' & Hj & Hn).
        inversion Hj; subst. congruence.
      * split; [eauto|reflexivity].
    + cbn [fst snd length]. split; [lia|]. split; [congruence|].
      split; [discriminate|]. intros (_ & jid & Hj & _). discriminate.
  - cbn [fst snd length]. split; [lia|]. split; [congruence|].
    split; [discriminate|]. intros (H & _). discriminate.
Qed.

(** X27: [sendWhatsAppMessage], in both revisions, calls
    [client.SendMessage] at most once, and only when connected and
    with the JID its recipient rule gives, carrying the text as the
    conversation; it reports success exactly when it is connected, the
    recipient resolves and that call returns [nil]. *)
Theorem sendWhatsAppMessage_success_iff (c : Session)
    (recipient message : string) :
  let spec (resolved : types.JID + string) (r : (bool * string) * list Sent) :=
    (length (snd r) <= 1)%nat
    /\ (snd r <> [] ->
        IsConnected c = true
        /\ exists jid, resolved = inl jid
                       /\ snd r = [(jid, OutConversation message)])
    /\ (fst (fst r) = true
        <-> IsConnected c = true
            /\ exists jid, resolved = inl jid
                 /\ wa_SendMessage c jid (OutConversation message) = None) in
  spec (recipient_jid c recipient) (sendWhatsAppMessage c recipient message)
  /\ spec (sqs_revision.recipient_jid c recipient)
          (sqs_revision.sendWhatsAppMessage c recipient message).
Proof.
  cbv zeta. split.
  - apply (send_text_cases c (recipient_jid c recipient)).
  - apply (send_text_cases c (sqs_revision.recipient_jid c recipient)).
Qed.

Lemma sendWhatsAppMessage_outcomes (c : Session) (recipient message : string) :
  (exists m, sendWhatsAppMessage c recipient message = ((false, m), []))
  \/ (exists jid m,
        IsConnected c = true /\ recipient_jid c recipient = inl jid
        /\ wa_SendMessage c jid (OutConversation message) <> None
        /\ sendWhatsAppMessage c recipient message
           = ((false, m), [(jid, OutConversation message)]))
  \/ (exists jid m,
        IsConnected c = true /\ recipient_jid c recipient = inl jid
        /\ wa_SendMessage c jid (OutConversation message) = None
        /\ sendWhatsAppMessage c recipient message
           = ((true, m), [(jid, OutConversation message)])).
Proof.
  unfold sendWhatsAppMessage.
  destruct (IsConnected c); cbn [negb]; [|left; eauto].
  destruct (recipient_jid c recipient) as [jid|e]; [|left; eauto].
  destruct (wa_SendMessage c jid (OutConversation message)) as [e|] eqn:Hs.
  - right. left. exists jid. eexists. repeat split. now rewrite Hs.
  - right. right. exists jid. eexists. repeat split. exact Hs.
Qed.

(** A response that did not involve sending or logging. *)
Ltac rejected :=
  let H := fresh in
  let Hs := fresh in
  let Hp := fresh in
  unfold ret; intros H; inversion H; subst; cbn [code];
  split; [reflexivity|]; split;
  [ intros [Hs|Hp]; exfalso; [now apply Hs|now apply Hp] |];
  split; [discriminate|]; split; [reflexivity|]; tauto.

(** X28: the handler of [/api/send] of main.go, whenever it returns a
    response.  The database is never touched.  A WhatsApp message is
    sent, or a request is logged to the backend, only for a POST whose
    body decodes with a non-empty recipient and message.  Status 200
    means the text was sent once and [client.SendMessage] returned
    [nil]; with any other status nothing was logged to the backend.
    The status is one of 405, 400, 500 and 200. *)
Theorem apiSend_sends_then_logs (w : World) (c : Session) (r : HttpRequest)
    (s s' : Proc) (resp : HttpResponse) (sent : list Sent) :
  apiSend w c r s = (Done (resp, sent), s') ->
  db s' = db s
  /\ (sent <> [] \/ posts s' <> posts s ->
      Method r = "POST"
      /\ exists req, decoded_body r = inl req
                     /\ smr_Recipient req <> "" /\ smr_Message req <> "")
  /\ (code resp = 200 ->
      exists req jid,
        decoded_body r = inl req
        /\ sent = [(jid, OutConversation (smr_Message req))]
        /\ wa_SendMessage c jid (OutConversation (smr_Message req)) = None)
  /\ (code resp <> 200 -> posts s' = posts s)
  /\ (code resp = 405 \/ code resp = 400 \/ code resp = 500
      \/ code resp = 200).
Proof.
  unfold apiSend.
  destruct (String.eqb_spec (Method r) "POST") as [Hm|Hm]; cbn [negb];
    [|rejected].
  destruct (decoded_body r) as [req|e] eqn:Hdec; [|rejected].
  destruct (is_empty (smr_Recipient req)) eqn:Hr; cbn [orb]; [rejected|].
  destruct (is_empty (smr_Message req)) eqn:Hmsg; [rejected|].
  apply is_empty_false in Hr, Hmsg.
  assert (Hvalid : Method r = "POST"
                   /\ exists req0, @inl _ string req = inl req0
                        /\ smr_Recipient req0 <> "" /\ smr_Message req0 <> "")
    by eauto.
  destruct (sendWhatsAppMessage_outcomes c (smr_Recipient req)
              (smr_Message req))
    as [(m & ->) | [(jid & m & _ & _ & _ & ->) | (jid & m & _ & _ & Hnil & ->)]].
  - unfold bind, ret. intros H. inversion H; subst. cbn [code].
    split; [reflexivity|]. split; [intros _; exact Hvalid|].
    split; [discriminate|]. split; [reflexivity|]. tauto.
  - unfold bind, ret. intros H. inversion H; subst. cbn [code].
    split; [reflexivity|]. split; [intros _; exact Hvalid|].
    split; [discriminate|]. split; [reflexivity|]. tauto.
  - destruct (Store_ID (session_client c)) as [me|];
      [|unfold bind, panic; discriminate].
    destruct (forwarders_frame w (types.User me) (smr_Message req)
                (smr_Recipient req) "" (time_Now w) s)
      as ((Hdb & _ & _ & _) & _).
    unfold bind at 1 2.
    destruct (logMessage w (types.User me) (smr_Message req)
                (smr_Recipient req) (time_Now w) s) as [[err| |] s1];
      try discriminate.
    cbn [snd] in Hdb.
    assert (Hgoal : forall logged,
      (Done ({| code := 200;
                body := Json true m logged |},
             [(jid, OutConversation (smr_Message req))]), s1)
      = (Done (resp, sent), s') ->
      db s' = db s
      /\ (sent <> [] \/ posts s' <> posts s ->
          Method r = "POST"
          /\ exists req0, @inl _ string req = inl req0
                /\ smr_Recipient req0 <> "" /\ smr_Message req0 <> "")
      /\ (code resp = 200 ->
          exists req0 jid0,
            @inl _ string req = inl req0
            /\ sent = [(jid0, OutConversation (smr_Message req0))]
            /\ wa_SendMessage c jid0 (OutConversation (smr_Message req0))
               = None)
      /\ (code resp <> 200 -> posts s' = posts s)
      /\ (code resp = 405 \/ code resp = 400 \/ code resp = 500
          \/ code resp = 200)).
    { intros logged H. inversion H; subst. cbn [code].
      split; [exact Hdb|]. split; [intros _; exact Hvalid|].
      split; [intros _; exists req, jid; auto|].
      split; [intros Hc; now contradiction Hc|]. tauto. }
    destruct err; unfold ret; apply Hgoal.
Qed.

Lemma apiSend_sends_then_logs_witness :
  exists req jid,
    @inl _ string {| smr_Recipient := "1555"; smr_Message := "hi" |} = inl req
    /\ [ (types.mkJID "1555" "s.whatsapp.net", OutConversation "hi") ]
       = [(jid, OutConversation (smr_Message req))]
    /\ wa_SendMessage sample_session jid (OutConversation (smr_Message req))
       = None.
Proof.
  refine (proj1 (proj2 (proj2 (apiSend_sends_then_logs
            (sample_world "secret" (Response 200 "200 OK" [])) sample_session
            {| Method := "POST";
               decoded_body :=
                 inl {| smr_Recipient := "1555"; smr_Message := "hi" |} |}
            fresh _ _ _ eq_refl))) eq_refl).
Defined.

Lemma memberJIDs_failure (c : Session) (members : list string)
    (resp : sqs_revision.CreateGroupResponse) :
  sqs_revision.memberJIDs c members = inr resp ->
  sqs_revision.Success resp = false.
Proof.
  induction members as [|m rest IH]; cbn [sqs_revision.memberJIDs];
    [discriminate|].
  destruct (is_empty (strings_TrimSpace c m)); [exact IH|].
  destruct (if Contains (strings_TrimSpace c m) "@" then _ else _)
    as [jid|e].
  - destruct (sqs_revision.memberJIDs c rest) as [jids|resp'];
      [discriminate|].
    intros H. inversion H; subst. now apply IH.
  - intros H. inversion H. reflexivity.
Qed.

(** X29: [createWhatsAppGroup] never returns a Go error and calls
    [client.CreateGroup] at most once, only when the client is
    connected, the trimmed group name is not empty, the member list is
    not empty, the name has at most 25 bytes and every member that has
    an ["@"] parses.  It reports success exactly when that call was
    made and returned a group, whose JID is then in the response. *)
Theorem createWhatsAppGroup_validates (c : Session)
    (req : sqs_revision.CreateGroupRequest) :
  let r := sqs_revision.createWhatsAppGroup c req in
  let resp := fst (fst r) in
  let calls := snd r in
  snd (fst r) = None
  /\ (length calls <= 1)%nat
  /\ (calls <> [] ->
      IsConnected c = true
      /\ strings_TrimSpace c (sqs_revision.GroupName req) <> ""
      /\ sqs_revision.Members req <> []
      /\ (String.length (sqs_revision.GroupName req) <= 25)%nat
      /\ exists jids,
           sqs_revision.memberJIDs c (sqs_revision.Members req) = inl jids
           /\ calls = [ (sqs_revision.GroupName req, jids,
                         wa_GenerateMessageID c) ])
  /\ (sqs_revision.Success resp = true
      <-> exists jids gid,
            calls = [ (sqs_revision.GroupName req, jids,
                       wa_GenerateMessageID c) ]
            /\ wa_CreateGroup c (sqs_revision.GroupName req) jids
                 (wa_GenerateMessageID c) = inl gid
            /\ sqs_revision.GroupJID resp
               = JID_String (session_client c) gid).
Proof.
  cbv zeta. unfold sqs_revision.createWhatsAppGroup.
  assert (Hrej : forall m : string,
    let r : sqs_revision.CreateGroupResponse * error
            * list (string * list types.JID * string) :=
      ({| sqs_revision.Success := false; sqs_revision.GroupJID := "";
          sqs_revision.ResponseMessage := m |}, None, []) in
    snd (fst r) = None
    /\ (length (snd r) <= 1)%nat
    /\ (snd r <> [] ->
        IsConnected c = true
        /\ strings_TrimSpace c (sqs_revision.GroupName req) <> ""
        /\ sqs_revision.Members req <> []
        /\ (String.length (sqs_revision.GroupName req) <= 25)%nat
        /\ exists jids,
             sqs_revision.memberJIDs c (sqs_revision.Members req) = inl jids
             /\ snd r = [ (sqs_revision.GroupName req, jids,
                           wa_GenerateMessageID c) ])
    /\ (sqs_revision.Success (fst (fst r)) = true
        <-> exists jids gid,
              snd r = [ (sqs_revision.GroupName req, jids,
                         wa_GenerateMessageID c) ]
              /\ wa_CreateGroup c (sqs_revision.GroupName req) jids
                   (wa_GenerateMessageID c) = inl gid
              /\ sqs_revision.GroupJID (fst (fst r))
                 = JID_String (session_client c) gid)).
  { intros m. cbv zeta. cbn [fst snd length sqs_revision.Success].
    split; [reflexivity|]. split; [lia|]. split; [congruence|].
    split; [discriminate|]. intros (jids & gid & H & _). discriminate H. }
  destruct (IsConnected c) eqn:Hconn; cbn [negb]; [|apply Hrej].
  destruct (is_empty (strings_TrimSpace c (sqs_revision.GroupName req)))
    eqn:Hname; cbn [orb]; [apply Hrej|].
  destruct (Z.eqb_spec (Z.of_nat (length (sqs_revision.Members req))) 0)
    as [Hz|Hz]; [apply Hrej|].
  destruct (Z.gtb_spec (Z.of_nat (String.length (sqs_revision.GroupName req)))
              25) as [Hlen|Hlen]; [apply Hrej|].
  apply is_empty_false in Hname.
  assert (Hmem : sqs_revision.Members req <> []).
  { intros H. rewrite H in Hz. now apply Hz. }
  destruct (sqs_revision.memberJIDs c (sqs_revision.Members req))
    as [jids|resp] eqn:Hj.
  - destruct (wa_CreateGroup c (sqs_revision.GroupName req) jids
                (wa_GenerateMessageID c)) as [gid|e] eqn:Hcreate;
      cbn [fst snd length sqs_revision.Success sqs_revision.GroupJID];
      (split; [reflexivity|]); (split; [lia|]);
      (split; [intros _; repeat split; try assumption; try lia; eauto|]).
    + split; [intros _; exists jids, gid; auto|reflexivity].
    + split; [discriminate|]. intros (jids' & gid & H & Hc & _).
      inversion H; subst. congruence.
  - cbn [fst snd length]. split; [reflexivity|]. split; [lia|].
    split; [congruence|]. rewrite (memberJIDs_failure c _ resp Hj).
    split; [discriminate|]. intros (jids & gid & H & _). discriminate H.
Qed.

(** X30: members given as phone numbers.  When no trimmed member has an
    ["@"], the member loop never fails: it skips the members that are
    blank after trimming and turns every other one, in order, into the
    JID on ["s.whatsapp.net"] whose user is the trimmed member with
    every ["+"], ["-"] and space removed. *)
Theorem memberJIDs_phone_numbers (c : Session) (members : list string) :
  (forall m, In m members -> Contains (strings_TrimSpace c m) "@" = false) ->
  sqs_revision.memberJIDs c members
  = inl (map (fun m => types.mkJID
                         (sqs_revision.strip_phone (strings_TrimSpace c m))
                         "s.whatsapp.net")
           (List.filter (fun m => negb (is_empty (strings_TrimSpace c m)))
              members))
  /\ (forall m ch, In ch (list_ascii_of_string
                            (sqs_revision.strip_phone m)) ->
        ch <> "+"%char /\ ch <> "-"%char /\ ch <> " "%char).
Proof.
  intros Hall. split.
  - induction members as [|m rest IH]; [reflexivity|].
    cbn [sqs_revision.memberJIDs List.filter].
    assert (IH' := IH (fun x Hx => Hall x (or_intror Hx))).
    destruct (is_empty (strings_TrimSpace c m)); cbn [negb]; [exact IH'|].
    rewrite (Hall m (or_introl eq_refl)), IH'. reflexivity.
  - intros m. induction m as [|a m IH]; intros ch; simpl; [tauto|].
    destruct (Ascii.eqb_spec a "+"); [simpl; apply IH|].
    destruct (Ascii.eqb_spec a "-"); [simpl; apply IH|].
    destruct (Ascii.eqb_spec a " "); [simpl; apply IH|].
    simpl. intros [<-|Hin]; [auto|now apply IH].
Qed.

Lemma memberJIDs_phone_numbers_witness :
  sqs_revision.memberJIDs sample_session ["+91 98765-43210"; ""; "15550001"]
  = inl [ types.mkJID "919876543210" "s.whatsapp.net";
          types.mkJID "15550001" "s.whatsapp.net" ].
Proof.
  apply (proj1 (memberJIDs_phone_numbers sample_session
                  ["+91 98765-43210"; ""; "15550001"]
                  ltac:(intros m [<-|[<-|[<-|[]]]]; reflexivity))).
Defined.

Lemma sendWhatsAppMessage_success_iff_witness :
  fst (fst (sqs_revision.sendWhatsAppMessage sample_session
              "120363041-1600000000" "hi")) = true.
Proof.
  apply (proj2 (proj2 (proj2 (sendWhatsAppMessage_success_iff sample_session
                                "120363041-1600000000" "hi")))).
  split; [reflexivity|].
  exists (types.mkJID "120363041-1600000000" "g.us").
  split; reflexivity.
Defined.

Lemma createWhatsAppGroup_validates_witness :
  sqs_revision.Success
    (fst (fst (sqs_revision.createWhatsAppGroup sample_session
                 {| sqs_revision.GroupName := "Family";
                    sqs_revision.Members := ["+91 98765-43210"] |})))
  = true.
Proof.
  apply (proj2 (proj2 (proj2 (createWhatsAppGroup_validates sample_session
                  {| sqs_revision.GroupName := "Family";
                     sqs_revision.Members := ["+91 98765-43210"] |})))).
  exists [types.mkJID "919876543210" "s.whatsapp.net"],
         (types.mkJID "120363099" "g.us").
  repeat split.
Defined.
